(** * Qiubit wallet extension: request broker and signing pipeline

    A shallow embedding of the JavaScript sources
      - [src/utils/osm1.js]            (OSM-1 / OTX-1 message formats),
      - [src/services/DappService.js]  (connections and pending requests),
      - the in-page provider script    ([sendRequest] and its timeout, the
        methods of the provider, [request], [on], [off], [once], [emit]),
      - the content script             (the relay of requests and responses),
      - the background service worker  ([getWalletFromStorage],
        [requestApproval], [handleConnect], [handleDisconnect],
        [handleGetAccounts], [handleGetPublicKey],
        [handleGetEncryptedBalance], [handleSignMessage],
        [handleSignTransaction], [handleSendTransaction], [ensureNonce],
        [signTransactionOnly], [signAndBroadcastTransaction],
        [signMessageWithKey], [handleResolveApproval]),
    followed by the properties of the specification that concern them and by
    further properties of the code.

    Conventions.
      - A JavaScript string is a Rocq [string]: a sequence of code units
        below 256, compared code unit by code unit.
      - A JavaScript number is an IEEE 754 binary64 value, here a
        [spec_float] with precision 53 and maximal exponent 1024, rounded to
        nearest, ties to even, by the operations of [SpecFloat].
      - An object is the list of its own properties in the order in which
        [Object.keys] and [JSON.stringify] enumerate them: array indices
        first, in increasing order, then the other names in the order of
        their creation.
      - A [Map] is a [gmap]; a promise is followed in a table of
        settlements, under the id that its [resolve] and [reject] are
        stored with.
      - An [async] handler is cut where it waits for an approval: the part
        before, and the part that resumes once the promise is settled.
      - [Date.now()], [crypto.randomUUID()] and the outcome of a network or
        storage call are inputs of the functions that read them.
      - [atob], [btoa], SHA-256 and the [tweetnacl] signatures are given by
        the platform, and [decryptSession] by the module [utils/crypto]:
        they are variables of the sections that use them.
      - The counter [requestId] of the provider is an integer; a property
        that depends on the number printing of an id assumes it below
        [2 ^ 53], where [++requestId] is exact. *)

From Stdlib Require Import ZArith Lia Ascii.
From Stdlib Require String.
From Stdlib Require Import Strings.Byte.
From Stdlib Require Import Floats.SpecFloat.
From stdpp Require Import base option gmap strings list fin_maps sorting.

Local Open Scope Z_scope.

(** ** Strings as the code uses them *)

Module Str.

Definition chars (s : string) : list ascii := String.list_ascii_of_string s.
Definition ofChars (l : list ascii) : string := String.string_of_list_ascii l.

Definition code (c : ascii) : Z := Z.of_nat (nat_of_ascii c).

Definition isDigit (c : ascii) : bool := (48 <=? code c) && (code c <=? 57).
Definition digitVal (c : ascii) : Z := code c - 48.

(** [s.padEnd(n, '0')] *)
Definition padEnd0 (n : nat) (s : string) : string :=
  s +:+ ofChars (replicate (n - String.length s)%nat "0"%char).

(** [s.substring(0, n)] *)
Definition prefix (n : nat) (s : string) : string := ofChars (take n (chars s)).

(** [s.replace(/^0+/, '')] *)
Fixpoint stripLeadingZeros (s : string) : string :=
  match s with
  | String "0"%char r => stripLeadingZeros r
  | _ => s
  end.

(** [s.split(sep)] for a one-character separator: never empty. *)
Fixpoint split (sep : ascii) (s : string) : list string :=
  match s with
  | EmptyString => [EmptyString]
  | String c r =>
      if Ascii.eqb c sep then EmptyString :: split sep r
      else match split sep r with
           | p :: ps => String c p :: ps
           | [] => [String c EmptyString]
           end
  end.

(** ASCII white space, as skipped by the numeric conversions. *)
Definition isSpace (c : ascii) : bool :=
  let n := code c in
  (n =? 32) || ((9 <=? n) && (n <=? 13)) || (n =? 160).

Fixpoint trimStart (s : string) : string :=
  match s with
  | String c r => if isSpace c then trimStart r else s
  | EmptyString => s
  end.

Definition rev (s : string) : string := ofChars (reverse (chars s)).
Definition trim (s : string) : string := rev (trimStart (rev (trimStart s))).

(** Decimal digits of a non-negative integer, most significant first. *)
Fixpoint digitsFuel (fuel : nat) (n : Z) (acc : string) : string :=
  match fuel with
  | O => acc
  | S f =>
      let acc' := String (ascii_of_nat (Z.to_nat (48 + n mod 10))) acc in
      if n / 10 =? 0 then acc' else digitsFuel f (n / 10) acc'
  end.

Definition ofNat10 (n : Z) : string :=
  digitsFuel (S (Z.to_nat (Z.log2 n))) n EmptyString.

(** [z.toString()] for an integer [z]. *)
Definition ofZ (z : Z) : string :=
  if z <? 0 then String "-"%char (ofNat10 (- z)) else ofNat10 z.

(** The value of a string of decimal digits; [None] when a character is
    not a digit. The empty string has value 0. *)
Fixpoint digitsValue (acc : Z) (s : string) : option Z :=
  match s with
  | EmptyString => Some acc
  | String c r => if isDigit c then digitsValue (10 * acc + digitVal c) r else None
  end.

(** A string of decimal digits, and the integer it writes. *)
Fixpoint allDigits (s : string) : bool :=
  match s with
  | EmptyString => true
  | String c r => isDigit c && allDigits r
  end.

Definition valueOf (s : string) : Z := default 0 (digitsValue 0 s).

(** The longest prefix of digits and what follows it. *)
Fixpoint spanDigits (s : string) : string * string :=
  match s with
  | String c r =>
      if isDigit c then let '(d, t) := spanDigits r in (String c d, t)
      else (EmptyString, s)
  | EmptyString => (EmptyString, EmptyString)
  end.

(** [s.toLowerCase()] on the code units below 256 *)
Definition lowerChar (c : ascii) : ascii :=
  let n := code c in
  if ((65 <=? n) && (n <=? 90)) || ((192 <=? n) && (n <=? 222) && negb (n =? 215))
  then ascii_of_nat (Z.to_nat (n + 32)) else c.

Definition toLowerCase (s : string) : string := ofChars (lowerChar <$> chars s).

Fixpoint takeWhileNotSpace (l : list ascii) : list ascii :=
  match l with
  | c :: r => if isSpace c then [] else c :: takeWhileNotSpace r
  | [] => []
  end.

(** The last element of [s.split(/\s+/)] *)
Definition lastWord (s : string) : string :=
  ofChars (reverse (takeWhileNotSpace (reverse (chars s)))).

(** A text in which ['] stands for the double quote. *)
Definition text (s : string) : string :=
  ofChars ((fun c => if Ascii.eqb c "'" then ascii_of_nat 34 else c) <$> chars s).

End Str.

(** ** Numbers: IEEE 754 binary64 *)

Module Num.

Definition number : Type := spec_float.
Definition prec : Z := 53.
Definition emax : Z := 1024.

Definition NaN : number := S754_nan.
Definition ofZ (z : Z) : number := binary_normalize prec emax z 0 false.
Definition mul : number -> number -> number := SFmul prec emax.
Definition div : number -> number -> number := SFdiv prec emax.
Definition add : number -> number -> number := SFadd prec emax.
Definition sub : number -> number -> number := SFsub prec emax.
Definition ltb : number -> number -> bool := SFltb.
Definition eqb : number -> number -> bool := SFeqb.

Definition isNaN (x : number) : bool :=
  match x with S754_nan => true | _ => false end.

(** ToBoolean on a number: false for +0, -0 and NaN. *)
Definition truthy (x : number) : bool :=
  match x with
  | S754_zero _ | S754_nan => false
  | _ => true
  end.

(** The quotient [n / d] of two positive integers, correctly rounded. *)
Definition ofRatio (neg : bool) (n d : Z) : number :=
  if n =? 0 then S754_zero neg
  else let '(m, e, l) := SFdiv_core_binary prec emax n 0 d 0 in
       binary_round_aux prec emax neg m e l.

(** The decimal [m * 10^k], [0 <= m], correctly rounded. *)
Definition ofDecimal (neg : bool) (m k : Z) : number :=
  if 0 <=? k then ofRatio neg (m * 10 ^ k) 1 else ofRatio neg m (10 ^ (- k)).

(** [Math.floor] *)
Definition floor (x : number) : number :=
  match x with
  | S754_finite s m e =>
      if 0 <=? e then x
      else
        let q := Z.shiftr (Zpos m) (- e) in
        let exact := Z.shiftl q (- e) =? Zpos m in
        if s then ofZ (- (if exact then q else q + 1)) else ofZ q
  | _ => x
  end.

(** The integer that [x] is, when it is one. *)
Definition toZ (x : number) : option Z :=
  match x with
  | S754_zero _ => Some 0
  | S754_finite s m e =>
      if 0 <=? e then Some ((if s then -1 else 1) * (Zpos m * 2 ^ e))
      else let q := Z.shiftr (Zpos m) (- e) in
           if Z.shiftl q (- e) =? Zpos m then Some ((if s then -1 else 1) * q) else None
  | _ => None
  end.

(** The exact value of a positive finite number, as a fraction. *)
Definition fraction (m : positive) (e : Z) : Z * Z :=
  if 0 <=? e then (Zpos m * 2 ^ e, 1) else (Zpos m, 2 ^ (- e)).

(** *** Number::toString, radix 10 *)

(** [10^p <= n/d] *)
Definition geqPow10 (n d p : Z) : bool :=
  if 0 <=? p then d * 10 ^ p <=? n else d <=? n * 10 ^ (- p).

Fixpoint log10Down (fuel : nat) (n d p : Z) : Z :=
  match fuel with
  | O => p
  | S f => if geqPow10 n d p then p else log10Down f n d (p - 1)
  end.

Fixpoint log10Up (fuel : nat) (n d p : Z) : Z :=
  match fuel with
  | O => p
  | S f => if geqPow10 n d (p + 1) then log10Up f n d (p + 1) else p
  end.

(** The integer [p] with [10^p <= n/d < 10^(p+1)]. *)
Definition ilog10 (n d : Z) : Z :=
  let est := ((Z.log2 n - Z.log2 d) * 30103) / 100000 in
  log10Up 4 n d (log10Down 4 n d est).

Definition scaledFloor (n d k : Z) : Z :=
  if 0 <=? k then n / (d * 10 ^ k) else (n * 10 ^ (- k)) / d.

(** Compares [n/d] with the midpoint [(lo + 1/2) * 10^k]. *)
Definition cmpMid (n d k lo : Z) : comparison :=
  if 0 <=? k then Z.compare (2 * n) ((2 * lo + 1) * 10 ^ k * d)
  else Z.compare (2 * n * 10 ^ (- k)) ((2 * lo + 1) * d).

(** A decimal of [nd] digits that reads back as [x], the closest one. *)
Definition candidate (x : number) (n d p nd : Z) : option Z :=
  let k := p - nd + 1 in
  let lo := scaledFloor n d k in
  let okLo := (0 <? lo) && eqb (ofDecimal false lo k) x in
  let okHi := eqb (ofDecimal false (lo + 1) k) x in
  match okLo, okHi with
  | true, true =>
      Some match cmpMid n d k lo with
           | Lt => lo
           | Gt => lo + 1
           | Eq => if Z.even lo then lo else lo + 1
           end
  | true, false => Some lo
  | false, true => Some (lo + 1)
  | false, false => None
  end.

Fixpoint shortest (fuel : nat) (x : number) (n d p nd : Z) : Z * Z :=
  match fuel with
  | O => (scaledFloor n d (p - nd + 1), p - nd + 1)
  | S f =>
      match candidate x n d p nd with
      | Some s => (s, p - nd + 1)
      | None => shortest f x n d p (nd + 1)
      end
  end.

Fixpoint stripZeros (fuel : nat) (s k : Z) : Z * Z :=
  match fuel with
  | O => (s, k)
  | S f => if (s mod 10 =? 0) && negb (s =? 0) then stripZeros f (s / 10) (k + 1) else (s, k)
  end.

Definition zeros (n : Z) : string := Str.ofChars (replicate (Z.to_nat n) "0"%char).

(** The layout rules of Number::toString for digits [ds] and a decimal
    point after [n] digits. *)
Definition layout (ds : string) (n : Z) : string :=
  let k := Z.of_nat (String.length ds) in
  if (k <=? n) && (n <=? 21) then ds +:+ zeros (n - k)
  else if (0 <? n) && (n <=? 21) then
    Str.prefix (Z.to_nat n) ds +:+ "." +:+ Str.ofChars (drop (Z.to_nat n) (Str.chars ds))
  else if (-6 <? n) && (n <=? 0) then "0." +:+ zeros (- n) +:+ ds
  else
    let e := n - 1 in
    let es := (if e <? 0 then "-" else "+") +:+ Str.ofNat10 (Z.abs e) in
    if k =? 1 then ds +:+ "e" +:+ es
    else Str.prefix 1 ds +:+ "." +:+ Str.ofChars (drop 1 (Str.chars ds)) +:+ "e" +:+ es.

Definition toStringPos (m : positive) (e : Z) : string :=
  let '(n, d) := fraction m e in
  let p := ilog10 n d in
  let '(s, k) := shortest 17 (S754_finite false m e) n d p 1 in
  let '(s', k') := stripZeros 400 s k in
  let ds := Str.ofNat10 s' in
  layout ds (Z.of_nat (String.length ds) + k').

Definition toString (x : number) : string :=
  match x with
  | S754_nan => "NaN"
  | S754_zero _ => "0"
  | S754_infinity s => if s then "-Infinity" else "Infinity"
  | S754_finite s m e => (if s then "-" else EmptyString) +:+ toStringPos m e
  end.

(** *** Reading numbers from strings *)

(** An unsigned decimal literal at the start of [s]:
    digits, an optional fraction, an optional exponent. Returns the
    digits read as an integer, the power of ten and the rest of [s]. *)
Definition readExponent (s : string) : Z * string :=
  match s with
  | String c r =>
      if (Ascii.eqb c "e" || Ascii.eqb c "E")%bool then
        let '(neg, r') :=
          match r with
          | String "-"%char t => (true, t)
          | String "+"%char t => (false, t)
          | _ => (false, r)
          end in
        let '(ds, t) := Str.spanDigits r' in
        match ds with
        | EmptyString => (0, s)
        | _ => let v := default 0 (Str.digitsValue 0 ds) in
               ((if neg then - v else v), t)
        end
      else (0, s)
  | EmptyString => (0, s)
  end.

Definition readDecimal (s : string) : option (Z * Z * string) :=
  let '(ip, r1) := Str.spanDigits s in
  let '(fp, r2, dot) :=
    match r1 with
    | String "."%char r => let '(f, t) := Str.spanDigits r in (f, t, true)
    | _ => (EmptyString, r1, false)
    end in
  match ip, fp with
  | EmptyString, EmptyString => None
  | _, _ =>
      let '(ex, r3) := readExponent r2 in
      Some (default 0 (Str.digitsValue 0 (ip +:+ fp)),
            ex - Z.of_nat (String.length fp), r3)
  end.

Definition isPrefix (p s : string) : bool := String.prefix p s.

(** An unsigned literal, possibly [Infinity], at the start of [s]. *)
Definition readUnsigned (neg : bool) (s : string) : option (number * string) :=
  if isPrefix "Infinity" s
  then Some (S754_infinity neg, Str.ofChars (drop 8 (Str.chars s)))
  else match readDecimal s with
       | Some (m, k, r) => Some (ofDecimal neg m k, r)
       | None => None
       end.

Definition readSigned (s : string) : option (number * string) :=
  match s with
  | String "-"%char r => readUnsigned true r
  | String "+"%char r => readUnsigned false r
  | _ => readUnsigned false s
  end.

(** [parseFloat(s)]: the longest numeric prefix after leading white
    space, [NaN] when there is none. *)
Definition parseFloat (s : string) : number :=
  match readSigned (Str.trimStart s) with
  | Some (x, _) => x
  | None => NaN
  end.

Definition radixDigit (radix : Z) (c : ascii) : option Z :=
  let n := Str.code c in
  let v := if Str.isDigit c then n - 48
           else if (97 <=? n) && (n <=? 102) then n - 87
           else if (65 <=? n) && (n <=? 70) then n - 55
           else 99 in
  if v <? radix then Some v else None.

Fixpoint radixValue (radix acc : Z) (s : string) : option Z :=
  match s with
  | EmptyString => Some acc
  | String c r =>
      match radixDigit radix c with
      | Some v => radixValue radix (radix * acc + v) r
      | None => None
      end
  end.

(** A literal [0x..], [0o..], [0b..] with at least one digit. *)
Definition readRadix (s : string) : option (option Z) :=
  match s with
  | String "0"%char (String c r) =>
      let radix :=
        if (Ascii.eqb c "x" || Ascii.eqb c "X")%bool then Some 16
        else if (Ascii.eqb c "o" || Ascii.eqb c "O")%bool then Some 8
        else if (Ascii.eqb c "b" || Ascii.eqb c "B")%bool then Some 2
        else None in
      match radix with
      | Some b => Some (match r with
                        | EmptyString => None
                        | _ => radixValue b 0 r
                        end)
      | None => None
      end
  | _ => None
  end.

(** StringToNumber, the conversion behind [Number(s)] and the arithmetic
    coercions: the whole trimmed string must be a numeric literal. *)
Definition ofString (s : string) : number :=
  let t := Str.trim s in
  match t with
  | EmptyString => S754_zero false
  | _ =>
      match readRadix t with
      | Some (Some z) => ofZ z
      | Some None => NaN
      | None =>
          match readSigned t with
          | Some (x, EmptyString) => x
          | _ => NaN
          end
      end
  end.

(** StringToBigInt, the conversion behind [BigInt(s)]; [None] is the
    SyntaxError. *)
Definition bigIntOfString (s : string) : option Z :=
  let t := Str.trim s in
  match t with
  | EmptyString => Some 0
  | _ =>
      match readRadix t with
      | Some r => r
      | None =>
          match t with
          | String "-"%char (String c r) => Z.opp <$> Str.digitsValue 0 (String c r)
          | String "+"%char (String c r) => Str.digitsValue 0 (String c r)
          | String "-"%char EmptyString | String "+"%char EmptyString => None
          | _ => Str.digitsValue 0 t
          end
      end
  end.

End Num.

(** ** Values, objects and JSON *)

Module Js.

(** The values that cross the message channels: what structured clone and
    JSON carry. An object is the list of its own enumerable properties in
    the order [Object.keys] reports them. *)
#[warnings="-register-all"]
Inductive value : Type :=
| VUndefined
| VNull
| VBool (b : bool)
| VNumber (x : Num.number)
| VString (s : string)
| VArray (items : list value)
| VObject (props : list (string * value)).

Definition object : Type := list (string * value).

Definition isDefined (v : value) : bool :=
  match v with VUndefined => false | _ => true end.

(** ToBoolean *)
Definition truthy (v : value) : bool :=
  match v with
  | VUndefined | VNull => false
  | VBool b => b
  | VNumber x => Num.truthy x
  | VString s => negb (String.eqb s EmptyString)
  | VArray _ | VObject _ => true
  end.

(** [a || b] *)
Definition or (a b : value) : value := if truthy a then a else b.

(** [typeof v === 'string'] *)
Definition isString (v : value) : bool :=
  match v with VString _ => true | _ => false end.

(** [v === s] for a string [s] *)
Definition isStr (v : value) (s : string) : bool :=
  match v with VString t => String.eqb t s | _ => false end.

Fixpoint join (sep : string) (l : list string) : string :=
  match l with
  | [] => EmptyString
  | [x] => x
  | x :: r => x +:+ sep +:+ join sep r
  end.

(** ToString *)
Fixpoint toString (v : value) : string :=
  match v with
  | VUndefined => "undefined"
  | VNull => "null"
  | VBool b => if b then "true" else "false"
  | VNumber x => Num.toString x
  | VString s => s
  | VArray items =>
      join "," ((fix each (l : list value) : list string :=
                   match l with
                   | [] => []
                   | VUndefined :: r | VNull :: r => EmptyString :: each r
                   | x :: r => toString x :: each r
                   end) items)
  | VObject _ => "[object Object]"
  end.

(** ToNumber *)
Definition toNumber (v : value) : Num.number :=
  match v with
  | VUndefined => Num.NaN
  | VNull => Num.ofZ 0
  | VBool b => Num.ofZ (if b then 1 else 0)
  | VNumber x => x
  | VString s => Num.ofString s
  | VArray _ | VObject _ => Num.ofString (toString v)
  end.

(** [a === b]. Two objects or arrays are equal when they are one object;
    the values compared here come from different messages. *)
Definition strictEq (a b : value) : bool :=
  match a, b with
  | VUndefined, VUndefined | VNull, VNull => true
  | VBool x, VBool y => Bool.eqb x y
  | VNumber x, VNumber y => Num.eqb x y
  | VString x, VString y => String.eqb x y
  | _, _ => false
  end.

(** [x < v] for a number [x] *)
Definition ltNumber (x : Num.number) (v : value) : bool :=
  Num.ltb x (toNumber v).

(** Property reads [v.k] on a value that may not be an object: the names
    read by the code are not properties of a string, a number, a boolean or
    an array. *)
Definition asObject (v : value) : object :=
  match v with VObject o => o | _ => [] end.

(** [parseInt(v)]: the integer at the start of [ToString(v)], after white
    space and a sign; [0x] selects radix 16. *)
Fixpoint spanRadix (radix : Z) (s : string) : string * string :=
  match s with
  | String c r =>
      match Num.radixDigit radix c with
      | Some _ => let '(d, t) := spanRadix radix r in (String c d, t)
      | None => (EmptyString, s)
      end
  | EmptyString => (EmptyString, EmptyString)
  end.

Definition parseIntUnsigned (neg : bool) (s : string) : Num.number :=
  let '(radix, body) :=
    match s with
    | String "0"%char (String c r) =>
        if (Ascii.eqb c "x" || Ascii.eqb c "X")%bool then (16, r) else (10, s)
    | _ => (10, s)
    end in
  match spanRadix radix body with
  | (EmptyString, _) => Num.NaN
  | (ds, _) =>
      match Num.radixValue radix 0 ds with
      | Some 0 => S754_zero neg
      | Some n => Num.ofZ (if neg then - n else n)
      | None => Num.NaN
      end
  end.

Definition parseInt (v : value) : Num.number :=
  match Str.trimStart (toString v) with
  | String "-"%char r => parseIntUnsigned true r
  | String "+"%char r => parseIntUnsigned false r
  | s => parseIntUnsigned false s
  end.

(** *** Own properties *)

(** [o.k], [undefined] when absent *)
Fixpoint get (o : object) (k : string) : value :=
  match o with
  | [] => VUndefined
  | (k', v) :: r => if String.eqb k' k then v else get r k
  end.

Definition keys (o : object) : list string := o.*1.

Definition has (o : object) (k : string) : bool :=
  bool_decide (k ∈ keys o).

(** An array index: the canonical decimal form of an integer below
    [2^32 - 1]. Properties with such names are enumerated first, in
    increasing numeric order, whatever the order of their creation. *)
Definition arrayIndex (k : string) : option Z :=
  match k with
  | EmptyString => None
  | String "0"%char EmptyString => Some 0
  | String "0"%char _ => None
  | _ =>
      match Str.digitsValue 0 k with
      | Some n => if n <? 2 ^ 32 - 1 then Some n else None
      | None => None
      end
  end.

Fixpoint replace (o : object) (k : string) (v : value) : object :=
  match o with
  | [] => []
  | (k', v') :: r =>
      if String.eqb k' k then (k', v) :: r else (k', v') :: replace r k v
  end.

(** A new index property goes before the first property that is not an
    index or is a larger one. *)
Fixpoint insertIndex (o : object) (i : Z) (k : string) (v : value) : object :=
  match o with
  | [] => [(k, v)]
  | (k', v') :: r =>
      match arrayIndex k' with
      | Some j => if j <? i then (k', v') :: insertIndex r i k v
                  else (k, v) :: o
      | None => (k, v) :: o
      end
  end.

(** The own property [k] of [o] is created, or gets a new value. *)
Definition set (o : object) (k : string) (v : value) : object :=
  if has o k then replace o k v
  else match arrayIndex k with
       | Some i => insertIndex o i k v
       | None => o ++ [(k, v)]
       end.

(** [o[k] = v] for a name [k] that is not known in advance, on an object
    that was created empty: the name [__proto__] reaches the setter of
    [Object.prototype] and creates no own property. *)
Definition assign (o : object) (k : string) (v : value) : object :=
  if String.eqb k "__proto__" then o else set o k v.

(** [{...o, k1: v1, ...}]: the properties of [o] are created first, in
    their order, then each listed one. *)
Definition assignAll (o : object) (more : list (string * value)) : object :=
  foldl (fun acc kv => set acc kv.1 kv.2) o more.

Definition literal (ps : list (string * value)) : object := assignAll [] ps.

(** *** JSON.stringify *)

Definition dquote : ascii := ascii_of_nat 34.

Definition hexDigit (n : Z) : ascii :=
  ascii_of_nat (Z.to_nat (if n <? 10 then 48 + n else 87 + n)).

Definition escapeChar (c : ascii) : string :=
  let n := Str.code c in
  if n =? 34 then String "\"%char (String dquote EmptyString)
  else if n =? 92 then "\\"
  else if n =? 8 then "\b"
  else if n =? 9 then "\t"
  else if n =? 10 then "\n"
  else if n =? 12 then "\f"
  else if n =? 13 then "\r"
  else if n <? 32 then
    "\u00" +:+ String (hexDigit (n / 16)) (String (hexDigit (n mod 16)) EmptyString)
  else String c EmptyString.

Fixpoint escape (s : string) : string :=
  match s with
  | EmptyString => EmptyString
  | String c r => escapeChar c +:+ escape r
  end.

Definition quote (s : string) : string :=
  String dquote (escape s +:+ String dquote EmptyString).

(** [JSON.stringify(v)]; [None] stands for the result [undefined]. *)
Fixpoint stringify (v : value) : option string :=
  match v with
  | VUndefined => None
  | VNull => Some "null"
  | VBool b => Some (if b then "true" else "false")
  | VNumber x =>
      Some match x with
           | S754_nan | S754_infinity _ => "null"
           | _ => Num.toString x
           end
  | VString s => Some (quote s)
  | VArray items =>
      Some ("[" +:+
            join "," ((fix each (l : list value) : list string :=
                         match l with
                         | [] => []
                         | x :: r => default "null" (stringify x) :: each r
                         end) items)
            +:+ "]")
  | VObject props =>
      Some ("{" +:+
            join "," ((fix each (l : list (string * value)) : list string :=
                         match l with
                         | [] => []
                         | (k, x) :: r =>
                             match stringify x with
                             | Some s => (quote k +:+ ":" +:+ s) :: each r
                             | None => each r
                             end
                         end) props)
            +:+ "}")
  end.

(** [JSON.stringify(o)] for an object [o]: always a string. *)
Definition stringifyObject (o : object) : string :=
  default EmptyString (stringify (VObject o)).

End Js.

(** ** Calls that may throw *)

(** The outcome of a call: its value, or the [message] of the error it
    throws (of the rejection, for a promise). *)
Inductive Completion (A : Type) : Type :=
| Normal (a : A)
| Throw (message : string).

Arguments Normal {A} a.
Arguments Throw {A} message.

#[global] Instance Completion_ret : MRet Completion := fun A a => Normal a.

#[global] Instance Completion_bind : MBind Completion :=
  fun A B f m => match m with Normal a => f a | Throw e => Throw e end.

#[global] Instance Completion_fmap : FMap Completion :=
  fun A B f m => match m with Normal a => Normal (f a) | Throw e => Throw e end.

(** ** Byte arrays *)

Module Bytes.

Definition bytes : Type := list Byte.byte.

#[global] Instance byte_eq_dec : EqDecision Byte.byte := Byte.byte_eq_dec.

Definition ofN (n : N) : byte := default Byte.x00 (Byte.of_N n).

(** [Uint8Array.from(s, c => c.charCodeAt(0))] for a binary string *)
Definition ofBinaryString (s : string) : bytes := byte_of_ascii <$> Str.chars s.

(** [String.fromCharCode.apply(null, b)] *)
Definition toBinaryString (b : bytes) : string := Str.ofChars (ascii_of_byte <$> b).

(** [new TextEncoder().encode(s)]: UTF-8. A code unit below 128 is one
    byte, one from 128 to 255 is two. *)
Definition utf8Char (c : ascii) : bytes :=
  let n := N_of_ascii c in
  if (n <? 128)%N then [ofN n]
  else [ofN (192 + n / 64)%N; ofN (128 + n mod 64)%N].

Definition utf8 (s : string) : bytes := Str.chars s ≫= utf8Char.

End Bytes.

(** ** OSM-1 and OTX-1: [src/utils/osm1.js] *)

Module Osm1.

Definition OSM_VERSION : string := "OSM-1".

(** ['\x19Octra Signed Message:\n'] *)
Definition MESSAGE_PREFIX : string :=
  String (ascii_of_nat 25) ("Octra Signed Message:" +:+ String (ascii_of_nat 10) EmptyString).

Definition BASE58_ALPHABET : string :=
  "123456789ABCDEFGHJKLMNPQRSTUVWXYZabcdefghijkmnopqrstuvwxyz".

Definition newline : string := String (ascii_of_nat 10) EmptyString.

(** [BASE58_ALPHABET[i]] *)
Definition alphabetAt (i : N) : ascii :=
  default "1"%char (String.get (N.to_nat i) BASE58_ALPHABET).

(** The loop [while (num > 0n)] of [base58Encode]. *)
Fixpoint base58Loop (fuel : nat) (num : N) (encoded : string) : string :=
  match fuel with
  | O => encoded
  | S f =>
      if (0 <? num)%N
      then base58Loop f (num / 58)%N (String (alphabetAt (num mod 58)%N) encoded)
      else encoded
  end.

Fixpoint leadingZeros (b : Bytes.bytes) : nat :=
  match b with
  | Byte.x00 :: r => S (leadingZeros r)
  | _ => O
  end.

Definition bigOfBytes (b : Bytes.bytes) : N :=
  foldl (fun num x => (num * 256 + Byte.to_N x)%N) 0%N b.

Definition base58Encode (b : Bytes.bytes) : string :=
  match b with
  | [] => EmptyString
  | _ =>
      let num := bigOfBytes b in
      let encoded := base58Loop (N.size_nat num) num EmptyString in
      Str.ofChars (replicate (leadingZeros b) "1"%char) +:+ encoded
  end.

(** [Object.keys(payload).sort()]: the default order of [sort] compares
    strings code unit by code unit. *)
Definition sortedKeys (payload : Js.object) : list string :=
  merge_sort String.le (Js.keys payload).

(** The loop that fills [sortedPayload]. *)
Definition sortedPayload (payload : Js.object) : Js.object :=
  foldl (fun acc key =>
           if Js.isDefined (Js.get payload key)
           then Js.assign acc key (Js.get payload key)
           else acc)
        [] (sortedKeys payload).

(** The keys that the loop keeps. *)
Definition kept (payload : Js.object) (k : string) : Prop :=
  Js.isDefined (Js.get payload k) = true /\ k <> "__proto__".

#[global] Instance kept_dec (payload : Js.object) (k : string) : Decision (kept payload k).
Proof. unfold kept. apply _. Defined.

Definition serializePayload (payload : Js.object) : string :=
  Js.stringifyObject (sortedPayload payload).

Definition createSigningMessage (payload : Js.object) : string :=
  let serialized := serializePayload payload in
  MESSAGE_PREFIX +:+ Str.ofZ (Z.of_nat (String.length serialized)) +:+ newline +:+ serialized.

(** *** OTX-1 *)

Definition MICRO_UNITS : Num.number := Num.ofZ 1000000.

(** [v.toString()]: a TypeError, here [None], on [undefined] and [null]. *)
Definition toStringMethod (v : Js.value) : option string :=
  match v with
  | Js.VUndefined | Js.VNull => None
  | _ => Some (Js.toString v)
  end.

(** [parts[1] || ''] *)
Definition secondPart (parts : list string) : string :=
  match parts with
  | _ :: p :: _ => p
  | _ => EmptyString
  end.

Definition octToMicroString (str : string) : string :=
  let parts := Str.split "."%char str in
  let intPart := default EmptyString (head parts) in
  let fracPart := Str.prefix 6 (Str.padEnd0 6 (secondPart parts)) in
  match Str.stripLeadingZeros (intPart +:+ fracPart) with
  | EmptyString => "0"
  | result => result
  end.

Definition octToMicro (oct : Js.value) : option string :=
  octToMicroString <$> toStringMethod oct.

(** [BigInt(v)]; [None] is the SyntaxError, RangeError or TypeError. *)
Definition toBigInt (v : Js.value) : option Z :=
  match v with
  | Js.VString s => Num.bigIntOfString s
  | Js.VBool b => Some (if b then 1 else 0)
  | Js.VNumber x => Num.toZ x
  | Js.VArray _ | Js.VObject _ => Num.bigIntOfString (Js.toString v)
  | Js.VUndefined | Js.VNull => None
  end.

Definition microToOct (micro : Js.value) : option Num.number :=
  num ← toBigInt micro;
  Some (Num.div (Num.ofZ num) MICRO_UNITS).

(** [createTransactionPayload(options)] at the time [now]: the payload and
    the message, or [None] when a conversion throws. *)
Definition createTransactionPayload (options : Js.object) (now : Z)
  : option (Js.object * Js.value) :=
  let amount := Js.get options "amount" in
  amountMicro ← (if Js.isString amount then Some amount
                 else Js.VString <$> octToMicro amount);
  amountNum ← (if Js.isString amount then Js.VNumber <$> microToOct amount
               else Some amount);
  Some (Js.literal
          [("from", Js.get options "from");
           ("to_", Js.get options "to");
           ("amount", amountMicro);
           ("nonce", Js.VNumber (Js.toNumber (Js.get options "nonce")));
           ("ou", Js.VString (if Num.ltb (Js.toNumber amountNum) (Num.ofZ 1000)
                              then "1" else "3"));
           ("timestamp", Js.VNumber (Num.div (Num.ofZ now) (Num.ofZ 1000)))],
        Js.get options "message").

(** *** Verification *)

(** [response.payload] is an object; the signature and the public key are
    base64 strings. *)
Record Response : Type := {
  payload : Js.object;
  signature : string;
  publicKey : string;
  address : Js.value
}.

Record Options : Type := {
  expectedDomain : Js.value;
  checkExpiry : Js.value
}.

(** [options = {}] *)
Definition noOptions : Options :=
  {| expectedDomain := Js.VUndefined; checkExpiry := Js.VUndefined |}.

Record Validations : Type := {
  signatureValid : bool;
  versionValid : bool;
  domainMatch : bool;
  notExpired : bool;
  addressMatch : bool
}.

(** [{valid, validations}], or [{valid: false, error}] from the [catch]. *)
Inductive VerifyResult : Type :=
| Checked (valid : bool) (validations : Validations)
| Caught (error : string).

Definition valid (r : VerifyResult) : bool :=
  match r with Checked v _ => v | Caught _ => false end.

Section Platform.

(** [atob], which throws on a string that is not base64, and [btoa]. *)
Variable atob : string -> Completion string.
Variable btoa : string -> string.
(** [nacl.sign.detached.verify(msg, sig, publicKey)], which throws on a
    signature or a key of the wrong size. *)
Variable naclVerify : Bytes.bytes -> Bytes.bytes -> Bytes.bytes -> Completion bool.
(** [crypto.subtle.digest('SHA-256', data)] *)
Variable sha256 : Bytes.bytes -> Bytes.bytes.

Definition base64ToUint8Array (base64 : string) : Completion Bytes.bytes :=
  Bytes.ofBinaryString <$> atob base64.

Definition uint8ArrayToBase64 (b : Bytes.bytes) : string :=
  btoa (Bytes.toBinaryString b).

(** ['oct' + base58Encode(await sha256(publicKey))] *)
Definition expectedAddress (publicKey : Bytes.bytes) : string :=
  "oct" +:+ base58Encode (sha256 publicKey).

Definition verifyOSM1Signature (response : Response) (options : Options) (now : Z)
  : VerifyResult :=
  let checkExpiry :=
    match checkExpiry options with
    | Js.VUndefined => Js.VBool true
    | v => v
    end in
  let signedMessage := createSigningMessage (payload response) in
  let messageBytes := Bytes.utf8 signedMessage in
  match base64ToUint8Array (signature response) with
  | Throw e => Caught e
  | Normal sig =>
  match base64ToUint8Array (publicKey response) with
  | Throw e => Caught e
  | Normal pk =>
      match naclVerify messageBytes sig pk with
      | Throw e => Caught e
      | Normal signatureValid =>
          let versionValid := Js.isStr (Js.get (payload response) "version") OSM_VERSION in
          let domainMatch :=
            negb (Js.truthy (expectedDomain options))
            || Js.strictEq (Js.get (payload response) "domain") (expectedDomain options) in
          let expiresAt := Js.get (payload response) "expiresAt" in
          let notExpired :=
            negb (Js.truthy checkExpiry)
            || negb (Js.truthy expiresAt)
            || Js.ltNumber (Num.ofZ now) expiresAt in
          let addressMatch := Js.isStr (address response) (expectedAddress pk) in
          Checked (signatureValid && versionValid && domainMatch && notExpired && addressMatch)
                  {| signatureValid := signatureValid;
                     versionValid := versionValid;
                     domainMatch := domainMatch;
                     notExpired := notExpired;
                     addressMatch := addressMatch |}
      end
  end
  end.

End Platform.

(** *** Hexadecimal text *)

(** [b.toString(16)] for a byte [b] *)
Definition toString16 (b : Byte.byte) : string :=
  let n := Z.of_N (Byte.to_N b) in
  if n <? 16 then String (Js.hexDigit n) EmptyString
  else String (Js.hexDigit (n / 16)) (String (Js.hexDigit (n mod 16)) EmptyString).

(** [s.padStart(2, '0')] *)
Definition padStart2 (s : string) : string :=
  Str.ofChars (replicate (2 - String.length s)%nat "0"%char) +:+ s.

(** [Array.from(buffer).map(b => b.toString(16).padStart(2, '0')).join('')] *)
Definition bufferToHex (buffer : Bytes.bytes) : string :=
  Js.join EmptyString ((fun b => padStart2 (toString16 b)) <$> buffer).

(** *** Payloads to sign *)

(** [x + v] for a number [x]: a string, an array or an object on the right
    makes it a concatenation. *)
Definition plus (x : Num.number) (v : Js.value) : Js.value :=
  match v with
  | Js.VString _ | Js.VArray _ | Js.VObject _ =>
      Js.VString (Num.toString x +:+ Js.toString v)
  | _ => Js.VNumber (Num.add x (Js.toNumber v))
  end.

(** [createOSM1Payload(options)]: [uuid] is the value of
    [crypto.randomUUID()], [now] and [nowExpiry] are the two readings of
    [Date.now()]. *)
Definition createOSM1Payload (options : Js.object) (uuid : string) (now nowExpiry : Z)
  : Js.object :=
  let payload :=
    Js.literal
      [("version", Js.VString OSM_VERSION);
       ("message", Js.get options "message");
       ("address", Js.get options "address");
       ("domain", Js.or (Js.get options "domain") (Js.VString "unknown"));
       ("nonce", Js.VString uuid);
       ("timestamp", Js.VNumber (Num.ofZ now))] in
  let payload :=
    if Js.isDefined (Js.get options "chainId")
    then Js.set payload "chainId" (Js.get options "chainId")
    else payload in
  if Js.truthy (Js.get options "expiresIn")
  then Js.set payload "expiresAt" (plus (Num.ofZ nowExpiry) (Js.get options "expiresIn"))
  else payload.


End Osm1.

(** ** Promises *)

(** The state of a promise: a continuation [resolve]/[reject] settles it
    once; later calls do nothing. *)
Inductive Settlement : Type :=
| Pending
| Resolved (result : Js.value)
| Rejected (error : Js.value).

(** [resolve(v)] and [reject(e)] of the promise [id] *)
Definition settle {K : Type} `{Countable K} (id : K) (s : Settlement)
  (ps : gmap K Settlement) : gmap K Settlement :=
  match ps !! id with
  | Some Pending => <[id := s]> ps
  | _ => ps
  end.

(** ** The in-page provider *)

Module Inpage.

(** [window.postMessage({type: 'OCTRA_REQUEST', id, method, params}, '*')] *)
Record Request : Type := {
  id : Z;
  method : string;
  params : Js.value
}.

(** [pendingRequests] maps an id to the [resolve] and [reject] of the
    promise returned for it, which [promises] follows under the same id.
    [timers] holds what [setTimeout] has registered: the time at which the
    callback is due and the id it closes over. *)
Record State : Type := {
  requestId : Z;
  pendingRequests : gset Z;
  promises : gmap Z Settlement;
  posted : list Request;
  timers : list (Z * Z)
}.

Definition initial : State :=
  {| requestId := 0; pendingRequests := ∅; promises := ∅; posted := []; timers := [] |}.

Definition TIMEOUT : Z := 300000.

(** [sendRequest(method, params)] at the time [now]: the id allocated
    and the state once the executor of the promise has run. *)
Definition sendRequest (method : string) (params : Js.value) (now : Z) (st : State)
  : Z * State :=
  let id := requestId st + 1 in
  (id,
   {| requestId := id;
      pendingRequests := {[id]} ∪ pendingRequests st;
      promises := <[id := Pending]> (promises st);
      posted := posted st ++ [{| id := id; method := method; params := params |}];
      timers := timers st ++ [(now + TIMEOUT, id)] |}).

Definition timeoutError : Js.value :=
  Js.VObject [("code", Js.VNumber (Num.ofZ 4100)); ("message", Js.VString "Request timeout")].

(** The callback given to [setTimeout] by the request [id] *)
Definition onTimeout (id : Z) (st : State) : State :=
  if bool_decide (id ∈ pendingRequests st) then
    {| requestId := requestId st;
       pendingRequests := pendingRequests st ∖ {[id]};
       promises := settle id (Rejected timeoutError) (promises st);
       posted := posted st;
       timers := timers st |}
  else st.

(** The listener of ['message']: [fromWindow] is [event.source === window]
    and [data] is [event.data]. *)
Definition onMessage (fromWindow : bool) (data : Js.object) (st : State) : State :=
  if negb fromWindow then st
  else if negb (Js.isStr (Js.get data "type") "OCTRA_RESPONSE") then st
  else
    match Js.get data "id" with
    | Js.VNumber x =>
        match Num.toZ x with
        | Some id =>
            if bool_decide (id ∈ pendingRequests st) then
              {| requestId := requestId st;
                 pendingRequests := pendingRequests st ∖ {[id]};
                 promises :=
                   settle id (if Js.truthy (Js.get data "error")
                              then Rejected (Js.get data "error")
                              else Resolved (Js.get data "result"))
                          (promises st);
                 posted := posted st;
                 timers := timers st |}
            else st
        | None => st
        end
    | _ => st
    end.

(** The event loop at the time [now]: the timers that are due run, in
    the order of their registration, and are forgotten. *)
Definition runTimers (now : Z) (st : State) : State :=
  let due := filter (fun t => t.1 <= now) (timers st) in
  let st' := foldl (fun s t => onTimeout t.2 s) st due in
  {| requestId := requestId st';
     pendingRequests := pendingRequests st';
     promises := promises st';
     posted := posted st';
     timers := filter (fun t => ¬ t.1 <= now) (timers st) |}.

(** What happens in the page, one event at a time: a call of
    [sendRequest], a ['message'] event, or the event loop reaching the
    time [now]. *)
Inductive Event : Type :=
| Send (method : string) (params : Js.value) (now : Z)
| Receive (fromWindow : bool) (data : Js.object)
| Tick (now : Z).

Definition step (st : State) (ev : Event) : State :=
  match ev with
  | Send method params now => (sendRequest method params now st).2
  | Receive fromWindow data => onMessage fromWindow data st
  | Tick now => runTimers now st
  end.

(** The event is a response message for the request [id]. *)
Definition answers (id : Z) (ev : Event) : bool :=
  match ev with
  | Receive true data =>
      Js.isStr (Js.get data "type") "OCTRA_RESPONSE"
      && match Js.get data "id" with
         | Js.VNumber x => bool_decide (Num.toZ x = Some id)
         | _ => false
         end
  | _ => false
  end.

(** The request [id], made at [sent], is either still waiting, with its
    timer registered, or has timed out. *)
Definition Waiting (id sent : Z) (st : State) : Prop :=
  (id ∈ pendingRequests st) /\ (promises st !! id = Some Pending)
  /\ ((sent + TIMEOUT, id) ∈ timers st).

Definition TimedOut (id : Z) (st : State) : Prop :=
  (id ∉ pendingRequests st) /\ (promises st !! id = Some (Rejected timeoutError)).

Definition Tracked (id sent : Z) (st : State) : Prop :=
  id <= requestId st /\ (Waiting id sent st \/ TimedOut id st).

(** Every id that was given out is at most [requestId]. *)
Definition Allocated (st : State) : Prop :=
  forall id, (id ∈ pendingRequests st \/ is_Some (promises st !! id)) -> id <= requestId st.

(** *** The provider object [window.octra] *)

(** The state of the provider. [isConnected] is only ever assigned [true]
    and [false]. *)
Record Provider : Type := {
  isConnected : bool;
  selectedAddress : Js.value;
  networkId : Js.value;
  chainId : Js.value
}.

Definition provider : Provider :=
  {| isConnected := false; selectedAddress := Js.VNull;
     networkId := Js.VNull; chainId := Js.VNull |}.

(** What a method reads from the page: [window.location.origin],
    [document.title], [crypto.randomUUID()] and [Date.now()]. *)
Record Page : Type := {
  location : string;
  title : string;
  uuid : string;
  now : Z;
  (** the time at which [setTimeout] is called *)
  sent : Z
}.

(** How a call of a method of the provider goes on: the promise it returns
    is already settled, or it is the promise of the request [id]. *)
Inductive Call : Type :=
| Answered (result : Js.value)
| Refused (error : Js.value)
| Failed (typeError : string)
| Forwarded (id : Z).

(** [{ code: 4100, message: 'Not connected' }] *)
Definition notConnected : Js.value :=
  Js.VObject [("code", Js.VNumber (Num.ofZ 4100)); ("message", Js.VString "Not connected")].

Definition forward (method : string) (params : Js.object) (page : Page) (st : State)
  : Call * State :=
  let '(id, st') := sendRequest method (Js.VObject params) (sent page) st in
  (Forwarded id, st').

(** The properties that [{...v}] copies. *)
Definition spread (v : Js.value) : Js.object :=
  match v with
  | Js.VObject o => o
  | Js.VArray items => imap (fun i x => (Str.ofZ (Z.of_nat i), x)) items
  | Js.VString s =>
      imap (fun i c => (Str.ofZ (Z.of_nat i), Js.VString (String c EmptyString)))
           (Str.chars s)
  | _ => []
  end.

(** [v.k] throws on [undefined] and [null]. *)
Definition readable (v : Js.value) : bool :=
  match v with Js.VUndefined | Js.VNull => false | _ => true end.

(** [connect(options = {})], up to the request *)
Definition connect (options : Js.value) (page : Page) (st : State) : Call * State :=
  match options with
  | Js.VNull => (Failed "Cannot read properties of null", st)
  | _ =>
      let appInfo :=
        Js.or (Js.get (Js.asObject options) "appInfo")
              (Js.VObject [("name", Js.VString (title page));
                           ("url", Js.VString (location page))]) in
      forward "connect" [("appInfo", appInfo)] page st
  end.

(** [v.length > 0] *)
Definition nonEmpty (v : Js.value) : bool :=
  match v with
  | Js.VArray items => negb (bool_decide (items = []))
  | Js.VString s => negb (String.eqb s EmptyString)
  | Js.VObject o => Num.ltb (Num.ofZ 0) (Js.toNumber (Js.get o "length"))
  | _ => false
  end.

(** [v[0]] *)
Definition first (v : Js.value) : Js.value :=
  match v with
  | Js.VArray items => default Js.VUndefined (head items)
  | Js.VString (String c _) => Js.VString (String c EmptyString)
  | Js.VObject o => Js.get o "0"
  | _ => Js.VUndefined
  end.

(** The rest of [connect], once the request is resolved with [result]:
    the state of the provider, whether ['connect'] is emitted, and how the
    promise of [connect] settles. *)
Definition connectResume (result : Js.value) (p : Provider) : Provider * bool * Call :=
  if negb (readable result) then (p, false, Failed "Cannot read properties of undefined")
  else
    let accounts := Js.get (Js.asObject result) "accounts" in
    if Js.truthy accounts && nonEmpty accounts then
      ({| isConnected := true;
          selectedAddress :=
            Js.or (Js.get (Js.asObject result) "selectedAddress") (first accounts);
          networkId := Js.get (Js.asObject result) "networkId";
          chainId := Js.get (Js.asObject result) "chainId" |},
       true, Answered result)
    else (p, false, Answered result).

(** [disconnect()] up to the request, and its rest once the request is
    resolved. *)
Definition disconnect (page : Page) (st : State) : Call * State :=
  forward "disconnect" [] page st.

Definition disconnectResume (p : Provider) : Provider :=
  {| isConnected := false; selectedAddress := Js.VNull;
     networkId := networkId p; chainId := chainId p |}.

Definition getAccounts (p : Provider) (page : Page) (st : State) : Call * State :=
  if negb (isConnected p) then (Answered (Js.VArray []), st)
  else forward "getAccounts" [] page st.

Definition getPublicKey (p : Provider) (page : Page) (st : State) : Call * State :=
  if negb (isConnected p) then (Refused notConnected, st)
  else forward "getPublicKey" [] page st.

Definition getBalance (p : Provider) (address : Js.value) (page : Page) (st : State)
  : Call * State :=
  forward "getBalance" [("address", Js.or address (selectedAddress p))] page st.

(** The payload that [signMessage] builds from a string. *)
Definition messagePayload (p : Provider) (message : string) (page : Page) : Js.object :=
  Js.literal
    [("version", Js.VString "OSM-1");
     ("message", Js.VString message);
     ("address", selectedAddress p);
     ("domain", Js.VString (location page));
     ("nonce", Js.VString (uuid page));
     ("timestamp", Js.VNumber (Num.ofZ (now page)))].

(** The payload that [signMessage] builds from a value that is not a
    string: [{version: OSM_VERSION, ...messageOrPayload, address: ...}]. *)
Definition givenPayload (p : Provider) (given : Js.value) (page : Page) : Js.object :=
  let own := Js.asObject given in
  Js.assignAll []
    ([("version", Js.VString "OSM-1")] ++ spread given ++
     [("address", Js.or (Js.get own "address") (selectedAddress p));
      ("domain", Js.or (Js.get own "domain") (Js.VString (location page)));
      ("nonce", Js.or (Js.get own "nonce") (Js.VString (uuid page)));
      ("timestamp", Js.or (Js.get own "timestamp") (Js.VNumber (Num.ofZ (now page))))]).

Definition signMessage (p : Provider) (messageOrPayload : Js.value) (page : Page)
  (st : State) : Call * State :=
  if negb (isConnected p) then (Refused notConnected, st)
  else
    match messageOrPayload with
    | Js.VString message =>
        forward "signMessage" [("payload", Js.VObject (messagePayload p message page))] page st
    | _ =>
        if negb (readable messageOrPayload)
        then (Failed "Cannot read properties of undefined", st)
        else forward "signMessage"
               [("payload", Js.VObject (givenPayload p messageOrPayload page))] page st
    end.

(** [{...txParams, from: txParams.from || this.selectedAddress}] *)
Definition transactionParams (p : Provider) (txParams : Js.value) : Js.object :=
  Js.assignAll []
    (spread txParams ++
     [("from", Js.or (Js.get (Js.asObject txParams) "from") (selectedAddress p))]).

(** [signTransaction] and [sendTransaction] differ in the method they
    request. *)
Definition transact (method : string) (p : Provider) (txParams : Js.value) (page : Page)
  (st : State) : Call * State :=
  if negb (isConnected p) then (Refused notConnected, st)
  else if negb (readable txParams) then (Failed "Cannot read properties of undefined", st)
  else forward method (transactionParams p txParams) page st.

Definition signTransaction : Provider -> Js.value -> Page -> State -> Call * State :=
  transact "signTransaction".

Definition sendTransaction : Provider -> Js.value -> Page -> State -> Call * State :=
  transact "sendTransaction".

(** [request(args)], up to the first request: for
    ['octra_requestAccounts'] the promise then goes on as [connect] does
    and gives the [accounts] of its result. *)
Definition request (p : Provider) (args : Js.value) (page : Page) (st : State)
  : Call * State :=
  if negb (readable args) then (Failed "Cannot destructure", st)
  else
    let method := Js.get (Js.asObject args) "method" in
    let params := Js.get (Js.asObject args) "params" in
    if Js.isStr method "octra_requestAccounts" then connect Js.VUndefined page st
    else if Js.isStr method "octra_accounts" then getAccounts p page st
    else if Js.isStr method "octra_chainId" then (Answered (chainId p), st)
    else if Js.isStr method "octra_signMessage" then signMessage p params page st
    else if Js.isStr method "octra_sendTransaction" then sendTransaction p params page st
    else (Refused (Js.VObject
                     [("code", Js.VNumber (Num.ofZ 4200));
                      ("message", Js.VString ("Method not supported: " +:+ Js.toString method))]),
          st).

(** *** The event emitter *)

(** A listener is a callback of the page or the wrapper that [once] makes
    around one; every wrapper is a function of its own, told apart by its
    serial number. The callbacks of the page are taken not to call [on],
    [off], [once] or [emit] themselves. *)
Inductive Listener : Type :=
| Plain (callback : nat)
| Wrapper (serial : nat) (callback : nat).

#[global] Instance Listener_eq_dec : EqDecision Listener.
Proof. solve_decision. Defined.

(** [eventListeners]: the array of each event, and the number of wrappers
    made so far. *)
Record Emitter : Type := {
  eventListeners : gmap string (list Listener);
  wrappers : nat
}.

(** [listeners.splice(listeners.indexOf(l), 1)] when [l] is found *)
Fixpoint removeFirst (l : Listener) (listeners : list Listener) : list Listener :=
  match listeners with
  | [] => []
  | x :: r => if decide (x = l) then r else x :: removeFirst l r
  end.

Definition on (event : string) (l : Listener) (e : Emitter) : Emitter :=
  {| eventListeners :=
       <[event := default [] (eventListeners e !! event) ++ [l]]> (eventListeners e);
     wrappers := wrappers e |}.

Definition off (event : string) (l : Listener) (e : Emitter) : Emitter :=
  match eventListeners e !! event with
  | Some listeners =>
      {| eventListeners := <[event := removeFirst l listeners]> (eventListeners e);
         wrappers := wrappers e |}
  | None => e
  end.

Definition once (event : string) (callback : nat) (e : Emitter) : Emitter :=
  on event (Wrapper (wrappers e) callback)
     {| eventListeners := eventListeners e; wrappers := S (wrappers e) |}.

(** [listeners.forEach(cb => cb(data))] from the index [k], with [n]
    indices left to visit: the length is read once, an index that the array
    no longer has is passed over, and a wrapper takes itself out of the
    array before it calls its callback. Returns the callbacks called, in
    order, and the array at the end. *)
Fixpoint forEach (n k : nat) (listeners : list Listener) (called : list nat)
  : list nat * list Listener :=
  match n with
  | O => (called, listeners)
  | S n' =>
      match listeners !! k with
      | None => forEach n' (S k) listeners called
      | Some (Plain callback) => forEach n' (S k) listeners (called ++ [callback])
      | Some (Wrapper serial callback) =>
          forEach n' (S k) (removeFirst (Wrapper serial callback) listeners)
                  (called ++ [callback])
      end
  end.

(** [emit(event, data)]: the callbacks called and the emitter afterwards. *)
Definition emit (event : string) (e : Emitter) : list nat * Emitter :=
  match eventListeners e !! event with
  | Some listeners =>
      let '(called, listeners') := forEach (length listeners) 0 listeners [] in
      (called, {| eventListeners := <[event := listeners']> (eventListeners e);
                  wrappers := wrappers e |})
  | None => ([], e)
  end.

(** The callback that a listener ends up calling. *)
Definition callbackOf (l : Listener) : nat :=
  match l with Plain callback => callback | Wrapper _ callback => callback end.

Definition isPlain (l : Listener) : bool :=
  match l with Plain _ => true | Wrapper _ _ => false end.

End Inpage.

(** ** The content script *)

Module Content.

(** What [chrome.runtime.sendMessage] is given for a request of the page. *)
Definition dappRequest (data : Js.object) (origin title favicon : Js.value) : Js.object :=
  [("type", Js.VString "DAPP_REQUEST");
   ("id", Js.get data "id");
   ("method", Js.get data "method");
   ("params", Js.get data "params");
   ("origin", origin);
   ("title", title);
   ("favicon", favicon)].

(** The listener of ['message']: the request that is passed on to the
    worker, if any. *)
Definition onMessage (fromWindow : bool) (data : Js.value) (origin title favicon : Js.value)
  : option Js.object :=
  if negb fromWindow then None
  else if negb (Js.truthy data) then None
  else if negb (Js.isStr (Js.get (Js.asObject data) "type") "OCTRA_REQUEST") then None
  else Some (dappRequest (Js.asObject data) origin title favicon).

(** [{ code: 4900, message: error.message || 'Internal error' }] *)
Definition relayError (message : string) : Js.value :=
  Js.VObject [("code", Js.VNumber (Num.ofZ 4900));
              ("message", Js.or (Js.VString message) (Js.VString "Internal error"))].

(** The message posted back to the page for the request [id], once
    [sendMessage] has completed with [response]. Reading [response.result]
    of [undefined] or [null] throws a TypeError, whose message is
    [typeError]; it is caught like a failure of [sendMessage]. *)
Definition reply (typeError : string) (id : Js.value) (response : Completion Js.value)
  : Js.object :=
  match response with
  | Normal Js.VUndefined | Normal Js.VNull =>
      [("type", Js.VString "OCTRA_RESPONSE"); ("id", id);
       ("error", relayError typeError)]
  | Normal r =>
      [("type", Js.VString "OCTRA_RESPONSE"); ("id", id);
       ("result", Js.get (Js.asObject r) "result");
       ("error", Js.get (Js.asObject r) "error")]
  | Throw e =>
      [("type", Js.VString "OCTRA_RESPONSE"); ("id", id); ("error", relayError e)]
  end.

End Content.

(** ** [src/services/DappService.js] *)

Module DappService.

(** An entry of [pendingRequests]: [{...request, createdAt: Date.now()}]. *)
Record Request : Type := {
  request : Js.object;
  createdAt : Z
}.

(** [continuations] follows the promises whose [resolve] and [reject] the
    pending requests may carry, under the id of the request. *)
Record State : Type := {
  connections : gmap string Js.object;
  pendingRequests : gmap string Request;
  continuations : gmap string Settlement
}.

Definition withConnections (st : State) (cs : gmap string Js.object) : State :=
  {| connections := cs; pendingRequests := pendingRequests st;
     continuations := continuations st |}.

Definition withPending (st : State) (ps : gmap string Request) : State :=
  {| connections := connections st; pendingRequests := ps;
     continuations := continuations st |}.

(** [isConnected(origin)]: [connection && connection.connected] *)
Definition isConnected (origin : string) (st : State) : Js.value :=
  match connections st !! origin with
  | Some connection => Js.get connection "connected"
  | None => Js.VUndefined
  end.

Definition getConnection (origin : string) (st : State) : option Js.object :=
  connections st !! origin.

Definition addConnection (origin : string) (info : Js.object) (now : Z) (st : State)
  : State :=
  withConnections st
    (<[origin := Js.assignAll info [("connected", Js.VBool true);
                                    ("connectedAt", Js.VNumber (Num.ofZ now))]]>
       (connections st)).

Definition removeConnection (origin : string) (st : State) : State :=
  withConnections st (delete origin (connections st)).

Definition addPendingRequest (requestId : string) (req : Js.object) (now : Z)
  (st : State) : State :=
  withPending st (<[requestId := {| request := req; createdAt := now |}]> (pendingRequests st)).

Definition getPendingRequest (requestId : string) (st : State) : option Request :=
  pendingRequests st !! requestId.

Definition removePendingRequest (requestId : string) (st : State) : State :=
  withPending st (delete requestId (pendingRequests st)).

(** [5 * 60 * 1000] *)
Definition expiry : Z := 5 * 60 * 1000.

(** [clearExpiredRequests()] at the time [now] *)
Definition clearExpiredRequests (now : Z) (st : State) : State :=
  withPending st (filter (fun kv => ¬ now - createdAt kv.2 > expiry) (pendingRequests st)).

End DappService.

(** ** The background service worker *)

Module Background.

(** An entry of [dappApprovals]. Its [resolve] and [reject] are those of
    the promise made by [requestApproval], found in [promises] under the
    same id. *)
Record Approval : Type := {
  type : string;
  origin : string;
  params : Js.object;
  wallet : option Js.object;
  timestamp : Z
}.

Record State : Type := {
  dappConnections : gmap string Js.object;
  dappApprovals : gmap string Approval;
  promises : gmap string Settlement;
  activeSessionCache : option Js.object;
  memorySessionKey : Js.value;
  (** the URLs given to [chrome.windows.create] *)
  windows : list string;
  (** [dapp_connections] in [chrome.storage.local] *)
  storedConnections : option (gmap string Js.object)
}.

Definition initial : State :=
  {| dappConnections := ∅; dappApprovals := ∅; promises := ∅;
     activeSessionCache := None; memorySessionKey := Js.VNull;
     windows := []; storedConnections := None |}.

(** What [chrome.storage.session.get(['dapp_wallet_session'])] followed by
    [JSON.parse] gives. *)
Inductive StorageRead : Type :=
| ReadFails
| ReadNothing
| ReadSession (session : Js.object).

Definition withSession (st : State) (cache : option Js.object) : State :=
  {| dappConnections := dappConnections st; dappApprovals := dappApprovals st;
     promises := promises st; activeSessionCache := cache;
     memorySessionKey := memorySessionKey st; windows := windows st;
     storedConnections := storedConnections st |}.

Definition withSessionKey (st : State) (key : Js.value) : State :=
  {| dappConnections := dappConnections st; dappApprovals := dappApprovals st;
     promises := promises st; activeSessionCache := activeSessionCache st;
     memorySessionKey := key; windows := windows st;
     storedConnections := storedConnections st |}.

Definition withApprovals (st : State) (approvals : gmap string Approval)
  (ps : gmap string Settlement) : State :=
  {| dappConnections := dappConnections st; dappApprovals := approvals;
     promises := ps; activeSessionCache := activeSessionCache st;
     memorySessionKey := memorySessionKey st; windows := windows st;
     storedConnections := storedConnections st |}.

(** [dappConnections] after a change, then [saveConnections()] *)
Definition withConnections (st : State) (cs : gmap string Js.object) : State :=
  {| dappConnections := cs; dappApprovals := dappApprovals st;
     promises := promises st; activeSessionCache := activeSessionCache st;
     memorySessionKey := memorySessionKey st; windows := windows st;
     storedConnections := Some cs |}.

(** The approval [id] and its promise are the same in both states. *)
Definition Same (id : string) (st st' : State) : Prop :=
  dappApprovals st' !! id = dappApprovals st !! id
  /\ promises st' !! id = promises st !! id.

(** [wallet.privateKey || wallet.privateKeyB64] *)
Definition keyOf (wallet : Js.object) : Js.value :=
  Js.or (Js.get wallet "privateKey") (Js.get wallet "privateKeyB64").

(** [!wallet || (!wallet.privateKey && !wallet.privateKeyB64)] *)
Definition isLocked (wallet : option Js.object) : bool :=
  match wallet with
  | None => true
  | Some w => negb (Js.truthy (keyOf w))
  end.

Definition approvalUrl (approvalId : string) : string :=
  "index.html#/dapp/approve?id=" +:+ approvalId.

(** [requestApproval(origin, type, params, wallet)], up to the promise it
    returns: [approvalId] is the value of [crypto.randomUUID()]. *)
Definition requestApproval (origin type : string) (params : Js.object)
  (wallet : option Js.object) (approvalId : string) (now : Z) (st : State) : State :=
  {| dappConnections := dappConnections st;
     dappApprovals :=
       <[approvalId := {| type := type; origin := origin; params := params;
                          wallet := wallet; timestamp := now |}]> (dappApprovals st);
     promises := <[approvalId := Pending]> (promises st);
     activeSessionCache := activeSessionCache st;
     memorySessionKey := memorySessionKey st;
     windows := windows st ++ [approvalUrl approvalId];
     storedConnections := storedConnections st |}.

(** A handler either returns its response or is suspended on the promise
    of an approval. *)
Inductive Step : Type :=
| Returned (response : Js.object)
| Awaiting (approvalId : string)
| Crashed (message : string).

Definition errorResponse (code : Z) (message : string) : Js.object :=
  [("error", Js.VObject [("code", Js.VNumber (Num.ofZ code));
                         ("message", Js.VString message)])].

Section Session.

(** [decryptSession(ciphertext, key)] of [utils/crypto] *)
Variable decryptSession : Js.value -> Js.value -> Completion Js.value.

(** The session that [getWalletFromStorage] works on: the cache, or what
    the session storage holds when the cache is empty. *)
Definition currentSession (st : State) (stored : StorageRead) : option Js.object :=
  match activeSessionCache st with
  | Some s => Some s
  | None => match stored with ReadSession s => Some s | _ => None end
  end.

(** The plaintext key of step 2, when that step returns. *)
Definition decrypted (session : Js.object) (key : Js.value) : option Js.value :=
  if Js.truthy (Js.get session "encryptedPrivateKey") && Js.truthy key then
    match decryptSession (Js.get session "encryptedPrivateKey") key with
    | Normal plaintextKey => if Js.truthy plaintextKey then Some plaintextKey else None
    | Throw _ => None
    end
  else None.

(** Both halves are present and decryption gives the key [k]. *)
Definition Unlocks (session : Js.object) (key k : Js.value) : Prop :=
  Js.truthy (Js.get session "encryptedPrivateKey") = true
  /\ Js.truthy key = true
  /\ decryptSession (Js.get session "encryptedPrivateKey") key = Normal k
  /\ Js.truthy k = true.

Definition getWalletFromStorage (stored : StorageRead) (st : State)
  : option Js.object * State :=
  let session := currentSession st stored in
  let st' := match activeSessionCache st, stored with
             | None, ReadSession s => withSession st (Some s)
             | _, _ => st
             end in
  match session with
  | Some s =>
      match decrypted s (memorySessionKey st) with
      | Some plaintextKey =>
          (Some (Js.assignAll s [("privateKey", plaintextKey);
                                 ("privateKeyB64", plaintextKey)]), st')
      | None =>
          if Js.truthy (keyOf s) then (Some s, st') else (None, st')
      end
  | None => (None, st')
  end.

(** [handleSyncSession(data)] *)
Definition handleSyncSession (data : Js.object) (stored : StorageRead) (st : State)
  : State :=
  if Js.truthy (Js.get data "sessionKey") then
    let st1 := withSessionKey st (Js.get data "sessionKey") in
    match stored with
    | ReadSession s => withSession st1 (Some s)
    | _ => st1
    end
  else if Js.truthy (Js.get data "session") then
    withSession st (Some (Js.asObject (Js.get data "session")))
  else st.

(** [handleConnect(origin, title, favicon, params)] up to its first
    suspension on an approval. *)
Definition handleConnect (origin : string) (title favicon : Js.value)
  (approvalId : string) (now : Z) (stored : StorageRead) (st : State)
  : Step * State :=
  let existing := default [] (dappConnections st !! origin) in
  if Js.truthy (Js.get existing "connected") then
    (Returned
       [("result", Js.VObject
           [("accounts", Js.VArray [Js.get existing "address"]);
            ("selectedAddress", Js.get existing "address");
            ("networkId", Js.or (Js.get existing "networkId") (Js.VString "testnet"));
            ("chainId", Js.or (Js.get existing "chainId") (Js.VNumber (Num.ofZ 2)))])],
     st)
  else
    let '(wallet, st1) := getWalletFromStorage stored st in
    (Awaiting approvalId,
     requestApproval origin "connect" [("title", title); ("favicon", favicon)]
                     wallet approvalId now st1).

(** The rest of [handleConnect], once the promise of the approval is
    settled. *)
Definition handleConnectResume (origin : string) (title favicon : Js.value)
  (outcome : Settlement) (now : Z) (stored : StorageRead) (st : State)
  : option (Js.object * State) :=
  match outcome with
  | Pending => None
  | Rejected err =>
      Some ([("error", Js.VObject
                [("code", Js.or (Js.get (Js.asObject err) "code") (Js.VNumber (Num.ofZ 4001)));
                 ("message", Js.or (Js.get (Js.asObject err) "message")
                                   (Js.VString "User rejected connection request"))])],
            st)
  | Resolved _ =>
      let '(wallet, st1) := getWalletFromStorage stored st in
      match wallet with
      | Some w =>
          if Js.truthy (keyOf w) then
            let connection :=
              [("origin", Js.VString origin); ("title", title); ("favicon", favicon);
               ("address", Js.get w "address"); ("connected", Js.VBool true);
               ("connectedAt", Js.VNumber (Num.ofZ now));
               ("networkId", Js.VString "mainnet"); ("chainId", Js.VNumber (Num.ofZ 2))] in
            Some ([("result", Js.VObject
                     [("accounts", Js.VArray [Js.get w "address"]);
                      ("selectedAddress", Js.get w "address");
                      ("publicKey", Js.get w "publicKeyB64");
                      ("networkId", Js.VString "mainnet");
                      ("chainId", Js.VNumber (Num.ofZ 2));
                      ("permissions", Js.VArray [Js.VString "sign"; Js.VString "balance"])])],
                  withConnections st1 (<[origin := connection]> (dappConnections st1)))
          else Some ([("error", Js.VString "Wallet still locked")], st1)
      | None => Some ([("error", Js.VString "Wallet still locked")], st1)
      end
  end.

End Session.

(** *** Nonces and signatures *)

(** A call of [nacl.sign.detached(message, secretKey)] *)
Record SignCall : Type := {
  message : Bytes.bytes;
  secretKey : Bytes.bytes
}.

(** A run of a signing function: the calls it made to the signature
    primitive, in order, and how it completed. *)
Definition Run (A : Type) : Type := list SignCall * Completion A.

(** The reply to [fetch(baseUrl + '/balance/' + address)], as far as
    [ensureNonce] reads it. *)
Inductive NonceLookup : Type :=
| LookupOk (nonce : Js.value)
| LookupNotOk
| LookupThrows.

(** [ensureNonce(txParams, address)]: the properties of [txParams] after
    the call. *)
Definition ensureNonce (txParams : Js.object) (lookup : NonceLookup) (now : Z)
  : Js.object :=
  match Js.get txParams "nonce" with
  | Js.VUndefined | Js.VNull =>
      match lookup with
      | LookupOk nonce =>
          let netNonce := Js.parseInt (Js.or nonce (Js.VNumber (Num.ofZ 0))) in
          Js.set txParams "nonce" (Js.VNumber (Num.add netNonce (Num.ofZ 1)))
      | LookupNotOk | LookupThrows =>
          Js.set txParams "nonce" (Js.VNumber (Num.ofZ now))
      end
  | _ => txParams
  end.

(** The lines under "Auto-fill nonce" of [handleSignTransaction] and
    [handleSendTransaction]: [txParams] is [params.transaction] or [params]
    itself, and the nonce is written into that very object. Writing a
    property of a primitive throws in a module. An array given as
    [params.transaction] has no [to], so that signing it fails whatever
    its nonce: it is left as it is. *)
Definition fillNonce (params : Js.object) (lookup : NonceLookup) (now : Z)
  : Completion Js.object :=
  let transaction := Js.get params "transaction" in
  if Js.truthy transaction then
    match transaction with
    | Js.VObject txParams =>
        Normal (Js.set params "transaction" (Js.VObject (ensureNonce txParams lookup now)))
    | Js.VArray _ => Normal params
    | _ => Throw "Cannot create property 'nonce'"
    end
  else Normal (ensureNonce params lookup now).

Definition micro : Num.number := Num.ofZ 1000000.

(** The reply of the node to the broadcast. *)
Record RpcReply : Type := {
  ok : bool;
  status : Z;
  statusText : string;
  text : string;
  (** [JSON.parse(text)] *)
  json : Completion Js.value
}.

Inductive Broadcast : Type :=
| FetchFails (message : string)
| FetchReplies (reply : RpcReply).

(** [json.k], which throws when [json] is [null] *)
Definition field (json : Completion Js.value) (k : string) : Completion Js.value :=
  match json with
  | Normal Js.VNull | Normal Js.VUndefined => Throw "Cannot read properties of null"
  | Normal v => Normal (Js.get (Js.asObject v) k)
  | Throw e => Throw e
  end.

Section Signing.

Variable decryptSession : Js.value -> Js.value -> Completion Js.value.
Variable atob : string -> Completion string.
Variable btoa : string -> string.
(** [nacl.sign.keyPair.fromSeed(seed)]: the public and the secret key; it
    throws on a seed that is not 32 bytes long. *)
Variable naclFromSeed : Bytes.bytes -> Completion (Bytes.bytes * Bytes.bytes).
(** [nacl.sign.detached(msg, secretKey)]; it throws on a key that is not
    64 bytes long. *)
Variable naclSign : Bytes.bytes -> Bytes.bytes -> Completion Bytes.bytes.

(** [params.transaction || params] *)
Definition txParamsOf (params : Js.object) : Js.object :=
  Js.asObject (Js.or (Js.get params "transaction") (Js.VObject params)).

(** The object [tx] of [signTransactionOnly], before [message] is added. *)
Definition transactionOf (params wallet : Js.object) (nowNonce nowStamp : Z)
  : Js.object :=
  let txParams := txParamsOf params in
  let from := Js.get wallet "address" in
  let to := Js.get txParams "to" in
  let amount := match Js.get txParams "amount" with
                | Js.VString s => s
                | v => Js.toString v
                end in
  let amountRaw :=
    if Js.truthy (Js.get txParams "amountRaw") then Js.get txParams "amountRaw"
    else Js.VString (Num.toString (Num.floor (Num.mul (Num.parseFloat amount) micro))) in
  let nonce := Js.toNumber (Js.or (Js.get txParams "nonce") (Js.VNumber (Num.ofZ nowNonce))) in
  let timestamp := Num.div (Num.ofZ nowStamp) (Num.ofZ 1000) in
  Js.literal
    [("from", from);
     ("to_", to);
     ("amount", amountRaw);
     ("nonce", Js.VNumber nonce);
     ("ou", if Js.truthy (Js.get txParams "fee")
            then Js.VString (Num.toString
                               (Num.floor (Num.mul (Js.toNumber (Js.get txParams "fee")) micro)))
            else Js.VString "2000");
     ("timestamp", Js.VNumber timestamp)].

(** [if (txParams.message) tx.message = txParams.message] *)
Definition withMessage (params : Js.object) (tx : Js.object) : Js.object :=
  if Js.truthy (Js.get (txParamsOf params) "message")
  then Js.set tx "message" (Js.get (txParamsOf params) "message")
  else tx.

(** The six fields of a transaction, read from an object. *)
Definition six (tx : Js.object) : Js.object :=
  [("from", Js.get tx "from"); ("to_", Js.get tx "to_"); ("amount", Js.get tx "amount");
   ("nonce", Js.get tx "nonce"); ("ou", Js.get tx "ou"); ("timestamp", Js.get tx "timestamp")].

(** [JSON.stringify({from: tx.from, to_: tx.to_, amount: tx.amount,
    nonce: tx.nonce, ou: tx.ou, timestamp: tx.timestamp})] *)
Definition signPayloadOf (tx : Js.object) : string :=
  Js.stringifyObject
    (Js.literal [("from", Js.get tx "from");
                 ("to_", Js.get tx "to_");
                 ("amount", Js.get tx "amount");
                 ("nonce", Js.get tx "nonce");
                 ("ou", Js.get tx "ou");
                 ("timestamp", Js.get tx "timestamp")]).

(** [signTransactionOnly(params, wallet)]; the two readings of
    [Date.now()] are [nowNonce] and [nowStamp]. *)
Definition signTransactionOnly (params wallet : Js.object) (nowNonce nowStamp : Z)
  : Run Js.object :=
  let privateKey := keyOf wallet in
  let tx := withMessage params (transactionOf params wallet nowNonce nowStamp) in
  let signPayload := signPayloadOf tx in
  if negb (Js.truthy (Js.get tx "from")) || negb (Js.truthy (Js.get tx "to_")) then
    ([], Throw "Invalid transaction parameters: From and To are required")
  else if Num.isNaN (Js.toNumber (Js.get tx "nonce")) then
    ([], Throw "Invalid nonce")
  else
    let messageBytes := Bytes.utf8 signPayload in
    match atob (Js.toString privateKey) with
    | Throw e => ([], Throw e)
    | Normal binaryKey =>
        match naclFromSeed (Bytes.ofBinaryString binaryKey) with
        | Throw e => ([], Throw e)
        | Normal keyPair =>
            let call := {| message := messageBytes; secretKey := keyPair.2 |} in
            match naclSign messageBytes keyPair.2 with
            | Throw e => ([call], Throw e)
            | Normal signatureBytes =>
                ([call],
                 Normal (Js.assignAll tx
                           [("signature", Js.VString (btoa (Bytes.toBinaryString signatureBytes)));
                            ("public_key", Js.get wallet "publicKeyB64")]))
            end
        end
    end.

(** The hash taken from the reply to an accepted broadcast. *)
Definition txHashOf (reply : RpcReply) : Js.value :=
  let fallback :=
    if String.prefix "ok" (Str.toLowerCase (text reply))
    then Js.VString (Str.lastWord (text reply))
    else Js.VString (text reply) in
  match field (json reply) "status", field (json reply) "tx_hash", field (json reply) "error" with
  | Normal st, Normal hash, Normal err =>
      if Js.isStr st "accepted" || Js.truthy hash then hash
      else if Js.truthy err then fallback
      else Js.VString EmptyString
  | _, _, _ => fallback
  end.

(** The message of the error thrown on a refused broadcast. *)
Definition broadcastError (reply : RpcReply) : string :=
  let errorMessage :=
    "Broadcast failed: " +:+ Str.ofZ (status reply) +:+ " " +:+ statusText reply in
  match field (json reply) "error" with
  | Normal err => if Js.truthy err then Js.toString err else errorMessage
  | Throw _ =>
      match text reply with
      | EmptyString => errorMessage
      | t => t
      end
  end.

(** [signAndBroadcastTransaction(params, wallet)] *)
Definition signAndBroadcastTransaction (params wallet : Js.object)
  (nowNonce nowStamp : Z) (rpc : Broadcast) : Run Js.object :=
  match signTransactionOnly params wallet nowNonce nowStamp with
  | (calls, Throw e) => (calls, Throw e)
  | (calls, Normal signedTransaction) =>
      match rpc with
      | FetchFails e => (calls, Throw e)
      | FetchReplies reply =>
          if ok reply then
            (calls,
             Normal [("signedTransaction", Js.VObject signedTransaction);
                     ("txHash", txHashOf reply);
                     ("broadcast", Js.VBool true)])
          else (calls, Throw (broadcastError reply))
      end
  end.

(** [Object.keys(v)] with the values: the own properties of [ToObject(v)]. *)
Definition ownProperties (v : Js.value) : Completion Js.object :=
  match v with
  | Js.VUndefined | Js.VNull => Throw "Cannot convert undefined or null to object"
  | Js.VObject o => Normal o
  | Js.VArray items => Normal (imap (fun i x => (Str.ofZ (Z.of_nat i), x)) items)
  | Js.VString s =>
      Normal (imap (fun i c => (Str.ofZ (Z.of_nat i), Js.VString (String c EmptyString)))
                   (Str.chars s))
  | _ => Normal []
  end.

(** [signMessageWithKey(payload, privateKeyB64)] *)
Definition signMessageWithKey (payload : Js.value) (privateKeyB64 : Js.value)
  : Run string :=
  match atob (Js.toString privateKeyB64) with
  | Throw e => ([], Throw e)
  | Normal binaryKey =>
      let privateKeyBytes := Bytes.ofBinaryString binaryKey in
      match (if (length privateKeyBytes =? 32)%nat
             then snd <$> naclFromSeed privateKeyBytes
             else Normal privateKeyBytes) with
      | Throw e => ([], Throw e)
      | Normal secretKey =>
          match ownProperties payload with
          | Throw e => ([], Throw e)
          | Normal props =>
              let serialized := Js.stringifyObject (Osm1.sortedPayload props) in
              let fullMessage :=
                Osm1.MESSAGE_PREFIX +:+ Str.ofZ (Z.of_nat (String.length serialized))
                +:+ Osm1.newline +:+ serialized in
              let messageBytes := Bytes.utf8 fullMessage in
              let call := {| message := messageBytes; secretKey := secretKey |} in
              match naclSign messageBytes secretKey with
              | Throw e => ([call], Throw e)
              | Normal signatureBytes =>
                  ([call], Normal (btoa (Bytes.toBinaryString signatureBytes)))
              end
          end
      end
  end.

End Signing.

(** *** The handlers of the signing requests and the decision *)

Definition connected (origin : string) (st : State) : bool :=
  Js.truthy (Js.get (default [] (dappConnections st !! origin)) "connected").

Section Handlers.

Variable decryptSession : Js.value -> Js.value -> Completion Js.value.
Variable atob : string -> Completion string.
Variable btoa : string -> string.
Variable naclFromSeed : Bytes.bytes -> Completion (Bytes.bytes * Bytes.bytes).
Variable naclSign : Bytes.bytes -> Bytes.bytes -> Completion Bytes.bytes.

(** [handleSignMessage(origin, params)] up to its suspension *)
Definition handleSignMessage (origin : string) (params : Js.object)
  (approvalId : string) (now : Z) (stored : StorageRead) (st : State) : Step * State :=
  if negb (connected origin st) then (Returned (errorResponse 4100 "Not connected"), st)
  else
    let '(wallet, st1) := getWalletFromStorage decryptSession stored st in
    match wallet with
    | None => (Returned [("error", Js.VString "Wallet not found")], st1)
    | Some w =>
        if negb (Js.truthy (keyOf w))
        then (Returned [("error", Js.VString "Wallet locked. Please unlock.")], st1)
        else (Awaiting approvalId,
              requestApproval origin "signMessage" params wallet approvalId now st1)
    end.

(** What [handleSignTransaction] and [handleSendTransaction] share: they
    differ in the type of the approval and in two messages. *)
Definition handleTransaction (type locked : string) (origin : string)
  (params : Js.object) (approvalId : string) (lookup : NonceLookup)
  (nowFill now : Z) (stored : StorageRead) (st : State) : Step * State :=
  if negb (connected origin st) then (Returned (errorResponse 4100 "Not connected"), st)
  else
    let '(wallet, st1) := getWalletFromStorage decryptSession stored st in
    match wallet with
    | None => (Returned [("error", Js.VString "Wallet not found. Please connect first.")], st1)
    | Some w =>
        if negb (Js.truthy (keyOf w)) then (Returned [("error", Js.VString locked)], st1)
        else
          match fillNonce params lookup nowFill with
          | Throw e => (Crashed e, st1)
          | Normal params' =>
              (Awaiting approvalId,
               requestApproval origin type params' wallet approvalId now st1)
          end
    end.

Definition handleSignTransaction : string -> Js.object -> string -> NonceLookup ->
  Z -> Z -> StorageRead -> State -> Step * State :=
  handleTransaction "signTransaction" "Wallet locked. Please unlock to sign transaction.".

Definition handleSendTransaction : string -> Js.object -> string -> NonceLookup ->
  Z -> Z -> StorageRead -> State -> Step * State :=
  handleTransaction "sendTransaction" "Wallet locked. Please unlock to send transaction.".

(** The rest of the two transaction handlers, once the approval is
    settled: the value given to [resolve] is the response. *)
Definition handleTransactionResume (rejected : string) (outcome : Settlement)
  : option Js.object :=
  match outcome with
  | Pending => None
  | Resolved result => Some (Js.asObject result)
  | Rejected err =>
      Some [("error", Js.VObject
               [("code", Js.VNumber (Num.ofZ 4001));
                ("message", Js.or (Js.get (Js.asObject err) "message")
                                  (Js.VString rejected))])]
  end.

(** The wallet that [handleResolveApproval] signs with. *)
Definition signingWalletOf (approval : Approval) (stored : StorageRead) (st : State)
  : Completion Js.object * State :=
  let signingWallet := default [] (wallet approval) in
  if Js.truthy (keyOf signingWallet) then (Normal signingWallet, st)
  else
    match getWalletFromStorage decryptSession stored st with
    | (Some freshWallet, st1) =>
        if Js.truthy (keyOf freshWallet) then (Normal freshWallet, st1)
        else (Throw "Wallet is locked. Please unlock the extension.", st1)
    | (None, st1) => (Throw "Wallet is locked. Please unlock the extension.", st1)
    end.

(** The effect of an approved request: the value given to [resolve]. *)
Definition approvedEffect (approval : Approval) (result : Js.value)
  (signingWallet : Js.object) (nowNonce nowStamp : Z) (rpc : Broadcast)
  : Completion Js.value :=
  if String.eqb (type approval) "sendTransaction" then
    signed ← (signAndBroadcastTransaction atob btoa naclFromSeed naclSign
                (params approval) signingWallet nowNonce nowStamp rpc).2;
    Normal (Js.VObject [("result", Js.VObject signed)])
  else if String.eqb (type approval) "signTransaction" then
    signed ← (signTransactionOnly atob btoa naclFromSeed naclSign
                (params approval) signingWallet nowNonce nowStamp).2;
    Normal (Js.VObject [("result", Js.VObject signed)])
  else if String.eqb (type approval) "signMessage" then
    let pk := keyOf signingWallet in
    if negb (Js.truthy pk) then Throw "Private key missing for message signing"
    else
      signature ← (signMessageWithKey atob btoa naclFromSeed naclSign
                     (Js.get (params approval) "payload") pk).2;
      Normal (Js.VObject
                [("result", Js.VObject
                    [("signature", Js.VString signature);
                     ("publicKey", Js.get signingWallet "publicKeyB64");
                     ("address", Js.get signingWallet "address");
                     ("payload", Js.get (params approval) "payload")])])
  else Normal (Js.VObject [("result", result)]).

(** [handleResolveApproval(data)] *)
Definition handleResolveApproval (data : Js.object) (stored : StorageRead)
  (nowNonce nowStamp : Z) (rpc : Broadcast) (st : State) : Js.object * State :=
  let st1 := if Js.truthy (Js.get data "sessionKey")
             then withSessionKey st (Js.get data "sessionKey") else st in
  let found := match Js.get data "id" with
               | Js.VString id => (fun a => (id, a)) <$> dappApprovals st1 !! id
               | _ => None
               end in
  match found with
  | None => ([("success", Js.VBool false); ("error", Js.VString "Request not found")], st1)
  | Some (id, approval) =>
      let st2 := withApprovals st1 (delete id (dappApprovals st1)) (promises st1) in
      if Js.isStr (Js.get data "decision") "approved" then
        let '(signingWallet, st3) := signingWalletOf approval stored st2 in
        let outcome :=
          w ← signingWallet;
          approvedEffect approval (Js.get data "result") w nowNonce nowStamp rpc in
        let settlement :=
          match outcome with
          | Normal v => Resolved v
          | Throw e =>
              Rejected (Js.VObject
                          [("code", Js.VNumber (Num.ofZ 5000));
                           ("message", Js.or (Js.VString e)
                                             (Js.VString "Internal signing error"))])
          end in
        ([("success", Js.VBool true)],
         withApprovals st3 (dappApprovals st3) (settle id settlement (promises st3)))
      else
        ([("success", Js.VBool true)],
         withApprovals st2 (dappApprovals st2)
           (settle id (Rejected (Js.VObject
                                   [("code", Js.VNumber (Num.ofZ 4001));
                                    ("message", Js.VString "User rejected request")]))
                   (promises st2)))
  end.

(** [handleDisconnect(origin)] *)
Definition handleDisconnect (origin : string) (st : State) : Js.object * State :=
  ([("result", Js.VBool true)], withConnections st (delete origin (dappConnections st))).

(** The handler of [RESET_EVERYTHING], as far as the state goes. *)
Definition resetEverything (st : State) : State :=
  {| dappConnections := ∅; dappApprovals := ∅; promises := promises st;
     activeSessionCache := None; memorySessionKey := Js.VNull;
     windows := windows st; storedConnections := None |}.

(** The messages and alarms that the worker handles, with what each
    handler reads from its environment. *)
Inductive Event : Type :=
| Connect (origin : string) (title favicon : Js.value) (approvalId : string)
    (now : Z) (stored : StorageRead)
| ConnectResume (origin : string) (title favicon : Js.value) (approvalId : string)
    (now : Z) (stored : StorageRead)
| Disconnect (origin : string)
| SignMessage (origin : string) (params : Js.object) (approvalId : string)
    (now : Z) (stored : StorageRead)
| SignTransaction (origin : string) (params : Js.object) (approvalId : string)
    (lookup : NonceLookup) (nowFill now : Z) (stored : StorageRead)
| SendTransaction (origin : string) (params : Js.object) (approvalId : string)
    (lookup : NonceLookup) (nowFill now : Z) (stored : StorageRead)
| SyncSession (data : Js.object) (stored : StorageRead)
| ResolveApproval (data : Js.object) (stored : StorageRead) (nowNonce nowStamp : Z)
    (rpc : Broadcast)
| Alarm (stored : StorageRead)
| ResetEverything.

Definition step (st : State) (ev : Event) : State :=
  match ev with
  | Connect origin title favicon approvalId now stored =>
      (handleConnect decryptSession origin title favicon approvalId now stored st).2
  | ConnectResume origin title favicon approvalId now stored =>
      match handleConnectResume decryptSession origin title favicon
              (default Pending (promises st !! approvalId)) now stored st with
      | Some (_, st') => st'
      | None => st
      end
  | Disconnect origin => (handleDisconnect origin st).2
  | SignMessage origin params approvalId now stored =>
      (handleSignMessage origin params approvalId now stored st).2
  | SignTransaction origin params approvalId lookup nowFill now stored =>
      (handleSignTransaction origin params approvalId lookup nowFill now stored st).2
  | SendTransaction origin params approvalId lookup nowFill now stored =>
      (handleSendTransaction origin params approvalId lookup nowFill now stored st).2
  | SyncSession data stored => handleSyncSession data stored st
  | ResolveApproval data stored nowNonce nowStamp rpc =>
      (handleResolveApproval data stored nowNonce nowStamp rpc st).2
  | Alarm stored => (getWalletFromStorage decryptSession stored st).2
  | ResetEverything => resetEverything st
  end.

(** The event decides the approval [id], creates one under the same id,
    or resets the worker. *)
Definition touches (id : string) (ev : Event) : bool :=
  match ev with
  | Connect _ _ _ approvalId _ _
  | SignMessage _ _ approvalId _ _
  | SignTransaction _ _ approvalId _ _ _ _
  | SendTransaction _ _ approvalId _ _ _ _ => String.eqb approvalId id
  | ResolveApproval data _ _ _ _ => Js.isStr (Js.get data "id") id
  | ResetEverything => true
  | _ => false
  end.

(** *** The other handlers of the requests of a dApp *)

(** [handleGetAccounts(origin)] *)
Definition handleGetAccounts (origin : string) (st : State) : Js.object :=
  if negb (connected origin st) then [("result", Js.VArray [])]
  else [("result", Js.VArray [Js.get (default [] (dappConnections st !! origin)) "address"])].

(** [handleGetPublicKey(origin)] *)
Definition handleGetPublicKey (origin : string) (stored : StorageRead) (st : State)
  : Js.object * State :=
  if negb (connected origin st) then (errorResponse 4100 "Not connected", st)
  else
    let '(wallet, st1) := getWalletFromStorage decryptSession stored st in
    match wallet with
    | None => (errorResponse 4100 "Wallet not found", st1)
    | Some w => ([("result", Js.get w "publicKeyB64")], st1)
    end.

(** [handleGetEncryptedBalance(origin)]: [getEncryptedBalance] is the call
    [client.getEncryptedBalance(address, pk)] of the RPC client. *)
Definition handleGetEncryptedBalance (origin : string) (stored : StorageRead)
  (getEncryptedBalance : Js.value -> Js.value -> Completion Js.value) (st : State)
  : Js.object * State :=
  if negb (connected origin st) then (errorResponse 4100 "Not connected", st)
  else
    let '(wallet, st1) := getWalletFromStorage decryptSession stored st in
    match wallet with
    | None => ([("error", Js.VString "Wallet locked. Please unlock the extension.")], st1)
    | Some w =>
        if negb (Js.truthy (keyOf w))
        then ([("error", Js.VString "Wallet locked. Please unlock the extension.")], st1)
        else
          match getEncryptedBalance (Js.get w "address") (keyOf w) with
          | Normal data => ([("result", data)], st1)
          | Throw e =>
              ([("error", Js.VObject
                   [("code", Js.VNumber (Num.ofZ 5000));
                    ("message", Js.or (Js.VString e)
                                      (Js.VString "Failed to fetch encrypted balance"))])],
               st1)
          end
    end.

(** The rest of [handleSignMessage], once the approval is settled. *)
Definition handleSignMessageResume (outcome : Settlement) : option Js.object :=
  match outcome with
  | Pending => None
  | Resolved Js.VUndefined | Resolved Js.VNull | Rejected _ =>
      Some (errorResponse 4001 "User rejected message signing")
  | Resolved result => Some [("result", Js.get (Js.asObject result) "result")]
  end.

(** The calls of [nacl.sign.detached] made for an approved request. *)
Definition approvedCalls (approval : Approval) (signingWallet : Js.object)
  (nowNonce nowStamp : Z) (rpc : Broadcast) : list SignCall :=
  if String.eqb (type approval) "sendTransaction" then
    (signAndBroadcastTransaction atob btoa naclFromSeed naclSign
       (params approval) signingWallet nowNonce nowStamp rpc).1
  else if String.eqb (type approval) "signTransaction" then
    (signTransactionOnly atob btoa naclFromSeed naclSign
       (params approval) signingWallet nowNonce nowStamp).1
  else if String.eqb (type approval) "signMessage" then
    if negb (Js.truthy (keyOf signingWallet)) then []
    else (signMessageWithKey atob btoa naclFromSeed naclSign
            (Js.get (params approval) "payload") (keyOf signingWallet)).1
  else [].

(** The calls of [nacl.sign.detached] made by [handleResolveApproval]. *)
Definition resolveCalls (data : Js.object) (stored : StorageRead)
  (nowNonce nowStamp : Z) (rpc : Broadcast) (st : State) : list SignCall :=
  let st1 := if Js.truthy (Js.get data "sessionKey")
             then withSessionKey st (Js.get data "sessionKey") else st in
  let found := match Js.get data "id" with
               | Js.VString id => (fun a => (id, a)) <$> dappApprovals st1 !! id
               | _ => None
               end in
  match found with
  | None => []
  | Some (id, approval) =>
      let st2 := withApprovals st1 (delete id (dappApprovals st1)) (promises st1) in
      if Js.isStr (Js.get data "decision") "approved" then
        match (signingWalletOf approval stored st2).1 with
        | Normal w => approvedCalls approval w nowNonce nowStamp rpc
        | Throw _ => []
        end
      else []
  end.

End Handlers.

End Background.

(** ** A small platform

    An instance of the functions the platform provides, to run the code on:
    base64 is the identity, a seed is its own public key, and a signature
    is the public key followed by the message. *)

Module Sample.

Definition atob (s : string) : Completion string := Normal s.
Definition btoa (s : string) : string := s.

Definition naclFromSeed (seed : Bytes.bytes) : Completion (Bytes.bytes * Bytes.bytes) :=
  if (length seed =? 32)%nat then Normal (seed, seed ++ seed) else Throw "bad seed size".

Definition naclSign (msg secretKey : Bytes.bytes) : Completion Bytes.bytes :=
  if (length secretKey =? 64)%nat then Normal (drop 32 secretKey ++ msg)
  else Throw "bad secret key size".

Definition naclVerify (msg sig publicKey : Bytes.bytes) : Completion bool :=
  if (length publicKey =? 32)%nat then Normal (bool_decide (sig = publicKey ++ msg))
  else Throw "bad public key size".

Definition sha256 (data : Bytes.bytes) : Bytes.bytes := take 32 (data ++ replicate 32 Byte.x00).

(** The cipher: the ciphertext is the key followed by the plaintext. *)
Definition decryptSession (ciphertext key : Js.value) : Completion Js.value :=
  match ciphertext, key with
  | Js.VString c, Js.VString k =>
      if String.prefix k c
      then Normal (Js.VString (Str.ofChars (drop (String.length k) (Str.chars c))))
      else Throw "decryption failed"
  | _, _ => Throw "decryption failed"
  end.

(** A seed of 32 bytes, as the binary string that [atob] gives. *)
Definition seed : string := "0123456789abcdef0123456789abcdef".

Definition wallet : Js.object :=
  [("address", Js.VString ("oct" +:+ Osm1.base58Encode (sha256 (Bytes.ofBinaryString seed))));
   ("publicKeyB64", Js.VString seed);
   ("privateKey", Js.VString seed);
   ("privateKeyB64", Js.VString seed)].

End Sample.

(** ** Reading texts back

    What the properties below read texts with: the value of a pair of
    hexadecimal digits, of a base58 text. *)

Module Reading.

(** The two digits of a byte. *)
Definition hexPair (b : Byte.byte) : ascii * ascii :=
  let n := Z.of_N (Byte.to_N b) in (Js.hexDigit (n / 16), Js.hexDigit (n mod 16)).

Definition hexValue (c : ascii) : N :=
  let n := N_of_ascii c in
  if (n <? 58)%N then (n - 48)%N else (n - 87)%N.

(** The position of a character in an alphabet. *)
Fixpoint indexIn (c : ascii) (alphabet : string) : nat :=
  match alphabet with
  | EmptyString => 0
  | String a r => if Ascii.eqb a c then 0 else S (indexIn c r)
  end.

Definition index58 (c : ascii) : N := N.of_nat (indexIn c Osm1.BASE58_ALPHABET).

(** The number that a base58 text writes, most significant digit first. *)
Fixpoint value58 (acc : N) (s : string) : N :=
  match s with
  | EmptyString => acc
  | String c r => value58 (acc * 58 + index58 c) r
  end.

(** The base58 digits of a number: the loop of [base58Encode] alone. *)
Definition digits58 (num : N) : string :=
  Osm1.base58Loop (N.size_nat num) num EmptyString.

Definition ones (n : nat) : string := Str.ofChars (replicate n "1"%char).

Definition startsWithOne (s : string) : bool :=
  match s with String "1"%char _ => true | _ => false end.

(** A byte array without its leading zero bytes. *)
Fixpoint stripZeroBytes (b : Bytes.bytes) : Bytes.bytes :=
  match b with
  | Byte.x00 :: r => stripZeroBytes r
  | _ => b
  end.

(** The member [k] of the JSON text of an object. *)
Definition member (o : Js.object) (k : string) : string :=
  Js.quote k +:+ ":" +:+ default EmptyString (Js.stringify (Js.get o k)).

End Reading.

(** ** Events that store an approval *)

Module Requests.

(** The event stores an approval under [id], when it gets that far. *)
Definition creates (id : string) (ev : Background.Event) : bool :=
  match ev with
  | Background.Connect _ _ _ approvalId _ _
  | Background.SignMessage _ _ approvalId _ _
  | Background.SignTransaction _ _ approvalId _ _ _ _
  | Background.SendTransaction _ _ approvalId _ _ _ _ => String.eqb approvalId id
  | _ => false
  end.

End Requests.

(** * Properties *)

(** ** Sanity checks of the string and number layer *)

Example split_ex : Str.split "."%char "1.5" = ["1"; "5"].
Proof. reflexivity. Qed.

Example ofZ_ex : Str.ofZ 1500000 = "1500000" /\ Str.ofZ 0 = "0" /\ Str.ofZ (-42) = "-42".
Proof. repeat split; reflexivity. Qed.

Example toString_ex :
  Num.toString (Num.ofZ 1500000) = "1500000"
  /\ Num.toString (Num.ofDecimal false 1 (-1)) = "0.1"
  /\ Num.toString (Num.div (Num.ofZ 1700000000123) (Num.ofZ 1000)) = "1700000000.123"
  /\ Num.toString (Num.div (Num.ofZ 1) (Num.ofZ 3)) = "0.3333333333333333"
  /\ Num.toString (Num.ofDecimal false 1 21) = "1e+21"
  /\ Num.toString (Num.ofDecimal false 123456789012345680000 0) = "123456789012345680000"
  /\ Num.toString (Num.ofDecimal true 15 (-8)) = "-1.5e-7"
  /\ Num.toString (Num.ofDecimal false 1 (-6)) = "0.000001"
  /\ Num.toString (Num.mul (Num.ofDecimal false 82 (-1)) (Num.ofZ 1000000)) = "8199999.999999999"
  /\ Num.toString (Num.ofRatio false 1 (2 ^ 1074)) = "5e-324"
  /\ Num.toString (Num.add (Num.ofDecimal false 1 (-1)) (Num.ofDecimal false 2 (-1))) = "0.30000000000000004".
Proof. repeat split; vm_compute; reflexivity. Qed.

Example floor_ex :
  Num.floor (Num.ofDecimal false 8199999999999999 (-9)) = Num.ofZ 8199999
  /\ Num.floor (Num.ofDecimal true 5 (-1)) = Num.ofZ (-1)
  /\ Num.floor (Num.ofDecimal false 5 (-1)) = Num.ofZ 0
  /\ Num.floor (Num.ofZ 7) = Num.ofZ 7.
Proof. repeat split; vm_compute; reflexivity. Qed.

Example parseFloat_ex :
  Num.parseFloat "1.5" = Num.ofDecimal false 15 (-1)
  /\ Num.parseFloat "  8.2abc" = Num.ofDecimal false 82 (-1)
  /\ Num.parseFloat "abc" = Num.NaN
  /\ Num.parseFloat "1e3" = Num.ofZ 1000
  /\ Num.parseFloat ".5e" = Num.ofDecimal false 5 (-1)
  /\ Num.parseFloat "-Infinityx" = S754_infinity true
  /\ Num.ofString " 12 " = Num.ofZ 12
  /\ Num.ofString "12abc" = Num.NaN
  /\ Num.ofString EmptyString = Num.ofZ 0
  /\ Num.ofString "0x1F" = Num.ofZ 31
  /\ Num.bigIntOfString "1500000" = Some 1500000
  /\ Num.bigIntOfString "1.5" = None.
Proof. repeat split; vm_compute; reflexivity. Qed.

Example stringify_ex :
  Js.stringifyObject
    [("from", Js.VString "octA"); ("n", Js.VNumber (Num.ofZ 8)); ("skip", Js.VUndefined);
     ("t", Js.VNumber (Num.div (Num.ofZ 1700000000123) (Num.ofZ 1000)));
     ("l", Js.VArray [Js.VNull; Js.VUndefined; Js.VBool true]);
     ("o", Js.VObject [("x", Js.VNumber Num.NaN)])]
  = Str.text "{'from':'octA','n':8,'t':1700000000.123,'l':[null,null,true],'o':{'x':null}}".
Proof. vm_compute. reflexivity. Qed.

Example set_order_ex :
  Js.keys (Js.literal [("b", Js.VNull); ("10", Js.VNull); ("a", Js.VNull); ("9", Js.VNull); ("b", Js.VBool true)])
  = ["9"; "10"; "b"; "a"].
Proof. vm_compute. reflexivity. Qed.

Example base58_ex :
  Osm1.base58Encode [Byte.x00; Byte.x00; Byte.x01; Byte.x02] = "115T"
  /\ Osm1.base58Encode [] = EmptyString
  /\ Osm1.base58Encode (Bytes.utf8 "Hello World!") = "2NEpo7TZRRrLZSi2U".
Proof. repeat split; vm_compute; reflexivity. Qed.

Example createTransactionPayload_ex :
  (fun r => (Js.stringifyObject r.1, r.2)) <$>
  Osm1.createTransactionPayload
    [("from", Js.VString "octA"); ("to", Js.VString "octB");
     ("amount", Js.VNumber (Num.ofDecimal false 15 (-1))); ("nonce", Js.VString "8")]
    1700000000123
  = Some (Str.text "{'from':'octA','to_':'octB','amount':'1500000','nonce':8,'ou':'1','timestamp':1700000000.123}",
          Js.VUndefined).
Proof. vm_compute. reflexivity. Qed.

Example parseInt_ex :
  Js.parseInt (Js.VNumber (Num.ofZ 7)) = Num.ofZ 7
  /\ Js.parseInt (Js.VString " 42px") = Num.ofZ 42
  /\ Js.parseInt (Js.VString "0x10") = Num.ofZ 16
  /\ Js.parseInt (Js.VString "x") = Num.NaN
  /\ Js.parseInt (Js.VNumber (Num.ofDecimal false 1 21)) = Num.ofZ 1.
Proof. repeat split; vm_compute; reflexivity. Qed.

(** ** Integers as numbers *)

Module NumFacts.

Lemma digits2_size (p : positive) : digits2_pos p = Pos.size p.
Proof. induction p; simpl; congruence. Qed.

Lemma digits2_bound (p : positive) (n : Z) :
  0 <= n -> Zpos p < 2 ^ n -> Zpos (digits2_pos p) <= n.
Proof.
  intros Hn Hp. rewrite digits2_size.
  destruct (Z_le_gt_dec (Zpos (Pos.size p)) n) as [H|H]; [exact H|exfalso].
  pose proof (Pos.size_le p) as Hle.
  assert (H2 : 2 ^ Zpos (Pos.size p) <= 2 * Zpos p).
  { change (2 * Zpos p) with (Zpos p~0). rewrite <- Pos2Z.inj_pow. apply Pos2Z.pos_le_pos, Hle. }
  assert (H3 : 2 ^ (n + 1) <= 2 ^ Zpos (Pos.size p)) by (apply Z.pow_le_mono_r; lia).
  rewrite Z.pow_add_r in H3 by lia. lia.
Qed.

Lemma digits2_iter_xO (p k : positive) :
  digits2_pos (Pos.iter xO p k) = (digits2_pos p + k)%positive.
Proof.
  induction k as [|k IH] using Pos.peano_ind.
  - simpl. lia.
  - rewrite Pos.iter_succ. simpl. rewrite IH. lia.
Qed.

(** A mantissa of 53 bits is kept as it is. *)
Lemma round_aux_exact (m : positive) (e : Z) :
  Zpos (digits2_pos m) = 53 -> -1074 <= e <= 971 ->
  binary_round_aux 53 1024 false (Zpos m) e loc_Exact = S754_finite false m e.
Proof.
  intros Hd He.
  unfold binary_round_aux, shr_fexp, fexp, emin, Zdigits2.
  rewrite Hd.
  replace (Z.max (53 + e - 53) (3 - 1024 - 53) - e) with 0 by lia.
  cbn [shr shr_record_of_loc shr_m loc_of_shr_record round_nearest_even].
  rewrite Hd.
  replace (Z.max (53 + e - 53) (3 - 1024 - 53) - e) with 0 by lia.
  cbn [shr shr_record_of_loc shr_m].
  destruct (Z.leb_spec e (1024 - 53)) as [_|H]; [reflexivity|lia].
Qed.

(** A positive integer below [2^53] is a number of its own: finite and
    positive. *)
Lemma ofZ_finite (z : Z) :
  0 < z < 2 ^ 53 -> exists m e, Num.ofZ z = S754_finite false m e.
Proof.
  intros [Hpos Hlt]. destruct z as [|p|p]; try lia.
  pose proof (digits2_bound p 53 ltac:(lia) Hlt) as Hd.
  unfold Num.ofZ, binary_normalize, binary_round, shl_align.
  unfold fexp, emin, Num.prec, Num.emax.
  rewrite Z.add_0_r.
  replace (Z.max (Zpos (digits2_pos p) - 53) (3 - 1024 - 53))
    with (Zpos (digits2_pos p) - 53) by lia.
  rewrite Z.sub_0_r.
  destruct (Zpos (digits2_pos p) - 53) as [|k|k] eqn:Hk; try lia.
  - exists p, 0. apply round_aux_exact; lia.
  - exists (Pos.iter xO p k), (Zneg k). apply round_aux_exact; [|lia].
    rewrite digits2_iter_xO. lia.
Qed.

Lemma ofZ_truthy (z : Z) : 0 < z < 2 ^ 53 -> Num.truthy (Num.ofZ z) = true.
Proof. intros H. destruct (ofZ_finite z H) as (m & e & ->). reflexivity. Qed.

Lemma ofZ_not_NaN (z : Z) : 0 < z < 2 ^ 53 -> Num.isNaN (Num.ofZ z) = false.
Proof. intros H. destruct (ofZ_finite z H) as (m & e & ->). reflexivity. Qed.

(** ... and it is not zero. *)
Lemma ofZ_nonzero (z : Z) (s : bool) :
  0 < z < 2 ^ 53 -> Num.eqb (Num.ofZ z) (S754_zero s) = false.
Proof. intros H. destruct (ofZ_finite z H) as (m & e & ->). reflexivity. Qed.

End NumFacts.

(** ** The loops end within their fuel *)

Module FuelFacts.

Lemma size_nat_double (q p : positive) :
  (q~0 <= p)%positive -> (S (Pos.size_nat q) <= Pos.size_nat p)%nat.
Proof.
  intros Hle. change (S (Pos.size_nat q)) with (Pos.size_nat (xO q)).
  destruct (Pos.eq_dec (xO q) p) as [<-|Hne]; [lia|].
  apply Pos.size_nat_monotone. lia.
Qed.

Lemma size_nat_div (n : N) (d : N) :
  (0 < n)%N -> (2 <= d)%N -> (N.size_nat (n / d) < N.size_nat n)%nat.
Proof.
  intros Hn Hd. destruct n as [|p]; [lia|].
  destruct (N.pos p / d)%N as [|q] eqn:E; simpl.
  - destruct p; simpl; lia.
  - apply size_nat_double.
    assert (Hm : (d * (N.pos p / d) <= N.pos p)%N) by (apply N.Div0.mul_div_le).
    rewrite E in Hm. nia.
Qed.

(** [base58Encode] gives its loop the fuel it needs: more fuel gives the
    same text. *)
Lemma base58Loop_fuel (fuel fuel' : nat) (num : N) (encoded : string) :
  (N.size_nat num <= fuel)%nat -> (N.size_nat num <= fuel')%nat ->
  Osm1.base58Loop fuel num encoded = Osm1.base58Loop fuel' num encoded.
Proof.
  revert fuel' num encoded. induction fuel as [|fuel IH]; intros fuel' num encoded H1 H2.
  - destruct num; [|simpl in H1; destruct p; simpl in H1; lia].
    destruct fuel'; reflexivity.
  - destruct fuel' as [|fuel'].
    + destruct num; [reflexivity|simpl in H2; destruct p; simpl in H2; lia].
    + simpl. destruct (N.ltb_spec 0 num) as [Hpos|Hz]; [|reflexivity].
      pose proof (size_nat_div num 58 Hpos ltac:(lia)) as Hd.
      apply IH; lia.
Qed.

End FuelFacts.

(** ** Digit strings, and [octToMicro] is exact *)

Module AmountFacts.

Import Str.

Lemma isDigit_range (c : ascii) : isDigit c = true -> 0 <= digitVal c <= 9.
Proof.
  unfold isDigit, digitVal. intros H. apply andb_prop in H. destruct H as [H1 H2].
  apply Z.leb_le in H1, H2. lia.
Qed.

Lemma digitsValue_digits (s : string) (acc : Z) :
  allDigits s = true ->
  digitsValue acc s = Some (acc * 10 ^ Z.of_nat (String.length s) + valueOf s).
Proof.
  unfold valueOf. revert acc. induction s as [|c r IH]; intros acc Hd.
  - simpl. f_equal. lia.
  - simpl in Hd. apply andb_prop in Hd. destruct Hd as [Hc Hr].
    cbn [digitsValue String.length]. rewrite Hc.
    rewrite (IH (10 * acc + digitVal c) Hr), (IH (10 * 0 + digitVal c) Hr).
    cbn [default]. unfold id. f_equal. rewrite Nat2Z.inj_succ, Z.pow_succ_r by lia. ring.
Qed.

Lemma digitsValue_app (a b : string) (acc : Z) :
  allDigits a = true ->
  digitsValue acc (a +:+ b) = digitsValue (default 0 (digitsValue acc a)) b.
Proof.
  revert acc. induction a as [|c r IH]; intros acc Ha; [reflexivity|].
  simpl in Ha. apply andb_prop in Ha. destruct Ha as [Hc Hr].
  change (String c r +:+ b) with (String c (r +:+ b)).
  cbn [digitsValue]. rewrite Hc. apply IH, Hr.
Qed.

Lemma valueOf_app (a b : string) :
  allDigits a = true -> allDigits b = true ->
  valueOf (a +:+ b) = valueOf a * 10 ^ Z.of_nat (String.length b) + valueOf b.
Proof.
  intros Ha Hb. unfold valueOf at 1. rewrite (digitsValue_app a b 0 Ha).
  fold (valueOf a). rewrite (digitsValue_digits b _ Hb). reflexivity.
Qed.

Lemma valueOf_bounds (s : string) :
  allDigits s = true -> 0 <= valueOf s < 10 ^ Z.of_nat (String.length s).
Proof.
  induction s as [|c r IH]; intros Hd.
  - unfold valueOf. simpl. lia.
  - simpl in Hd. apply andb_prop in Hd. destruct Hd as [Hc Hr].
    change (String c r) with (String c EmptyString +:+ r).
    rewrite valueOf_app; [|simpl; rewrite Hc; reflexivity|exact Hr].
    assert (Hv : valueOf (String c EmptyString) = digitVal c).
    { unfold valueOf. simpl. rewrite Hc. simpl. lia. }
    rewrite Hv. pose proof (isDigit_range c Hc) as Hrange. specialize (IH Hr).
    change (String.length (String c EmptyString +:+ r)) with (S (String.length r)).
    rewrite Nat2Z.inj_succ, Z.pow_succ_r by lia. nia.
Qed.

Lemma allDigits_app (a b : string) :
  allDigits (a +:+ b) = allDigits a && allDigits b.
Proof.
  induction a as [|c r IH]; [reflexivity|].
  change (String c r +:+ b) with (String c (r +:+ b)). simpl. rewrite IH.
  apply andb_assoc.
Qed.

Lemma length_app (a b : string) :
  String.length (a +:+ b) = (String.length a + String.length b)%nat.
Proof.
  induction a as [|c r IH]; [reflexivity|].
  change (String c r +:+ b) with (String c (r +:+ b)). simpl. f_equal. exact IH.
Qed.

(** Leading zeros do not count. *)
Lemma stripLeadingZeros_cons (c : ascii) (r : string) :
  stripLeadingZeros (String c r)
  = if Ascii.eqb c "0" then stripLeadingZeros r else String c r.
Proof. destruct c as [[] [] [] [] [] [] [] []]; reflexivity. Qed.

Lemma stripLeadingZeros_value (s : string) :
  allDigits s = true ->
  allDigits (stripLeadingZeros s) = true
  /\ valueOf (stripLeadingZeros s) = valueOf s.
Proof.
  induction s as [|c r IH]; intros Hd; [auto|].
  rewrite stripLeadingZeros_cons. destruct (Ascii.eqb_spec c "0") as [->|Hne]; [|auto].
  simpl in Hd. destruct (IH Hd) as [H1 H2]. split; [exact H1|].
  rewrite H2. reflexivity.
Qed.

(** A digit string has no decimal point. *)
Lemma split_digits (s : string) :
  allDigits s = true -> split "." s = [s].
Proof.
  induction s as [|c r IH]; intros Hd; [reflexivity|].
  simpl in Hd. apply andb_prop in Hd. destruct Hd as [Hc Hr].
  cbn [split]. destruct (Ascii.eqb_spec c ".") as [->|Hne]; [discriminate|].
  rewrite (IH Hr). reflexivity.
Qed.

Lemma split_point (a b : string) :
  allDigits a = true -> allDigits b = true ->
  split "." (a +:+ "." +:+ b) = [a; b].
Proof.
  intros Ha Hb. induction a as [|c r IH].
  - change (EmptyString +:+ "." +:+ b) with (String "." b).
    cbn [split]. rewrite Ascii.eqb_refl, (split_digits b Hb). reflexivity.
  - simpl in Ha. apply andb_prop in Ha. destruct Ha as [Hc Hr].
    change (String c r +:+ "." +:+ b) with (String c (r +:+ "." +:+ b)).
    cbn [split]. destruct (Ascii.eqb_spec c ".") as [->|Hne]; [discriminate|].
    rewrite (IH Hr). reflexivity.
Qed.

(** The six digits of the fraction: the digits given, cut or completed
    with zeros. *)
Lemma ofChars_chars (s : string) : ofChars (chars s) = s.
Proof. apply String.string_of_list_ascii_of_string. Qed.

Lemma ofChars_app (l1 l2 : list ascii) :
  ofChars (l1 ++ l2) = ofChars l1 +:+ ofChars l2.
Proof. induction l1 as [|c l1 IH]; [reflexivity|]. simpl. rewrite IH. reflexivity. Qed.

Lemma length_ofChars (l : list ascii) : String.length (ofChars l) = length l.
Proof. induction l as [|c l IH]; [reflexivity|]. simpl. f_equal. exact IH. Qed.

Lemma length_chars (s : string) : length (chars s) = String.length s.
Proof. induction s as [|c r IH]; [reflexivity|]. simpl. f_equal. exact IH. Qed.

Lemma prefix_split (n : nat) (s : string) :
  s = prefix n s +:+ ofChars (drop n (chars s)).
Proof. unfold prefix. rewrite <- ofChars_app, take_drop. symmetry. apply ofChars_chars. Qed.

Lemma length_prefix (n : nat) (s : string) :
  String.length (prefix n s) = Nat.min n (String.length s).
Proof. unfold prefix. rewrite length_ofChars, length_take, length_chars. reflexivity. Qed.

Lemma prefix_all (n : nat) (s : string) :
  (String.length s <= n)%nat -> prefix n s = s.
Proof.
  intros Hle. unfold prefix. rewrite take_ge by (rewrite length_chars; exact Hle).
  apply ofChars_chars.
Qed.

Lemma app_empty (s : string) : s +:+ EmptyString = s.
Proof.
  induction s as [|c r IH]; [reflexivity|].
  change (String c r +:+ EmptyString) with (String c (r +:+ EmptyString)).
  rewrite IH. reflexivity.
Qed.

Lemma zeros_value (k : nat) :
  allDigits (ofChars (replicate k "0"%char)) = true
  /\ valueOf (ofChars (replicate k "0"%char)) = 0
  /\ String.length (ofChars (replicate k "0"%char)) = k.
Proof.
  induction k as [|k (H1 & H2 & H3)]; [repeat split|].
  simpl. split; [exact H1|]. split; [|f_equal; exact H3].
  unfold valueOf in *. simpl. exact H2.
Qed.

Lemma six_digits (fp : string) :
  allDigits fp = true ->
  let six := prefix 6 (padEnd0 6 fp) in
  allDigits six = true /\ String.length six = 6%nat
  /\ valueOf six = valueOf fp * 10 ^ 6 / 10 ^ Z.of_nat (String.length fp).
Proof.
  intros Hd six. subst six. unfold padEnd0.
  destruct (zeros_value (6 - String.length fp)) as (Z1 & Z2 & Z3).
  destruct (le_lt_dec (String.length fp) 6) as [Hle|Hgt].
  - rewrite prefix_all by (rewrite length_app, Z3; lia).
    split; [rewrite allDigits_app, Hd, Z1; reflexivity|].
    split; [rewrite length_app, Z3; lia|].
    rewrite valueOf_app, Z2, Z3 by assumption.
    replace (10 ^ 6) with (10 ^ Z.of_nat (6 - String.length fp)
                           * 10 ^ Z.of_nat (String.length fp)).
    + rewrite Z.mul_assoc, Z.div_mul by (apply Z.pow_nonzero; lia). lia.
    + rewrite <- Z.pow_add_r by lia. f_equal. lia.
  - replace (6 - String.length fp)%nat with 0%nat by lia.
    change (ofChars (replicate 0 "0"%char)) with EmptyString. rewrite app_empty.
    pose proof (prefix_split 6 fp) as Hsplit.
    pose proof (length_prefix 6 fp) as Hlen. rewrite Nat.min_l in Hlen by lia.
    set (a := prefix 6 fp) in *. set (b := ofChars (drop 6 (chars fp))) in *.
    assert (Hab : allDigits a = true /\ allDigits b = true).
    { rewrite Hsplit, allDigits_app in Hd. apply andb_prop in Hd. exact Hd. }
    destruct Hab as [Ha Hb].
    split; [exact Ha|]. split; [exact Hlen|].
    rewrite Hsplit at 1 2. rewrite valueOf_app, length_app, Hlen by assumption.
    pose proof (valueOf_bounds b Hb) as Hbound.
    rewrite Nat2Z.inj_add, Z.pow_add_r by lia. change (Z.of_nat 6) with 6.
    set (R := 10 ^ Z.of_nat (String.length b)) in *.
    assert (HR : 0 < R) by (apply Z.pow_pos_nonneg; lia).
    rewrite (Z.mul_comm _ (10 ^ 6)), Z.div_mul_cancel_l by lia.
    rewrite Z.div_add_l by lia. rewrite Z.div_small by lia. lia.
Qed.

(** The micro-units of a decimal amount, digit by digit: the integer part
    times a million, plus the first six digits of the fraction. Nothing is
    rounded. *)
Lemma octToMicroString_exact (ip fp : string) :
  allDigits ip = true -> allDigits fp = true ->
  let micro := Osm1.octToMicroString (ip +:+ "." +:+ fp) in
  allDigits micro = true
  /\ valueOf micro
     = valueOf ip * 10 ^ 6 + valueOf fp * 10 ^ 6 / 10 ^ Z.of_nat (String.length fp).
Proof.
  intros Hi Hf micro. subst micro. unfold Osm1.octToMicroString.
  rewrite (split_point ip fp Hi Hf). cbn [head default from_option id Osm1.secondPart].
  destruct (six_digits fp Hf) as (S1 & S2 & S3).
  set (six := prefix 6 (padEnd0 6 fp)) in *.
  assert (Hall : allDigits (ip +:+ six) = true) by (rewrite allDigits_app, Hi, S1; reflexivity).
  destruct (stripLeadingZeros_value (ip +:+ six) Hall) as [T1 T2].
  assert (Hv : valueOf (ip +:+ six)
               = valueOf ip * 10 ^ 6 + valueOf fp * 10 ^ 6 / 10 ^ Z.of_nat (String.length fp)).
  { rewrite valueOf_app, S2, S3 by assumption. reflexivity. }
  destruct (stripLeadingZeros (ip +:+ six)) as [|c r] eqn:E.
  - split; [reflexivity|]. rewrite <- Hv, <- T2. reflexivity.
  - split; [exact T1|]. rewrite <- Hv, <- T2. reflexivity.
Qed.

(** An amount without a fraction is the integer times a million. *)
Lemma octToMicroString_integer (ip : string) :
  allDigits ip = true ->
  valueOf (Osm1.octToMicroString ip) = valueOf ip * 10 ^ 6.
Proof.
  intros Hi. unfold Osm1.octToMicroString.
  rewrite (split_digits ip Hi). cbn [head default from_option id Osm1.secondPart].
  destruct (six_digits EmptyString eq_refl) as (S1 & S2 & S3).
  set (six := prefix 6 (padEnd0 6 EmptyString)) in *.
  assert (Hall : allDigits (ip +:+ six) = true) by (rewrite allDigits_app, Hi, S1; reflexivity).
  destruct (stripLeadingZeros_value (ip +:+ six) Hall) as [T1 T2].
  assert (Hv : valueOf (ip +:+ six) = valueOf ip * 10 ^ 6).
  { rewrite valueOf_app, S2, S3 by assumption.
    change (valueOf EmptyString * 10 ^ 6 / 10 ^ Z.of_nat (String.length EmptyString)) with 0.
    change (Z.of_nat 6) with 6. lia. }
  destruct (stripLeadingZeros (ip +:+ six)) as [|c r] eqn:E.
  - rewrite <- Hv, <- T2. reflexivity.
  - rewrite <- Hv, <- T2. reflexivity.
Qed.

End AmountFacts.

(** ** Integers in decimal *)

Module DecimalFacts.

Import Str.

Lemma digit_char (d : Z) :
  0 <= d <= 9 ->
  let c := ascii_of_nat (Z.to_nat (48 + d)) in
  isDigit c = true /\ digitVal c = d.
Proof.
  intros Hd c. subst c. unfold isDigit, digitVal, code.
  rewrite nat_ascii_embedding by lia. rewrite Z2Nat.id by lia.
  split; [|lia]. apply andb_true_intro. split; apply Z.leb_le; lia.
Qed.

Lemma valueOf_cons (c : ascii) (s : string) :
  isDigit c = true -> allDigits s = true ->
  valueOf (String c s) = digitVal c * 10 ^ Z.of_nat (String.length s) + valueOf s.
Proof.
  intros Hc Hs. change (String c s) with (String c EmptyString +:+ s).
  rewrite AmountFacts.valueOf_app; [|simpl; rewrite Hc; reflexivity|exact Hs].
  f_equal. unfold valueOf. simpl. rewrite Hc. simpl. ring.
Qed.

(** The digits written are those of the number. *)
Lemma digitsFuel_value (fuel : nat) (n : Z) (acc : string) :
  0 <= n < 2 ^ Z.of_nat fuel -> (0 < fuel)%nat -> allDigits acc = true ->
  allDigits (digitsFuel fuel n acc) = true
  /\ valueOf (digitsFuel fuel n acc) = n * 10 ^ Z.of_nat (String.length acc) + valueOf acc.
Proof.
  revert n acc. induction fuel as [|fuel IH]; intros n acc Hn Hf Hacc; [lia|].
  cbn [digitsFuel].
  assert (Hmod : 0 <= n mod 10 <= 9) by (pose proof (Z.mod_pos_bound n 10); lia).
  destruct (digit_char (n mod 10) Hmod) as [Hc Hv].
  set (c := ascii_of_nat (Z.to_nat (48 + n mod 10))) in *.
  assert (Hacc' : allDigits (String c acc) = true) by (simpl; rewrite Hc; exact Hacc).
  pose proof (valueOf_cons c acc Hc Hacc) as Hcons. rewrite Hv in Hcons.
  destruct (Z.eqb_spec (n / 10) 0) as [Hz|Hnz].
  - split; [exact Hacc'|]. rewrite Hcons.
    assert (n = n mod 10) by (pose proof (Z.div_mod n 10); lia). 
    f_equal. f_equal. lia.
  - assert (Hq : 0 < n / 10) by (pose proof (Z.div_pos n 10); lia).
    destruct fuel as [|fuel'].
    + exfalso. change (2 ^ Z.of_nat 1) with 2 in Hn.
      assert (n / 10 = 0) by (apply Z.div_small; lia). lia.
    + destruct (IH (n / 10) (String c acc)) as [I1 I2]; [|lia|exact Hacc'|].
      * split; [lia|]. rewrite Nat2Z.inj_succ, Z.pow_succ_r in Hn by lia.
        apply Z.div_lt_upper_bound; lia.
      * split; [exact I1|]. rewrite I2, Hcons. cbn [String.length].
        rewrite Nat2Z.inj_succ, Z.pow_succ_r by lia.
        pose proof (Z.div_mod n 10 ltac:(lia)) as Hdm. nia.
Qed.

(** [ofNat10] writes a natural number in decimal. *)
Lemma ofNat10_value (n : Z) :
  0 <= n -> allDigits (ofNat10 n) = true /\ valueOf (ofNat10 n) = n.
Proof.
  intros Hn. unfold ofNat10.
  destruct (digitsFuel_value (S (Z.to_nat (Z.log2 n))) n EmptyString) as [H1 H2].
  - split; [exact Hn|]. rewrite Nat2Z.inj_succ, Z2Nat.id by apply Z.log2_nonneg.
    destruct (Z.eq_dec n 0) as [->|Hne]; [simpl; lia|].
    apply Z.log2_spec. lia.
  - lia.
  - reflexivity.
  - split; [exact H1|]. rewrite H2. unfold valueOf. simpl. lia.
Qed.

End DecimalFacts.

(** ** Own properties: reading after writing *)

Module JsFacts.

Import Js.

Lemma has_true (o : object) (k : string) : has o k = true <-> k ∈ keys o.
Proof. unfold has. rewrite bool_decide_eq_true. reflexivity. Qed.

Lemma has_false (o : object) (k : string) : has o k = false <-> k ∉ keys o.
Proof. unfold has. rewrite bool_decide_eq_false. reflexivity. Qed.

Lemma eqb_refl (k : string) : String.eqb k k = true.
Proof. apply String.eqb_refl. Qed.

Lemma eqb_ne (k k' : string) : k ≠ k' -> String.eqb k k' = false.
Proof. intros Hne. apply String.eqb_neq. exact Hne. Qed.

Lemma get_absent (o : object) (k : string) : k ∉ keys o -> get o k = VUndefined.
Proof.
  induction o as [|[k' v] o IH]; simpl; intros Hk; [reflexivity|].
  rewrite not_elem_of_cons in Hk. destruct Hk as [Hne Hk].
  rewrite eqb_ne by congruence. apply IH, Hk.
Qed.

Lemma get_replace_eq (o : object) (k : string) (v : value) :
  k ∈ keys o -> get (replace o k v) k = v.
Proof.
  induction o as [|[k' v'] o IH]; simpl; intros Hk.
  - apply elem_of_nil in Hk. contradiction.
  - destruct (String.eqb k' k) eqn:E; simpl; rewrite E; [reflexivity|].
    apply IH. apply elem_of_cons in Hk. destruct Hk as [->|Hk]; [|exact Hk].
    rewrite eqb_refl in E. discriminate.
Qed.

Lemma get_replace_ne (o : object) (k k' : string) (v : value) :
  k ≠ k' -> get (replace o k v) k' = get o k'.
Proof.
  intros Hne. induction o as [|[k0 v0] o IH]; simpl; [reflexivity|].
  destruct (String.eqb k0 k) eqn:E; simpl.
  - apply String.eqb_eq in E. subst k0. rewrite eqb_ne by exact Hne. reflexivity.
  - rewrite IH. reflexivity.
Qed.

Lemma get_insertIndex_eq (o : object) (i : Z) (k : string) (v : value) :
  k ∉ keys o -> get (insertIndex o i k v) k = v.
Proof.
  induction o as [|[k' v'] o IH]; simpl; intros Hk.
  - rewrite eqb_refl. reflexivity.
  - rewrite not_elem_of_cons in Hk. destruct Hk as [Hne Hk].
    destruct (arrayIndex k') as [j|]; [destruct (j <? i)|]; simpl;
      rewrite ?eqb_refl; try reflexivity.
    rewrite eqb_ne by congruence. apply IH, Hk.
Qed.

Lemma get_insertIndex_ne (o : object) (i : Z) (k k' : string) (v : value) :
  k ≠ k' -> get (insertIndex o i k v) k' = get o k'.
Proof.
  intros Hne. induction o as [|[k0 v0] o IH]; simpl.
  - rewrite eqb_ne by exact Hne. reflexivity.
  - destruct (arrayIndex k0) as [j|]; [destruct (j <? i)|]; simpl;
      rewrite ?(eqb_ne k k') by exact Hne; try reflexivity.
    rewrite IH. reflexivity.
Qed.

Lemma get_app (o1 o2 : object) (k : string) :
  get (o1 ++ o2) k = if has o1 k then get o1 k else get o2 k.
Proof.
  induction o1 as [|[k' v'] o1 IH]; simpl; [reflexivity|].
  destruct (String.eqb k' k) eqn:E.
  - apply String.eqb_eq in E. subst k'.
    replace (has ((k, v') :: o1) k) with true; [reflexivity|].
    symmetry. apply has_true. simpl. apply elem_of_cons. left. reflexivity.
  - rewrite IH. apply String.eqb_neq in E.
    replace (has ((k', v') :: o1) k) with (has o1 k); [reflexivity|].
    unfold has. apply bool_decide_ext. simpl. rewrite elem_of_cons.
    split; [auto|]. intros [->|H]; [contradiction|exact H].
Qed.

(** Reading the property just written gives the value written. *)
Lemma get_set_eq (o : object) (k : string) (v : value) : get (set o k v) k = v.
Proof.
  unfold set. destruct (has o k) eqn:Hh.
  - apply get_replace_eq, has_true, Hh.
  - apply has_false in Hh. destruct (arrayIndex k).
    + apply get_insertIndex_eq, Hh.
    + rewrite get_app. replace (has o k) with false by (symmetry; apply has_false, Hh).
      simpl. rewrite eqb_refl. reflexivity.
Qed.

(** Writing a property leaves the others as they are. *)
Lemma get_set_ne (o : object) (k k' : string) (v : value) :
  k ≠ k' -> get (set o k v) k' = get o k'.
Proof.
  intros Hne. unfold set. destruct (has o k) eqn:Hh.
  - apply get_replace_ne, Hne.
  - destruct (arrayIndex k).
    + apply get_insertIndex_ne, Hne.
    + rewrite get_app. destruct (has o k') eqn:Hk'; [reflexivity|].
      simpl. rewrite eqb_ne by exact Hne.
      symmetry. apply get_absent, has_false, Hk'.
Qed.

Lemma truthy_defined (v : value) : truthy v = true -> isDefined v = true.
Proof. destruct v; try reflexivity. discriminate. Qed.

(** Writing the value a property already has changes nothing. *)
Lemma replace_same (o : object) (k : string) :
  replace o k (get o k) = o.
Proof.
  induction o as [|[k' v'] o IH]; simpl; [reflexivity|].
  destruct (String.eqb k' k); [reflexivity|]. rewrite IH. reflexivity.
Qed.

Lemma set_same (o : object) (k : string) : k ∈ keys o -> set o k (get o k) = o.
Proof.
  intros Hk. unfold set. apply has_true in Hk. rewrite Hk. apply replace_same.
Qed.

End JsFacts.

(** ** The signing choke point: [getWalletFromStorage] *)

Module SessionFacts.

Import Background.

Section Session.

Variable decryptSession : Js.value -> Js.value -> Completion Js.value.

Lemma decrypted_Some (s : Js.object) (key k : Js.value) :
  decrypted decryptSession s key = Some k <-> Unlocks decryptSession s key k.
Proof.
  unfold decrypted, Unlocks.
  destruct (Js.truthy (Js.get s "encryptedPrivateKey")); simpl;
    [|split; [discriminate|intros [H _]; discriminate]].
  destruct (Js.truthy key); simpl;
    [|split; [discriminate|intros (_ & H & _); discriminate]].
  destruct (decryptSession _ key) as [p|e].
  - destruct (Js.truthy p) eqn:Hp.
    + split.
      * intros [= <-]. auto.
      * intros (_ & _ & [= <-] & _). reflexivity.
    + split; [discriminate|].
      intros (_ & _ & [= <-] & H). congruence.
  - split; [discriminate|]. intros (_ & _ & H & _). discriminate.
Qed.

Lemma keyOf_unlocked (s : Js.object) (k : Js.value) :
  Js.truthy k = true ->
  let w := Js.assignAll s [("privateKey", k); ("privateKeyB64", k)] in
  Js.get w "privateKey" = k /\ Js.get w "privateKeyB64" = k /\ keyOf w = k.
Proof.
  intros Hk w. subst w. unfold Js.assignAll. simpl.
  assert (H1 : Js.get (Js.set (Js.set s "privateKey" k) "privateKeyB64" k) "privateKey" = k).
  { rewrite JsFacts.get_set_ne by discriminate. apply JsFacts.get_set_eq. }
  assert (H2 : Js.get (Js.set (Js.set s "privateKey" k) "privateKeyB64" k) "privateKeyB64" = k).
  { apply JsFacts.get_set_eq. }
  split; [exact H1|]. split; [exact H2|].
  unfold keyOf, Js.or. rewrite H1, Hk. reflexivity.
Qed.

End Session.

End SessionFacts.

(** C1, as the code has it. [getWalletFromStorage] returns a wallet exactly
    when the session it works on either has both halves (the ciphertext
    [encryptedPrivateKey] and the session key in memory) and its decryption
    gives a key, or carries a plaintext [privateKey]/[privateKeyB64] of its
    own (the legacy fallback); otherwise it returns [null]. In the first case
    the key of the wallet is the decrypted one, and every wallet returned has
    a key. *)
Theorem getWalletFromStorage_key
  (decryptSession : Js.value -> Js.value -> Completion Js.value)
  (stored : Background.StorageRead) (st : Background.State) :
  let r := (Background.getWalletFromStorage decryptSession stored st).1 in
  let key := Background.memorySessionKey st in
  (r <> None <->
   exists s, Background.currentSession st stored = Some s
             /\ ((exists k, Background.Unlocks decryptSession s key k)
                 \/ Js.truthy (Background.keyOf s) = true))
  /\ (forall s k, Background.currentSession st stored = Some s ->
                  Background.Unlocks decryptSession s key k ->
                  exists w, r = Some w /\ Js.get w "privateKey" = k
                            /\ Js.get w "privateKeyB64" = k /\ Background.keyOf w = k)
  /\ (forall s, Background.currentSession st stored = Some s ->
                (forall k, ~ Background.Unlocks decryptSession s key k) ->
                r = if Js.truthy (Background.keyOf s) then Some s else None)
  /\ (forall w, r = Some w -> Js.truthy (Background.keyOf w) = true).
Proof.
  intros r key. subst r key. unfold Background.getWalletFromStorage.
  destruct (Background.currentSession st stored) as [s|] eqn:Hs.
  - destruct (Background.decrypted decryptSession s (Background.memorySessionKey st))
      as [k|] eqn:Hd.
    + apply SessionFacts.decrypted_Some in Hd.
      assert (Hk : Js.truthy k = true) by apply Hd.
      destruct (SessionFacts.keyOf_unlocked s k Hk) as (G1 & G2 & G3).
      cbn [fst]. split; [|split; [|split]].
      * split; [|discriminate].
        intros _. exists s. split; [reflexivity|]. left. exists k. exact Hd.
      * intros s' k' Hs' Hd'. injection Hs' as <-.
        exists (Js.assignAll s [("privateKey", k); ("privateKeyB64", k)]).
        assert (k' = k) as ->.
        { destruct Hd as (_ & _ & E1 & _), Hd' as (_ & _ & E2 & _). congruence. }
        auto.
      * intros s' Hs' Hno. injection Hs' as <-. exfalso. exact (Hno k Hd).
      * intros w Hw. injection Hw as <-. exact (eq_trans (f_equal Js.truthy G3) Hk).
    + assert (Hno : forall k, ~ Background.Unlocks decryptSession s (Background.memorySessionKey st) k).
      { intros k Hk. apply SessionFacts.decrypted_Some in Hk. congruence. }
      assert (Hr : (if Js.truthy (Background.keyOf s)
                    then (Some s, match Background.activeSessionCache st, stored with
                                  | None, Background.ReadSession s0 => Background.withSession st (Some s0)
                                  | _, _ => st
                                  end)
                    else (None, match Background.activeSessionCache st, stored with
                                | None, Background.ReadSession s0 => Background.withSession st (Some s0)
                                | _, _ => st
                                end)).1
                   = if Js.truthy (Background.keyOf s) then Some s else None).
      { destruct (Js.truthy (Background.keyOf s)); reflexivity. }
      rewrite Hr. clear Hr. split; [|split; [|split]].
      * split.
        -- intros Hne. exists s. split; [reflexivity|]. right.
           destruct (Js.truthy (Background.keyOf s)); [reflexivity|].
           exfalso. apply Hne. reflexivity.
        -- intros (s' & Hs' & [[k Hk]|Hk]); injection Hs' as <-.
           ++ exfalso. exact (Hno k Hk).
           ++ rewrite Hk. discriminate.
      * intros s' k' Hs' Hd'. injection Hs' as <-. exfalso. exact (Hno k' Hd').
      * intros s' Hs' _. injection Hs' as <-. reflexivity.
      * intros w Hw. destruct (Js.truthy (Background.keyOf s)) eqn:Hl; [|discriminate].
        injection Hw as <-. exact Hl.
  - cbn [fst]. split; [|split; [|split]].
    + split; [intros H; contradiction|]. intros (s & Hs' & _). discriminate.
    + intros s k Hs'. discriminate.
    + intros s Hs'. discriminate.
    + intros w. discriminate.
Qed.

(** C1 as the specification states it fails: a session that carries a
    plaintext key of its own is returned, although it has no ciphertext and
    no session key is in memory. *)
Lemma getWalletFromStorage_legacy :
  let session := [("address", Js.VString "oct1"); ("privateKey", Js.VString Sample.seed)] in
  let st := Background.withSession Background.initial (Some session) in
  Js.get session "encryptedPrivateKey" = Js.VUndefined
  /\ Background.memorySessionKey st = Js.VNull
  /\ (forall k, ~ Background.Unlocks Sample.decryptSession session (Background.memorySessionKey st) k)
  /\ (Background.getWalletFromStorage Sample.decryptSession Background.ReadNothing st).1
     = Some session.
Proof.
  simpl. repeat split.
  intros k (H & _). simpl in H. discriminate.
Qed.

(** ** Promises are settled once *)

Module PromiseFacts.

Section Settle.

Context {K : Type} `{Countable K}.

Lemma settle_other (id j : K) (s : Settlement) (ps : gmap K Settlement) :
  id ≠ j -> settle j s ps !! id = ps !! id.
Proof.
  intros Hne. unfold settle. destruct (ps !! j) as [[]|]; try reflexivity.
  apply lookup_insert_ne. congruence.
Qed.

Lemma settle_pending (id : K) (s : Settlement) (ps : gmap K Settlement) :
  ps !! id = Some Pending -> settle id s ps !! id = Some s.
Proof. intros Hp. unfold settle. rewrite Hp. apply lookup_insert_eq. Qed.

(** A promise that is settled stays as it is. *)
Lemma settle_settled (id : K) (s : Settlement) (ps : gmap K Settlement) :
  ps !! id ≠ Some Pending -> settle id s ps = ps.
Proof.
  intros Hp. unfold settle. destruct (ps !! id) as [[]|]; try reflexivity.
  contradiction.
Qed.

End Settle.

End PromiseFacts.

(** ** Expiry of pending requests: [clearExpiredRequests] *)

Module DappServiceFacts.

Import DappService.

Lemma lookup_swept_old (now : Z) (st : State) (id : string) (r : Request) :
  pendingRequests st !! id = Some r ->
  now - createdAt r > expiry ->
  pendingRequests (clearExpiredRequests now st) !! id = None.
Proof.
  intros Hr Hold. simpl. apply map_lookup_filter_None. right.
  intros r' Hr'. rewrite Hr in Hr'. injection Hr' as <-. simpl. lia.
Qed.

Lemma lookup_swept_recent (now : Z) (st : State) (id : string) (r : Request) :
  pendingRequests st !! id = Some r ->
  now - createdAt r <= expiry ->
  pendingRequests (clearExpiredRequests now st) !! id = Some r.
Proof.
  intros Hr Hyoung. simpl. apply map_lookup_filter_Some.
  split; [exact Hr|]. simpl. lia.
Qed.

Lemma continuations_swept (now : Z) (st : State) :
  continuations (clearExpiredRequests now st) = continuations st.
Proof. reflexivity. Qed.

(** A request added at [created] is found under its id. *)
Lemma lookup_added (id : string) (req : Js.object) (created : Z) (st : State) :
  pendingRequests (addPendingRequest id req created st) !! id
  = Some {| request := req; createdAt := created |}.
Proof. simpl. apply lookup_insert_eq. Qed.

End DappServiceFacts.

(** C2, as the code has it. The sweep [clearExpiredRequests] removes every
    pending request created more than five minutes before, keeps every
    other one as it is, and settles no continuation: a promise that was
    pending is still pending after the sweep. *)
Theorem clearExpiredRequests_sweep (now : Z) (st : DappService.State)
  (id : string) (r : DappService.Request) :
  DappService.pendingRequests st !! id = Some r ->
  let st' := DappService.clearExpiredRequests now st in
  (now - DappService.createdAt r > 5 * 60 * 1000 ->
   DappService.pendingRequests st' !! id = None)
  /\ (now - DappService.createdAt r <= 5 * 60 * 1000 ->
      DappService.pendingRequests st' !! id = Some r)
  /\ DappService.continuations st' = DappService.continuations st
  /\ DappService.connections st' = DappService.connections st.
Proof.
  intros Hr st'. subst st'.
  split; [|split; [|split; reflexivity]].
  - apply DappServiceFacts.lookup_swept_old, Hr.
  - apply DappServiceFacts.lookup_swept_recent, Hr.
Qed.

(** A request that is 300001 ms old is swept; its promise is left as it was. *)
Lemma clearExpiredRequests_sweep_witness :
  let st := DappService.addPendingRequest "req-1" [("type", Js.VString "connect")] 1000
              {| DappService.connections := ∅; DappService.pendingRequests := ∅;
                 DappService.continuations := {["req-1" := Pending]} |} in
  DappService.pendingRequests (DappService.clearExpiredRequests 301001 st) !! "req-1" = None
  /\ DappService.continuations (DappService.clearExpiredRequests 301001 st)
     = {["req-1" := Pending]}.
Proof.
  intros st.
  destruct (clearExpiredRequests_sweep 301001 st "req-1" _
              (DappServiceFacts.lookup_added "req-1" _ 1000 _)) as (Hold & _ & Hc & _).
  split.
  - apply Hold. simpl. lia.
  - exact Hc.
Defined.

(** C2 as the specification states it fails: a request created at time
    1000 and left undecided is removed by the sweep at time 301001, and its
    continuation is not rejected: the promise is still pending. *)
Lemma clearExpiredRequests_leaves_pending :
  let st := DappService.addPendingRequest "req-1" [("type", Js.VString "connect")] 1000
              {| DappService.connections := ∅; DappService.pendingRequests := ∅;
                 DappService.continuations := {["req-1" := Pending]} |} in
  let st' := DappService.clearExpiredRequests 301001 st in
  DappService.pendingRequests st' !! "req-1" = None
  /\ DappService.continuations st' !! "req-1" = Some Pending
  /\ ~ (exists e, DappService.continuations st' !! "req-1" = Some (Rejected e)).
Proof.
  intros st st'. subst st'. split; [|split].
  - apply (DappServiceFacts.lookup_swept_old 301001 st "req-1" _
             (DappServiceFacts.lookup_added "req-1" _ 1000 _)).
    simpl. unfold DappService.expiry. lia.
  - rewrite DappServiceFacts.continuations_swept. apply lookup_singleton_eq.
  - rewrite DappServiceFacts.continuations_swept. intros [e He].
    simpl in He. rewrite lookup_singleton_eq in He. discriminate.
Qed.

(** ** Connect requests: [handleConnect] *)

Module ConnectFacts.

Import Background.

Section Connect.

Variable decryptSession : Js.value -> Js.value -> Completion Js.value.

(** Reading the wallet changes nothing but the session cache. *)
Lemma getWalletFromStorage_frame (stored : StorageRead) (st : State) :
  let st' := (getWalletFromStorage decryptSession stored st).2 in
  dappConnections st' = dappConnections st
  /\ dappApprovals st' = dappApprovals st
  /\ promises st' = promises st
  /\ windows st' = windows st
  /\ memorySessionKey st' = memorySessionKey st.
Proof.
  unfold getWalletFromStorage.
  destruct (currentSession st stored) as [s|];
    [destruct (decrypted decryptSession s (memorySessionKey st));
     [|destruct (Js.truthy (keyOf s))]|];
    destruct (activeSessionCache st), stored; simpl; auto.
Qed.

Lemma handleConnect_connected (origin : string) (title favicon : Js.value)
  (approvalId : string) (now : Z) (stored : StorageRead) (st : State) :
  connected origin st = true ->
  exists response,
    handleConnect decryptSession origin title favicon approvalId now stored st
    = (Returned response, st)
    /\ Js.get (Js.asObject (Js.get response "result")) "selectedAddress"
       = Js.get (default [] (dappConnections st !! origin)) "address".
Proof.
  unfold connected, handleConnect. intros ->. eexists. split; reflexivity.
Qed.

Lemma handleConnect_not_connected (origin : string) (title favicon : Js.value)
  (approvalId : string) (now : Z) (stored : StorageRead) (st : State) :
  connected origin st = false ->
  let r := handleConnect decryptSession origin title favicon approvalId now stored st in
  r.1 = Awaiting approvalId
  /\ dappApprovals r.2 !! approvalId
     = Some {| type := "connect"; origin := origin;
               params := [("title", title); ("favicon", favicon)];
               wallet := (getWalletFromStorage decryptSession stored st).1;
               timestamp := now |}
  /\ promises r.2 !! approvalId = Some Pending
  /\ windows r.2 = windows st ++ [approvalUrl approvalId]
  /\ dappConnections r.2 = dappConnections st.
Proof.
  unfold connected, handleConnect. intros ->.
  destruct (getWalletFromStorage_frame stored st) as (Hc & _ & _ & Hw & _).
  destruct (getWalletFromStorage decryptSession stored st) as [w st1]. simpl in *.
  rewrite !lookup_insert_eq, Hw, Hc. auto.
Qed.

End Connect.

End ConnectFacts.

(** C3, as the code has it. A connect request from an origin that holds no
    active connection creates a pending approval of type [connect] under a
    fresh id, opens the approval window with that id alone in its address,
    and is suspended: it has no response as long as the approval is
    undecided. A connect request from an origin that already holds an
    active connection is answered at once with the stored address: no
    approval is created, no window is opened, the state is unchanged. *)
Theorem handleConnect_approval
  (decryptSession : Js.value -> Js.value -> Completion Js.value)
  (origin : string) (title favicon : Js.value) (approvalId : string) (now : Z)
  (stored : Background.StorageRead) (st : Background.State) :
  let r := Background.handleConnect decryptSession origin title favicon
             approvalId now stored st in
  if Background.connected origin st then
    exists response,
      r = (Background.Returned response, st)
      /\ Js.get (Js.asObject (Js.get response "result")) "selectedAddress"
         = Js.get (default [] (Background.dappConnections st !! origin)) "address"
  else
    r.1 = Background.Awaiting approvalId
    /\ (exists a, Background.dappApprovals r.2 !! approvalId = Some a
                  /\ Background.type a = "connect" /\ Background.origin a = origin
                  /\ Background.timestamp a = now)
    /\ Background.promises r.2 !! approvalId = Some Pending
    /\ Background.windows r.2
       = Background.windows st ++ ["index.html#/dapp/approve?id=" +:+ approvalId]
    /\ (forall now' stored' st',
          Background.handleConnectResume decryptSession origin title favicon
            Pending now' stored' st' = None).
Proof.
  intros r. subst r. destruct (Background.connected origin st) eqn:Hc.
  - apply ConnectFacts.handleConnect_connected, Hc.
  - destruct (ConnectFacts.handleConnect_not_connected decryptSession origin title
                favicon approvalId now stored st Hc) as (H1 & H2 & H3 & H4 & _).
    split; [exact H1|]. split; [eexists; split; [exact H2|auto]|].
    split; [exact H3|]. split; [exact H4|]. reflexivity.
Qed.

(** C3 as the specification states it fails: a connect request from an
    origin that is already connected is answered at once; no approval is
    created and no window is opened. *)
Lemma handleConnect_fast_path :
  let connection := [("origin", Js.VString "https://d.app"); ("address", Js.VString "oct1");
                     ("connected", Js.VBool true)] in
  let st := Background.withConnections Background.initial {["https://d.app" := connection]} in
  let r := Background.handleConnect Sample.decryptSession "https://d.app"
             (Js.VString "d") Js.VUndefined "id-1" 5 Background.ReadNothing st in
  (exists response, r.1 = Background.Returned response)
  /\ Background.dappApprovals r.2 = ∅
  /\ Background.windows r.2 = [].
Proof.
  intros connection st r.
  assert (Hc : Background.connected "https://d.app" st = true).
  { unfold Background.connected. subst st. simpl. rewrite lookup_singleton_eq. reflexivity. }
  destruct (ConnectFacts.handleConnect_connected Sample.decryptSession "https://d.app"
              (Js.VString "d") Js.VUndefined "id-1" 5 Background.ReadNothing st Hc)
    as (response & Hr & _).
  subst r. rewrite Hr. split; [exists response; reflexivity|]. split; reflexivity.
Qed.

(** ** Approvals do not expire in the worker *)

Module BrokerFacts.

Import Background.

Lemma Same_refl (id : string) (st : State) : Same id st st.
Proof. split; reflexivity. Qed.

Lemma Same_trans (id : string) (st1 st2 st3 : State) :
  Same id st1 st2 -> Same id st2 st3 -> Same id st1 st3.
Proof. intros [H1 H2] [H3 H4]. split; congruence. Qed.

Section Broker.

Variable decryptSession : Js.value -> Js.value -> Completion Js.value.
Variable atob : string -> Completion string.
Variable btoa : string -> string.
Variable naclFromSeed : Bytes.bytes -> Completion (Bytes.bytes * Bytes.bytes).
Variable naclSign : Bytes.bytes -> Bytes.bytes -> Completion Bytes.bytes.

Lemma getWalletFromStorage_same (id : string) (stored : StorageRead) (st : State) :
  Same id st (getWalletFromStorage decryptSession stored st).2.
Proof.
  destruct (ConnectFacts.getWalletFromStorage_frame decryptSession stored st)
    as (_ & Ha & Hp & _).
  split; [rewrite Ha|rewrite Hp]; reflexivity.
Qed.

Lemma requestApproval_same (id origin type : string) (params : Js.object)
  (wallet : option Js.object) (approvalId : string) (now : Z) (st : State) :
  approvalId ≠ id -> Same id st (requestApproval origin type params wallet approvalId now st).
Proof.
  intros Hne. split; simpl; apply lookup_insert_ne; exact Hne.
Qed.

Lemma handleConnect_same (id origin : string) (title favicon : Js.value)
  (approvalId : string) (now : Z) (stored : StorageRead) (st : State) :
  approvalId ≠ id ->
  Same id st (handleConnect decryptSession origin title favicon approvalId now stored st).2.
Proof.
  intros Hne. unfold handleConnect.
  destruct (Js.truthy _); [apply Same_refl|].
  pose proof (getWalletFromStorage_same id stored st) as Hw.
  destruct (getWalletFromStorage decryptSession stored st) as [w st1].
  apply (Same_trans id st st1); [exact Hw|]. apply requestApproval_same, Hne.
Qed.

Lemma handleConnectResume_same (id origin : string) (title favicon : Js.value)
  (outcome : Settlement) (now : Z) (stored : StorageRead) (st : State)
  (response : Js.object) (st' : State) :
  handleConnectResume decryptSession origin title favicon outcome now stored st
  = Some (response, st') ->
  Same id st st'.
Proof.
  unfold handleConnectResume. destruct outcome as [|v|e]; [discriminate| |].
  - pose proof (getWalletFromStorage_same id stored st) as Hw.
    destruct (getWalletFromStorage decryptSession stored st) as [[w|] st1].
    + destruct (Js.truthy (keyOf w)); intros E; injection E as _ <-; exact Hw.
    + intros E. injection E as _ <-. exact Hw.
  - intros E. injection E as _ <-. apply Same_refl.
Qed.

Lemma handleSignMessage_same (id origin : string) (params : Js.object)
  (approvalId : string) (now : Z) (stored : StorageRead) (st : State) :
  approvalId ≠ id ->
  Same id st (handleSignMessage decryptSession origin params approvalId now stored st).2.
Proof.
  intros Hne. unfold handleSignMessage.
  destruct (negb _); [apply Same_refl|].
  pose proof (getWalletFromStorage_same id stored st) as Hw.
  destruct (getWalletFromStorage decryptSession stored st) as [[w|] st1]; [|exact Hw].
  destruct (negb _); [exact Hw|].
  apply (Same_trans id st st1); [exact Hw|]. apply requestApproval_same, Hne.
Qed.

Lemma handleTransaction_same (id type locked origin : string) (params : Js.object)
  (approvalId : string) (lookup : NonceLookup) (nowFill now : Z)
  (stored : StorageRead) (st : State) :
  approvalId ≠ id ->
  Same id st (handleTransaction decryptSession type locked origin params approvalId
                lookup nowFill now stored st).2.
Proof.
  intros Hne. unfold handleTransaction.
  destruct (negb _); [apply Same_refl|].
  pose proof (getWalletFromStorage_same id stored st) as Hw.
  destruct (getWalletFromStorage decryptSession stored st) as [[w|] st1]; [|exact Hw].
  destruct (negb _); [exact Hw|].
  destruct (fillNonce params lookup nowFill); [|exact Hw].
  apply (Same_trans id st st1); [exact Hw|]. apply requestApproval_same, Hne.
Qed.

Lemma handleSyncSession_same (id : string) (data : Js.object) (stored : StorageRead)
  (st : State) :
  Same id st (handleSyncSession data stored st).
Proof.
  unfold handleSyncSession.
  destruct (Js.truthy (Js.get data "sessionKey")); [destruct stored|];
    try (destruct (Js.truthy (Js.get data "session"))); split; reflexivity.
Qed.

Lemma signingWalletOf_same (id : string) (approval : Approval) (stored : StorageRead)
  (st : State) :
  Same id st (signingWalletOf decryptSession approval stored st).2.
Proof.
  unfold signingWalletOf. destruct (Js.truthy _); [apply Same_refl|].
  pose proof (getWalletFromStorage_same id stored st) as Hw.
  destruct (getWalletFromStorage decryptSession stored st) as [[w|] st1]; [|exact Hw].
  destruct (Js.truthy (keyOf w)); exact Hw.
Qed.

Lemma handleResolveApproval_same (id : string) (data : Js.object) (stored : StorageRead)
  (nowNonce nowStamp : Z) (rpc : Broadcast) (st : State) :
  Js.isStr (Js.get data "id") id = false ->
  Same id st (handleResolveApproval decryptSession atob btoa naclFromSeed naclSign
                data stored nowNonce nowStamp rpc st).2.
Proof.
  intros Hid. unfold handleResolveApproval.
  set (st1 := if Js.truthy (Js.get data "sessionKey") then _ else st).
  assert (H1 : Same id st st1).
  { subst st1. destruct (Js.truthy _); split; reflexivity. }
  destruct (Js.get data "id") as [| | | |i| |]; try exact H1.
  simpl in Hid. apply String.eqb_neq in Hid.
  destruct (dappApprovals st1 !! i) as [approval|] eqn:Ha; simpl; [|exact H1].
  set (st2 := withApprovals st1 (delete i (dappApprovals st1)) (promises st1)).
  assert (H2 : Same id st st2).
  { apply (Same_trans id st st1); [exact H1|]. split; simpl; [|reflexivity].
    apply lookup_delete_ne. exact Hid. }
  destruct (Js.isStr (Js.get data "decision") "approved").
  - pose proof (signingWalletOf_same id approval stored st2) as H3.
    destruct (signingWalletOf decryptSession approval stored st2) as [w st3].
    simpl. apply (Same_trans id st st3).
    + apply (Same_trans id st st2); assumption.
    + split; simpl; [reflexivity|]. apply PromiseFacts.settle_other. congruence.
  - simpl. apply (Same_trans id st st2); [exact H2|].
    split; simpl; [reflexivity|]. apply PromiseFacts.settle_other. congruence.
Qed.

(** An event that neither decides the approval [id], nor reuses its id,
    nor resets the worker leaves the approval and its promise as they are. *)
Lemma step_same (id : string) (ev : Event) (st : State) :
  touches id ev = false ->
  Same id st (step decryptSession atob btoa naclFromSeed naclSign st ev).
Proof.
  destruct ev; simpl; intros Ht; try (apply String.eqb_neq in Ht).
  - apply handleConnect_same, Ht.
  - destruct (handleConnectResume _ _ _ _ _ _ _ _) as [[r st']|] eqn:E; [|apply Same_refl].
    apply (handleConnectResume_same _ _ _ _ _ _ _ _ _ _ E).
  - split; reflexivity.
  - apply handleSignMessage_same, Ht.
  - apply handleTransaction_same, Ht.
  - apply handleTransaction_same, Ht.
  - apply handleSyncSession_same.
  - apply handleResolveApproval_same, Ht.
  - apply getWalletFromStorage_same.
  - discriminate.
Qed.

(** However long it waits, an approval that is not decided stays in
    [dappApprovals], and its promise stays pending: nothing in the worker
    makes it expire. *)
Lemma approval_waits (id : string) (a : Approval) (evs : list Event) (st : State) :
  forallb (fun ev => negb (touches id ev)) evs = true ->
  dappApprovals st !! id = Some a ->
  promises st !! id = Some Pending ->
  let st' := foldl (step decryptSession atob btoa naclFromSeed naclSign) st evs in
  dappApprovals st' !! id = Some a /\ promises st' !! id = Some Pending.
Proof.
  revert st. induction evs as [|ev evs IH]; intros st Hev Ha Hp; simpl; [auto|].
  simpl in Hev. apply andb_prop in Hev. destruct Hev as [H1 H2].
  apply negb_true_iff in H1.
  destruct (step_same id ev st H1) as [Sa Sp].
  apply IH; [exact H2|congruence|congruence].
Qed.

End Broker.

End BrokerFacts.

(** ** The timeout of the in-page provider: [sendRequest] *)

Module InpageFacts.

Import Inpage.

#[local] Set Warnings "-clear-no-such-hyp".

Lemma onTimeout_other (id j : Z) (st : State) :
  id ≠ j ->
  (id ∈ pendingRequests (onTimeout j st) <-> id ∈ pendingRequests st)
  /\ promises (onTimeout j st) !! id = promises st !! id.
Proof.
  intros Hne. unfold onTimeout.
  destruct (bool_decide (j ∈ pendingRequests st)); simpl; [|tauto].
  split; [set_solver|]. apply PromiseFacts.settle_other, Hne.
Qed.

Lemma onTimeout_frame (j : Z) (st : State) :
  requestId (onTimeout j st) = requestId st /\ timers (onTimeout j st) = timers st.
Proof. unfold onTimeout. destruct (bool_decide (j ∈ pendingRequests st)); auto. Qed.

Lemma onTimeout_waiting (id : Z) (st : State) :
  id ∈ pendingRequests st -> promises st !! id = Some Pending ->
  TimedOut id (onTimeout id st).
Proof.
  intros Hin Hp. unfold onTimeout, TimedOut. rewrite bool_decide_eq_true_2 by exact Hin.
  simpl. split; [set_solver|]. apply PromiseFacts.settle_pending, Hp.
Qed.

Lemma onTimeout_timedOut (id j : Z) (st : State) :
  TimedOut id st -> TimedOut id (onTimeout j st).
Proof.
  intros [Hn Hp]. destruct (decide (id = j)) as [<-|Hne].
  - unfold onTimeout. rewrite bool_decide_eq_false_2 by exact Hn. split; assumption.
  - destruct (onTimeout_other id j st Hne) as [H1 H2].
    split; [rewrite H1; exact Hn|rewrite H2; exact Hp].
Qed.

(** Running a list of timer callbacks. *)
Lemma fire_timedOut (id : Z) (due : list (Z * Z)) (st : State) :
  TimedOut id st -> TimedOut id (foldl (fun s t => onTimeout t.2 s) st due).
Proof.
  revert st. induction due as [|t due IH]; intros st H; simpl; [exact H|].
  apply IH, onTimeout_timedOut, H.
Qed.

Lemma fire_waiting (id : Z) (due : list (Z * Z)) (st : State) :
  id ∈ pendingRequests st -> promises st !! id = Some Pending ->
  let st' := foldl (fun s t => onTimeout t.2 s) st due in
  (id ∈ due.*2 -> TimedOut id st')
  /\ (id ∉ due.*2 -> id ∈ pendingRequests st' /\ promises st' !! id = Some Pending).
Proof.
  revert st. induction due as [|[d j] due IH]; intros st Hin Hp; simpl.
  - split; [intros H; apply elem_of_nil in H; contradiction|auto].
  - destruct (decide (id = j)) as [<-|Hne].
    + split.
      * intros _. apply fire_timedOut, onTimeout_waiting; assumption.
      * intros Hn. exfalso. apply Hn. apply elem_of_cons. left. reflexivity.
    + destruct (onTimeout_other id j st Hne) as [H1 H2].
      destruct (IH (onTimeout j st)) as [IH1 IH2].
      { apply H1, Hin. }
      { rewrite H2. exact Hp. }
      split.
      * intros H. apply IH1. apply elem_of_cons in H. destruct H as [H|H]; [contradiction|exact H].
      * intros H. apply IH2. intros H'. apply H. apply elem_of_cons. right. exact H'.
Qed.

Lemma fire_frame (due : list (Z * Z)) (st : State) :
  requestId (foldl (fun s t => onTimeout t.2 s) st due) = requestId st.
Proof.
  revert st. induction due as [|t due IH]; intros st; simpl; [reflexivity|].
  rewrite IH. apply onTimeout_frame.
Qed.

Lemma runTimers_tracked (id sent now : Z) (st : State) :
  Tracked id sent st ->
  Tracked id sent (runTimers now st)
  /\ (sent + TIMEOUT <= now -> TimedOut id (runTimers now st)).
Proof.
  intros [Hle [(Hin & Hp & Ht)|Hto]]; unfold runTimers, Tracked; simpl;
    rewrite fire_frame.
  - destruct (fire_waiting id (filter (fun t => t.1 <= now) (timers st)) st Hin Hp)
      as [F1 F2].
    destruct (decide (sent + TIMEOUT <= now)) as [Hdue|Hnot].
    + assert (Hfired : id ∈ (filter (fun t => t.1 <= now) (timers st)).*2).
      { apply list_elem_of_fmap. exists (sent + TIMEOUT, id). split; [reflexivity|].
        apply list_elem_of_filter. split; [exact Hdue|exact Ht]. }
      specialize (F1 Hfired). split; [split; [exact Hle|right; exact F1]|].
      intros _. exact F1.
    + split; [|intros H; contradiction].
      split; [exact Hle|].
      destruct (decide (id ∈ (filter (fun t => t.1 <= now) (timers st)).*2)) as [Hf|Hf].
      * right. apply F1, Hf.
      * left. destruct (F2 Hf) as [G1 G2]. split; [exact G1|]. split; [exact G2|].
        apply list_elem_of_filter. split; [exact Hnot|exact Ht].
  - pose proof (fire_timedOut id (filter (fun t => t.1 <= now) (timers st)) st Hto) as F.
    split; [split; [exact Hle|right; exact F]|]. intros _. exact F.
Qed.

Lemma sendRequest_tracked (id sent : Z) (method : string) (params : Js.value)
  (now : Z) (st : State) :
  Tracked id sent st -> Tracked id sent (sendRequest method params now st).2.
Proof.
  intros [Hle H]. unfold sendRequest, Tracked; simpl. split; [lia|].
  assert (Hne : requestId st + 1 ≠ id) by lia.
  destruct H as [(Hin & Hp & Ht)|[Hn Hp]].
  - left. split; [set_solver|]. split.
    + simpl. rewrite lookup_insert_ne by exact Hne. exact Hp.
    + simpl. apply elem_of_app. left. exact Ht.
  - right. split; simpl.
    + set_solver.
    + rewrite lookup_insert_ne by exact Hne. exact Hp.
Qed.

Lemma onMessage_tracked (id sent : Z) (fromWindow : bool) (data : Js.object) (st : State) :
  answers id (Receive fromWindow data) = false ->
  Tracked id sent st -> Tracked id sent (onMessage fromWindow data st).
Proof.
  unfold answers, onMessage. intros Ha Htr.
  destruct fromWindow; simpl; [|exact Htr].
  destruct (Js.isStr (Js.get data "type") "OCTRA_RESPONSE"); simpl in *; [|exact Htr].
  destruct (Js.get data "id") as [| | |x| | |]; try exact Htr.
  destruct (Num.toZ x) as [j|]; [|exact Htr].
  apply bool_decide_eq_false in Ha.
  assert (Hne : id ≠ j) by congruence.
  destruct (bool_decide (j ∈ pendingRequests st)); [|exact Htr].
  destruct Htr as [Hle Hcase]. split; [exact Hle|]. simpl.
  destruct Hcase as [(Hin & Hp & Ht)|[Hn Hp]].
  - left. split; [set_solver|]. split; [|exact Ht].
    simpl. rewrite PromiseFacts.settle_other by exact Hne. exact Hp.
  - right. split; simpl; [set_solver|].
    rewrite PromiseFacts.settle_other by exact Hne. exact Hp.
Qed.

(** No event but a response for [id] takes the request out of the two
    situations. *)
Lemma step_tracked (id sent : Z) (ev : Event) (st : State) :
  answers id ev = false -> Tracked id sent st -> Tracked id sent (step st ev).
Proof.
  destruct ev as [m p n|f d|n]; simpl; intros Ha Htr.
  - apply sendRequest_tracked, Htr.
  - apply onMessage_tracked; assumption.
  - apply runTimers_tracked, Htr.
Qed.

Lemma steps_tracked (id sent : Z) (evs : list Event) (st : State) :
  forallb (fun ev => negb (answers id ev)) evs = true ->
  Tracked id sent st -> Tracked id sent (foldl step st evs).
Proof.
  revert st. induction evs as [|ev evs IH]; intros st Hev Htr; simpl; [exact Htr|].
  simpl in Hev. apply andb_prop in Hev. destruct Hev as [H1 H2].
  apply IH; [exact H2|]. apply step_tracked; [|exact Htr].
  apply negb_true_iff, H1.
Qed.

Lemma sendRequest_waiting (method : string) (params : Js.value) (now : Z) (st : State) :
  let r := sendRequest method params now st in
  r.1 = requestId st + 1 /\ Tracked r.1 now r.2.
Proof.
  unfold sendRequest, Tracked, Waiting; simpl. split; [reflexivity|].
  split; [lia|]. left. split; [set_solver|]. split.
  - apply lookup_insert_eq.
  - apply elem_of_app. right. apply list_elem_of_singleton. reflexivity.
Qed.

End InpageFacts.

(** C9, as the code has it. A request that has received no matching
    response 300 seconds after it was sent is taken out of the correlation
    table when the event loop runs its timer, and its promise is rejected
    with the structured error [{code: 4100, message: 'Request timeout'}],
    whatever other requests, responses and timers came in between. *)
Theorem sendRequest_timeout (method : string) (params : Js.value) (sent : Z)
  (st : Inpage.State) (evs : list Inpage.Event) (now : Z) :
  let r := Inpage.sendRequest method params sent st in
  forallb (fun ev => negb (Inpage.answers r.1 ev)) evs = true ->
  sent + 300000 <= now ->
  let final := Inpage.runTimers now (foldl Inpage.step r.2 evs) in
  (r.1 ∉ Inpage.pendingRequests final)
  /\ Inpage.promises final !! r.1
     = Some (Rejected (Js.VObject [("code", Js.VNumber (Num.ofZ 4100));
                                   ("message", Js.VString "Request timeout")])).
Proof.
  intros r Hev Hnow final.
  destruct (InpageFacts.sendRequest_waiting method params sent st) as [_ Htr].
  fold r in Htr.
  pose proof (InpageFacts.steps_tracked r.1 sent evs r.2 Hev Htr) as Htr'.
  destruct (InpageFacts.runTimers_tracked r.1 sent now _ Htr') as [_ Hto].
  apply Hto. exact Hnow.
Qed.

(** A request left without response while another one is sent and answered. *)
Lemma sendRequest_timeout_witness :
  let r := Inpage.sendRequest "connect" Js.VUndefined 1000 Inpage.initial in
  let evs := [Inpage.Send "getBalance" Js.VUndefined 2000;
              Inpage.Receive true [("type", Js.VString "OCTRA_RESPONSE");
                                   ("id", Js.VNumber (Num.ofZ 2));
                                   ("result", Js.VString "0")];
              Inpage.Tick 5000] in
  let final := Inpage.runTimers 301000 (foldl Inpage.step r.2 evs) in
  (r.1 ∉ Inpage.pendingRequests final)
  /\ Inpage.promises final !! r.1
     = Some (Rejected (Js.VObject [("code", Js.VNumber (Num.ofZ 4100));
                                   ("message", Js.VString "Request timeout")])).
Proof.
  apply (sendRequest_timeout "connect" Js.VUndefined 1000 Inpage.initial
           [Inpage.Send "getBalance" Js.VUndefined 2000;
            Inpage.Receive true [("type", Js.VString "OCTRA_RESPONSE");
                                 ("id", Js.VNumber (Num.ofZ 2));
                                 ("result", Js.VString "0")];
            Inpage.Tick 5000] 301000).
  - vm_compute. reflexivity.
  - lia.
Defined.

(** C9 as the specification states it fails: the error of the timeout has
    the code 4100, not 4900. *)
Lemma sendRequest_timeout_code :
  let r := Inpage.sendRequest "connect" Js.VUndefined 0 Inpage.initial in
  let final := Inpage.runTimers 300000 r.2 in
  exists error,
    Inpage.promises final !! r.1 = Some (Rejected error)
    /\ Js.get (Js.asObject error) "code" = Js.VNumber (Num.ofZ 4100)
    /\ Js.strictEq (Js.get (Js.asObject error) "code") (Js.VNumber (Num.ofZ 4900)) = false.
Proof.
  exists Inpage.timeoutError. split; [|split]; vm_compute; reflexivity.
Qed.

(** ** Transactions: what is signed *)

Module TransactionFacts.

Import Background.

Lemma literal_six (a b c d e f : Js.value) :
  Js.literal [("from", a); ("to_", b); ("amount", c); ("nonce", d); ("ou", e); ("timestamp", f)]
  = [("from", a); ("to_", b); ("amount", c); ("nonce", d); ("ou", e); ("timestamp", f)].
Proof. reflexivity. Qed.

Lemma signPayloadOf_six (tx : Js.object) :
  signPayloadOf tx = Js.stringifyObject (six tx).
Proof. unfold signPayloadOf. rewrite literal_six. reflexivity. Qed.

(** The transaction that is built has the six fields, in this order, and
    no other. *)
Lemma transactionOf_fields (params wallet : Js.object) (nowNonce nowStamp : Z) :
  let tx := transactionOf params wallet nowNonce nowStamp in
  tx = six tx
  /\ Js.get tx "from" = Js.get wallet "address"
  /\ Js.get tx "to_" = Js.get (txParamsOf params) "to"
  /\ Js.get tx "nonce"
     = Js.VNumber (Js.toNumber (Js.or (Js.get (txParamsOf params) "nonce")
                                      (Js.VNumber (Num.ofZ nowNonce))))
  /\ Js.get tx "timestamp" = Js.VNumber (Num.div (Num.ofZ nowStamp) (Num.ofZ 1000))
  /\ Js.isDefined (Js.get tx "amount") = true
  /\ Js.get tx "ou"
     = (if Js.truthy (Js.get (txParamsOf params) "fee")
        then Js.VString (Num.toString
                           (Num.floor (Num.mul (Js.toNumber (Js.get (txParamsOf params) "fee"))
                                               micro)))
        else Js.VString "2000").
Proof.
  intros tx. subst tx. unfold transactionOf. cbv zeta. rewrite literal_six.
  unfold six. cbn [Js.get String.eqb Ascii.eqb Bool.eqb].
  repeat split.
  destruct (Js.truthy (Js.get (txParamsOf params) "amountRaw")) eqn:E; [|reflexivity].
  destruct (Js.get (txParamsOf params) "amountRaw"); try reflexivity. discriminate.
Qed.

(** [tx.message = txParams.message] leaves the six fields as they are. *)
Lemma six_with_message (tx : Js.object) (m : Js.value) :
  six (Js.set tx "message" m) = six tx.
Proof. unfold six. rewrite !JsFacts.get_set_ne by discriminate. reflexivity. Qed.

Lemma six_signed (tx : Js.object) (sig pk : Js.value) :
  six (Js.assignAll tx [("signature", sig); ("public_key", pk)]) = six tx
  /\ Js.get (Js.assignAll tx [("signature", sig); ("public_key", pk)]) "message"
     = Js.get tx "message".
Proof.
  unfold six, Js.assignAll. cbn [foldl fst snd].
  rewrite !JsFacts.get_set_ne by discriminate. split; reflexivity.
Qed.

Section Signing.

Variable atob : string -> Completion string.
Variable btoa : string -> string.
Variable naclFromSeed : Bytes.bytes -> Completion (Bytes.bytes * Bytes.bytes).
Variable naclSign : Bytes.bytes -> Bytes.bytes -> Completion Bytes.bytes.

Lemma six_withMessage (params tx : Js.object) : six (withMessage params tx) = six tx.
Proof.
  unfold withMessage. destruct (Js.truthy _); [apply six_with_message|reflexivity].
Qed.

Lemma message_withMessage (params wallet : Js.object) (nowNonce nowStamp : Z) :
  Js.get (withMessage params (transactionOf params wallet nowNonce nowStamp)) "message"
  = if Js.truthy (Js.get (txParamsOf params) "message")
    then Js.get (txParamsOf params) "message" else Js.VUndefined.
Proof.
  unfold withMessage. destruct (Js.truthy _).
  - apply JsFacts.get_set_eq.
  - destruct (transactionOf_fields params wallet nowNonce nowStamp) as [-> _]. reflexivity.
Qed.

(** Every call of the signature primitive made by [signTransactionOnly]
    signs the JSON text of the six fields. *)
Lemma signTransactionOnly_calls (params wallet : Js.object) (nowNonce nowStamp : Z)
  (call : SignCall) :
  call ∈ (signTransactionOnly atob btoa naclFromSeed naclSign params wallet
            nowNonce nowStamp).1 ->
  let tx := transactionOf params wallet nowNonce nowStamp in
  message call = Bytes.utf8 (Js.stringifyObject (six tx))
  /\ Js.truthy (Js.get tx "from") = true
  /\ Js.truthy (Js.get tx "to_") = true.
Proof.
  unfold signTransactionOnly. cbv zeta.
  rewrite signPayloadOf_six.
  pose proof (six_withMessage params (transactionOf params wallet nowNonce nowStamp)) as Hsix.
  assert (Hf : Js.get (withMessage params (transactionOf params wallet nowNonce nowStamp)) "from"
               = Js.get (transactionOf params wallet nowNonce nowStamp) "from").
  { injection Hsix. auto. }
  assert (Ht : Js.get (withMessage params (transactionOf params wallet nowNonce nowStamp)) "to_"
               = Js.get (transactionOf params wallet nowNonce nowStamp) "to_").
  { injection Hsix. auto. }
  rewrite Hsix, Hf, Ht.
  destruct (Js.truthy (Js.get (transactionOf params wallet nowNonce nowStamp) "from"));
    [|intros H; apply elem_of_nil in H; contradiction].
  destruct (Js.truthy (Js.get (transactionOf params wallet nowNonce nowStamp) "to_"));
    [|intros H; apply elem_of_nil in H; contradiction].
  cbn [negb orb].
  destruct (Num.isNaN _); [intros H; apply elem_of_nil in H; contradiction|].
  destruct (atob _) as [binaryKey|e]; [|intros H; apply elem_of_nil in H; contradiction].
  destruct (naclFromSeed _) as [keyPair|e]; [|intros H; apply elem_of_nil in H; contradiction].
  destruct (naclSign _ _) as [sig|e]; cbn [fst]; intros H;
    apply list_elem_of_singleton in H; subst call; cbn [message]; auto.
Qed.

(** The transaction returned is the one built, with [message] when there
    is one, the signature and the public key. *)
Lemma signTransactionOnly_result (params wallet : Js.object) (nowNonce nowStamp : Z)
  (signed : Js.object) :
  (signTransactionOnly atob btoa naclFromSeed naclSign params wallet
     nowNonce nowStamp).2 = Normal signed ->
  let tx := transactionOf params wallet nowNonce nowStamp in
  six signed = six tx
  /\ Js.get signed "message"
     = (if Js.truthy (Js.get (txParamsOf params) "message")
        then Js.get (txParamsOf params) "message" else Js.VUndefined)
  /\ Js.get signed "public_key" = Js.get wallet "publicKeyB64"
  /\ exists call,
       (signTransactionOnly atob btoa naclFromSeed naclSign params wallet
          nowNonce nowStamp).1 = [call].
Proof.
  unfold signTransactionOnly. cbv zeta.
  destruct (negb _ || negb _); [discriminate|].
  destruct (Num.isNaN _); [discriminate|].
  destruct (atob _) as [binaryKey|e]; [|discriminate].
  destruct (naclFromSeed _) as [keyPair|e]; [|discriminate].
  destruct (naclSign _ _) as [sig|e]; [|discriminate].
  cbn [fst snd]. intros Hs. cbv zeta.
  assert (signed = Js.assignAll
                     (withMessage params (transactionOf params wallet nowNonce nowStamp))
                     [("signature", Js.VString (btoa (Bytes.toBinaryString sig)));
                      ("public_key", Js.get wallet "publicKeyB64")]) as -> by congruence.
  clear Hs.
  destruct (six_signed (withMessage params (transactionOf params wallet nowNonce nowStamp))
              (Js.VString (btoa (Bytes.toBinaryString sig))) (Js.get wallet "publicKeyB64"))
    as [H1 H2].
  split; [rewrite H1; apply six_withMessage|].
  split; [rewrite H2; apply message_withMessage|].
  split; [apply JsFacts.get_set_eq|].
  eexists. reflexivity.
Qed.

(** Broadcasting signs nothing more. *)
Lemma signAndBroadcastTransaction_calls (params wallet : Js.object)
  (nowNonce nowStamp : Z) (rpc : Broadcast) :
  (signAndBroadcastTransaction atob btoa naclFromSeed naclSign params wallet
     nowNonce nowStamp rpc).1
  = (signTransactionOnly atob btoa naclFromSeed naclSign params wallet
       nowNonce nowStamp).1.
Proof.
  unfold signAndBroadcastTransaction.
  destruct (signTransactionOnly _ _ _ _ _ _ _ _) as [calls [signed|e]]; [|reflexivity].
  destruct rpc as [e|reply]; [reflexivity|]. destruct (ok reply); reflexivity.
Qed.

Lemma signAndBroadcastTransaction_result (params wallet : Js.object)
  (nowNonce nowStamp : Z) (rpc : Broadcast) (result : Js.object) :
  (signAndBroadcastTransaction atob btoa naclFromSeed naclSign params wallet
     nowNonce nowStamp rpc).2 = Normal result ->
  exists signed,
    (signTransactionOnly atob btoa naclFromSeed naclSign params wallet
       nowNonce nowStamp).2 = Normal signed
    /\ Js.get result "signedTransaction" = Js.VObject signed.
Proof.
  unfold signAndBroadcastTransaction.
  destruct (signTransactionOnly _ _ _ _ _ _ _ _) as [calls [signed|e]]; [|discriminate].
  destruct rpc as [e|reply]; [discriminate|]. destruct (ok reply); [|discriminate].
  cbn [snd]. intros H. injection H as <-. exists signed. split; reflexivity.
Qed.

End Signing.

End TransactionFacts.

Example signTransactionOnly_ex :
  let params := [("to", Js.VString "octB"); ("amount", Js.VString "1.5");
                 ("nonce", Js.VNumber (Num.ofZ 8)); ("message", Js.VString "hi")] in
  let run := Background.signTransactionOnly Sample.atob Sample.btoa Sample.naclFromSeed Sample.naclSign
               params Sample.wallet 1700000000000 1700000000123 in
  Bytes.toBinaryString <$> (Background.message <$> run.1)
  = [Str.text "{'from':'oct4F85ZySpwyY6FuWU9A1YBofNFzVYdwkwjTK5MJbh9qZf','to_':'octB','amount':'1500000','nonce':8,'ou':'2000','timestamp':1700000000.123}"]
  /\ (fun signed => Js.get signed "message") <$> run.2 = Normal (Js.VString "hi").
Proof. split; vm_compute; reflexivity. Qed.

(** C6. On both paths, [signTransaction] and [sendTransaction], the bytes
    given to the signature primitive are the UTF-8 encoding of the compact
    JSON text of the six fields [from], [to_], [amount], [nonce], [ou],
    [timestamp], in this order, each of them present; they are the fields of
    the transaction returned, whose [message], when there is one, is not part
    of what is signed. *)
Theorem signed_bytes_six_fields
  (atob : string -> Completion string) (btoa : string -> string)
  (naclFromSeed : Bytes.bytes -> Completion (Bytes.bytes * Bytes.bytes))
  (naclSign : Bytes.bytes -> Bytes.bytes -> Completion Bytes.bytes)
  (params wallet : Js.object) (nowNonce nowStamp : Z) (rpc : Background.Broadcast) :
  let sign := Background.signTransactionOnly atob btoa naclFromSeed naclSign
                params wallet nowNonce nowStamp in
  let send := Background.signAndBroadcastTransaction atob btoa naclFromSeed naclSign
                params wallet nowNonce nowStamp rpc in
  let tx := Background.transactionOf params wallet nowNonce nowStamp in
  let fields := [("from", Js.get tx "from"); ("to_", Js.get tx "to_");
                 ("amount", Js.get tx "amount"); ("nonce", Js.get tx "nonce");
                 ("ou", Js.get tx "ou"); ("timestamp", Js.get tx "timestamp")] in
  send.1 = sign.1
  /\ (forall call, call ∈ sign.1 ->
        Background.message call = Bytes.utf8 (Js.stringifyObject fields)
        /\ Forall (fun kv => Js.isDefined kv.2 = true) fields)
  /\ (forall signed, sign.2 = Normal signed ->
        (exists call, sign.1 = [call])
        /\ Background.six signed = fields
        /\ Js.get signed "message"
           = (if Js.truthy (Js.get (Background.txParamsOf params) "message")
              then Js.get (Background.txParamsOf params) "message" else Js.VUndefined))
  /\ (forall result, send.2 = Normal result ->
        exists signed, sign.2 = Normal signed
                       /\ Js.get result "signedTransaction" = Js.VObject signed).
Proof.
  intros sign send tx fields. subst sign send fields tx.
  split; [apply TransactionFacts.signAndBroadcastTransaction_calls|].
  split; [|split].
  - intros call Hcall.
    destruct (TransactionFacts.signTransactionOnly_calls _ _ _ _ _ _ _ _ _ Hcall)
      as (Hm & Hfrom & Hto).
    split; [exact Hm|].
    destruct (TransactionFacts.transactionOf_fields params wallet nowNonce nowStamp)
      as (_ & _ & _ & Hn & Hts & Ham & Hou).
    repeat (apply Forall_cons; split); [..|constructor]; cbn [snd].
    + apply JsFacts.truthy_defined, Hfrom.
    + apply JsFacts.truthy_defined, Hto.
    + exact Ham.
    + rewrite Hn. reflexivity.
    + rewrite Hou.
      destruct (Js.truthy (Js.get (Background.txParamsOf params) "fee")); reflexivity.
    + rewrite Hts. reflexivity.
  - intros signed Hs.
    destruct (TransactionFacts.signTransactionOnly_result _ _ _ _ _ _ _ _ _ Hs)
      as (H6 & Hmsg & _ & Hc).
    split; [exact Hc|]. split; [exact H6|exact Hmsg].
  - intros result Hr.
    apply (TransactionFacts.signAndBroadcastTransaction_result _ _ _ _ _ _ _ _ _ _ Hr).
Qed.

(** A transfer of 1.5 with a message, signed on the sample platform. *)
Lemma signed_bytes_six_fields_witness :
  let params := [("to", Js.VString "octB"); ("amount", Js.VString "1.5");
                 ("nonce", Js.VNumber (Num.ofZ 8)); ("message", Js.VString "hi")] in
  let sign := Background.signTransactionOnly Sample.atob Sample.btoa Sample.naclFromSeed Sample.naclSign
                params Sample.wallet 1700000000000 1700000000123 in
  exists call signed,
    sign.1 = [call] /\ sign.2 = Normal signed
    /\ Bytes.toBinaryString (Background.message call)
       = Str.text "{'from':'oct4F85ZySpwyY6FuWU9A1YBofNFzVYdwkwjTK5MJbh9qZf','to_':'octB','amount':'1500000','nonce':8,'ou':'2000','timestamp':1700000000.123}"
    /\ Js.get signed "message" = Js.VString "hi".
Proof.
  intros params sign.
  destruct (signed_bytes_six_fields Sample.atob Sample.btoa Sample.naclFromSeed Sample.naclSign
              params Sample.wallet 1700000000000 1700000000123 (Background.FetchFails "offline"))
    as (_ & Hcalls & Hres & _).
  destruct sign as [calls [signed|e]] eqn:E.
  - destruct (Hres signed) as ((call & Hc) & _ & Hmsg).
    { unfold sign in E. rewrite E. reflexivity. }
    exists call, signed. unfold sign in E. rewrite E in Hc. cbn [fst snd] in *.
    split; [exact Hc|]. split; [reflexivity|].
    destruct (Hcalls call) as [Hbytes _].
    { rewrite E. cbn [fst]. rewrite Hc. apply list_elem_of_singleton. reflexivity. }
    split; [rewrite Hbytes; vm_compute; reflexivity|].
    rewrite Hmsg. vm_compute. reflexivity.
  - exfalso. vm_compute in E. discriminate.
Defined.

(** ** A nonce of zero *)

Module NonceFacts.

Import Background.

Lemma get_present (o : Js.object) (k : string) :
  Js.get o k <> Js.VUndefined -> k ∈ Js.keys o.
Proof.
  intros H. destruct (decide (k ∈ Js.keys o)) as [Hin|Hout]; [exact Hin|].
  exfalso. apply H. apply JsFacts.get_absent, Hout.
Qed.

(** [ensureNonce] leaves a nonce that is a number as it is. *)
Lemma ensureNonce_number (txParams : Js.object) (lookup : NonceLookup) (now : Z)
  (x : Num.number) :
  Js.get txParams "nonce" = Js.VNumber x -> ensureNonce txParams lookup now = txParams.
Proof. unfold ensureNonce. intros ->. reflexivity. Qed.

(** So do the two transaction handlers. *)
Lemma fillNonce_number (params : Js.object) (lookup : NonceLookup) (now : Z)
  (x : Num.number) :
  Js.get (txParamsOf params) "nonce" = Js.VNumber x ->
  fillNonce params lookup now = Normal params.
Proof.
  unfold txParamsOf, fillNonce, Js.or.
  destruct (Js.truthy (Js.get params "transaction")) eqn:Ht.
  - destruct (Js.get params "transaction") as [| |b|y|t|items|txParams] eqn:E;
      simpl; intros Hn; try (discriminate Ht); try (discriminate Hn).
    rewrite (ensureNonce_number _ _ _ _ Hn). rewrite <- E.
    rewrite JsFacts.set_same; [reflexivity|].
    apply get_present. rewrite E. discriminate.
  - simpl. intros Hn. rewrite (ensureNonce_number _ _ _ _ Hn). reflexivity.
Qed.

(** A nonce of zero is replaced by the time of signing. *)
Lemma transactionOf_nonce_zero (params wallet : Js.object) (nowNonce nowStamp : Z)
  (s : bool) :
  Js.get (txParamsOf params) "nonce" = Js.VNumber (S754_zero s) ->
  Js.get (transactionOf params wallet nowNonce nowStamp) "nonce"
  = Js.VNumber (Num.ofZ nowNonce).
Proof.
  intros Hn.
  destruct (TransactionFacts.transactionOf_fields params wallet nowNonce nowStamp)
    as (_ & _ & _ & H & _).
  rewrite H, Hn. reflexivity.
Qed.

End NonceFacts.

(** C10. When the caller supplies the nonce 0, the nonce auto-fill of
    [signTransaction] and [sendTransaction] leaves the parameters as they are,
    and [signTransactionOnly] replaces the nonce by the time of signing: the
    nonce of the signed transaction, on both paths, is [Date.now()] and not
    0. *)
Theorem nonce_zero_replaced
  (atob : string -> Completion string) (btoa : string -> string)
  (naclFromSeed : Bytes.bytes -> Completion (Bytes.bytes * Bytes.bytes))
  (naclSign : Bytes.bytes -> Bytes.bytes -> Completion Bytes.bytes)
  (params wallet : Js.object) (lookup : Background.NonceLookup)
  (nowFill nowNonce nowStamp : Z) (rpc : Background.Broadcast) (s : bool) :
  Js.get (Background.txParamsOf params) "nonce" = Js.VNumber (S754_zero s) ->
  0 < nowNonce < 2 ^ 53 ->
  Background.fillNonce params lookup nowFill = Normal params
  /\ (forall signed,
        (Background.signTransactionOnly atob btoa naclFromSeed naclSign params wallet
           nowNonce nowStamp).2 = Normal signed ->
        Js.get signed "nonce" = Js.VNumber (Num.ofZ nowNonce))
  /\ (forall result,
        (Background.signAndBroadcastTransaction atob btoa naclFromSeed naclSign params
           wallet nowNonce nowStamp rpc).2 = Normal result ->
        Js.get (Js.asObject (Js.get result "signedTransaction")) "nonce"
        = Js.VNumber (Num.ofZ nowNonce))
  /\ Js.strictEq (Js.VNumber (Num.ofZ nowNonce)) (Js.VNumber (S754_zero s)) = false.
Proof.
  intros Hn Hnow.
  assert (Hsigned : forall signed,
            (Background.signTransactionOnly atob btoa naclFromSeed naclSign params wallet
               nowNonce nowStamp).2 = Normal signed ->
            Js.get signed "nonce" = Js.VNumber (Num.ofZ nowNonce)).
  { intros signed Hs.
    destruct (TransactionFacts.signTransactionOnly_result _ _ _ _ _ _ _ _ _ Hs) as (H6 & _).
    rewrite <- (NonceFacts.transactionOf_nonce_zero params wallet nowNonce nowStamp s Hn).
    unfold Background.six in H6. congruence. }
  split; [exact (NonceFacts.fillNonce_number params lookup nowFill _ Hn)|].
  split; [exact Hsigned|]. split.
  - intros result Hr.
    destruct (TransactionFacts.signAndBroadcastTransaction_result _ _ _ _ _ _ _ _ _ _ Hr)
      as (signed & Hs & ->).
    apply Hsigned, Hs.
  - apply NumFacts.ofZ_nonzero, Hnow.
Qed.

(** A transfer with the nonce 0, signed on the sample platform. *)
Lemma nonce_zero_replaced_witness :
  let params := [("to", Js.VString "octB"); ("amount", Js.VString "1.5");
                 ("nonce", Js.VNumber (Num.ofZ 0))] in
  exists signed,
    (Background.signTransactionOnly Sample.atob Sample.btoa Sample.naclFromSeed Sample.naclSign
       params Sample.wallet 1700000000000 1700000000123).2 = Normal signed
    /\ Js.get signed "nonce" = Js.VNumber (Num.ofZ 1700000000000)
    /\ Background.fillNonce params (Background.LookupOk (Js.VNumber (Num.ofZ 7))) 1699999999000
       = Normal params.
Proof.
  intros params.
  assert (Hn : Js.get (Background.txParamsOf params) "nonce" = Js.VNumber (S754_zero false))
    by reflexivity.
  assert (Hnow : 0 < 1700000000000 < 2 ^ 53) by lia.
  destruct (nonce_zero_replaced Sample.atob Sample.btoa Sample.naclFromSeed Sample.naclSign
              params Sample.wallet (Background.LookupOk (Js.VNumber (Num.ofZ 7)))
              1699999999000 1700000000000 1700000000123 (Background.FetchFails "offline")
              false Hn Hnow) as (Hfill & Hsigned & _).
  destruct (Background.signTransactionOnly Sample.atob Sample.btoa Sample.naclFromSeed Sample.naclSign
              params Sample.wallet 1700000000000 1700000000123).2 as [signed|e] eqn:E.
  - exists signed. split; [reflexivity|]. split; [apply Hsigned; reflexivity|exact Hfill].
  - exfalso. vm_compute in E. discriminate.
Defined.

(** ** The [ou] tag and the amount *)

Module OuFacts.

(** [createTransactionPayload] chooses [ou] by the amount in whole
    tokens: ['1'] below 1000, ['3'] from 1000 on. *)
Lemma createTransactionPayload_ou (options : Js.object) (now : Z)
  (payload : Js.object) (message : Js.value) :
  Osm1.createTransactionPayload options now = Some (payload, message) ->
  exists amountNum,
    (if Js.isString (Js.get options "amount")
     then Osm1.microToOct (Js.get options "amount") = Some amountNum
     else amountNum = Js.toNumber (Js.get options "amount"))
    /\ Js.get payload "ou"
       = Js.VString (if Num.ltb amountNum (Num.ofZ 1000) then "1" else "3").
Proof.
  unfold Osm1.createTransactionPayload.
  destruct (Js.isString (Js.get options "amount")) eqn:Hs.
  - simpl. destruct (Osm1.microToOct (Js.get options "amount")) as [x|] eqn:Hx;
      simpl; [|discriminate].
    intros H. injection H as <- _. exists x. split; reflexivity.
  - destruct (Osm1.octToMicro (Js.get options "amount")) as [m|]; simpl; [|discriminate].
    intros H. injection H as <- _. eexists. split; reflexivity.
Qed.

End OuFacts.

(** C8, as the code has it. [createTransactionPayload] selects [ou] by an
    amount threshold: ['1'] when the amount, in whole tokens, is below 1000
    and ['3'] otherwise. The payload that [signTransactionOnly] signs does
    not: its [ou] is the fee of the caller in micro-units when a fee is
    given, and the constant ['2000'] otherwise, whatever the amount. *)
Theorem ou_selection
  (options : Js.object) (now : Z) (params wallet : Js.object) (nowNonce nowStamp : Z) :
  (forall payload message,
     Osm1.createTransactionPayload options now = Some (payload, message) ->
     exists amountNum,
       (if Js.isString (Js.get options "amount")
        then Osm1.microToOct (Js.get options "amount") = Some amountNum
        else amountNum = Js.toNumber (Js.get options "amount"))
       /\ Js.get payload "ou"
          = Js.VString (if Num.ltb amountNum (Num.ofZ 1000) then "1" else "3"))
  /\ Js.get (Background.transactionOf params wallet nowNonce nowStamp) "ou"
     = (let fee := Js.get (Background.txParamsOf params) "fee" in
        if Js.truthy fee
        then Js.VString (Num.toString
                           (Num.floor (Num.mul (Js.toNumber fee) (Num.ofZ 1000000))))
        else Js.VString "2000").
Proof.
  split.
  - intros payload message. apply OuFacts.createTransactionPayload_ou.
  - apply (TransactionFacts.transactionOf_fields params wallet nowNonce nowStamp).
Qed.

(** An amount of 2000 tokens, in micro-units, is tagged 3. *)
Lemma ou_selection_witness :
  let options := [("from", Js.VString "octA"); ("to", Js.VString "octB");
                  ("amount", Js.VString "2000000000"); ("nonce", Js.VNumber (Num.ofZ 8))] in
  exists payload message,
    Osm1.createTransactionPayload options 1700000000123 = Some (payload, message)
    /\ Js.get payload "ou" = Js.VString "3".
Proof.
  intros options.
  destruct (Osm1.createTransactionPayload options 1700000000123) as [[payload message]|] eqn:E.
  - exists payload, message. split; [reflexivity|].
    destruct (ou_selection options 1700000000123 [] [] 0 0) as [H _].
    destruct (H payload message E) as (amountNum & Ha & ->).
    simpl in Ha. injection Ha as <-. vm_compute. reflexivity.
  - exfalso. vm_compute in E. discriminate.
Defined.

(** C8 as the specification states it fails: in the transactions that
    [signTransactionOnly] signs, two requests for the same amount have
    different [ou] tags, and an amount of 1 and one of 5000 have the same. *)
Lemma ou_not_by_amount :
  let tx fields := Background.transactionOf (("to", Js.VString "octB") :: fields)
                     Sample.wallet 1700000000000 1700000000123 in
  let small := tx [("amount", Js.VString "1")] in
  let large := tx [("amount", Js.VString "5000")] in
  let paid := tx [("amount", Js.VString "1"); ("fee", Js.VNumber (Num.ofDecimal false 5 (-1)))] in
  Js.get small "amount" = Js.VString "1000000"
  /\ Js.get large "amount" = Js.VString "5000000000"
  /\ Js.get paid "amount" = Js.VString "1000000"
  /\ Js.get small "ou" = Js.VString "2000"
  /\ Js.get large "ou" = Js.VString "2000"
  /\ Js.get paid "ou" = Js.VString "500000".
Proof. repeat split; vm_compute; reflexivity. Qed.

(** ** Amounts in micro-units *)

(** C7, on the code. [octToMicro] and [microToOct] give the values of the
    specification, and [octToMicro] is exact on the amount 8.2; the
    conversion on the signing path, [Math.floor(parseFloat(amount) * 1000000)],
    is not: it gives 8199999 for the same amount. *)
Theorem amount_conversion :
  Osm1.octToMicro (Js.VString "1.5") = Some "1500000"
  /\ Osm1.octToMicro (Js.VString "0.000001") = Some "1"
  /\ Osm1.microToOct (Js.VString "1500000") = Some (Num.parseFloat "1.5")
  /\ Osm1.octToMicro (Js.VString "8.2") = Some "8200000"
  /\ Js.get (Background.transactionOf
               [("to", Js.VString "octB"); ("amount", Js.VString "8.2")]
               Sample.wallet 1700000000000 1700000000123) "amount"
     = Js.VString "8199999"
  /\ Num.toString (Num.mul (Num.parseFloat "8.2") (Num.ofZ 1000000)) = "8199999.999999999".
Proof. repeat split; vm_compute; reflexivity. Qed.

(** ** Canonical serialization: [serializePayload] *)

Module CanonicalFacts.

Import Js.

Lemma keys_elem (o : object) (k : string) :
  k ∈ keys o <-> exists v, (k, v) ∈ o.
Proof.
  unfold keys. rewrite list_elem_of_fmap. split.
  - intros ([k' v] & -> & H). exists v. exact H.
  - intros (v & H). exists (k, v). split; [reflexivity|exact H].
Qed.

(** With distinct keys, a property is read as it is listed. *)
Lemma get_listed (o : object) (k : string) (v : value) :
  NoDup (keys o) -> (k, v) ∈ o -> get o k = v.
Proof.
  induction o as [|[k' v'] o IH]; simpl; intros Hnd Hin.
  - apply elem_of_nil in Hin. contradiction.
  - apply NoDup_cons in Hnd. destruct Hnd as [Hk' Hnd].
    apply elem_of_cons in Hin. destruct Hin as [Heq|Hin].
    + injection Heq as -> ->. rewrite JsFacts.eqb_refl. reflexivity.
    + destruct (String.eqb k' k) eqn:E.
      * apply String.eqb_eq in E. subst k'. exfalso. apply Hk'.
        apply keys_elem. exists v. exact Hin.
      * apply IH; assumption.
Qed.

(** The order in which the properties were created does not matter to a
    read. *)
Lemma get_permutation (o o' : object) (k : string) :
  NoDup (keys o) -> o ≡ₚ o' -> get o' k = get o k.
Proof.
  intros Hnd Hp.
  assert (Hnd' : NoDup (keys o')).
  { unfold keys in *. rewrite <- Hp. exact Hnd. }
  destruct (decide (k ∈ keys o)) as [Hin|Hout].
  - apply keys_elem in Hin. destruct Hin as [v Hv].
    rewrite (get_listed o k v Hnd Hv). apply get_listed; [exact Hnd'|].
    rewrite <- Hp. exact Hv.
  - rewrite (JsFacts.get_absent o k Hout). apply JsFacts.get_absent.
    unfold keys in *. rewrite <- Hp. exact Hout.
Qed.

Lemma sortedKeys_permutation (o o' : object) :
  o ≡ₚ o' -> Osm1.sortedKeys o' = Osm1.sortedKeys o.
Proof.
  intros Hp. unfold Osm1.sortedKeys.
  apply (Sorted_unique String.le).
  - apply Sorted_merge_sort; apply _.
  - apply Sorted_merge_sort; apply _.
  - rewrite !merge_sort_Permutation. unfold keys. rewrite Hp. reflexivity.
Qed.

(** The serialization does not depend on the order in which the keys of
    the payload were created. *)
Lemma serializePayload_permutation (payload payload' : object) :
  NoDup (keys payload) -> payload ≡ₚ payload' ->
  Osm1.serializePayload payload' = Osm1.serializePayload payload.
Proof.
  intros Hnd Hp. unfold Osm1.serializePayload, Osm1.sortedPayload.
  rewrite (sortedKeys_permutation payload payload' Hp).
  f_equal. generalize (@nil (string * value)) as acc.
  induction (Osm1.sortedKeys payload) as [|key l IH]; intros acc; simpl; [reflexivity|].
  rewrite (get_permutation payload payload' key Hnd Hp). apply IH.
Qed.

(** Without array indices among the keys, the properties of
    [sortedPayload] are those of the payload whose value is not
    [undefined] and whose name is not [__proto__], in the order of the
    sorted keys. *)
Lemma set_fresh_name (o : object) (k : string) (v : value) :
  k ∉ keys o -> arrayIndex k = None -> set o k v = o ++ [(k, v)].
Proof.
  intros Hk Hi. unfold set. apply JsFacts.has_false in Hk. rewrite Hk, Hi. reflexivity.
Qed.

Lemma fill_names (payload acc : object) (l : list string) :
  NoDup l -> Forall (fun k => arrayIndex k = None) l ->
  (forall k, k ∈ l -> k ∉ keys acc) ->
  foldl (fun acc key =>
           if isDefined (get payload key) then assign acc key (get payload key) else acc)
        acc l
  = acc ++ ((fun k => (k, get payload k)) <$> filter (Osm1.kept payload) l).
Proof.
  revert acc. induction l as [|k l IH]; intros acc Hnd Hidx Hfresh; simpl.
  - rewrite app_nil_r. reflexivity.
  - apply NoDup_cons in Hnd. destruct Hnd as [Hk Hnd].
    apply Forall_cons in Hidx. destruct Hidx as [Hik Hidx].
    assert (Hrest : forall k', k' ∈ l -> k' ∉ keys acc).
    { intros k' Hk'. apply Hfresh. apply elem_of_cons. right. exact Hk'. }
    rewrite filter_cons. unfold assign.
    destruct (isDefined (get payload k)) eqn:Hd;
      [destruct (String.eqb k "__proto__") eqn:Hp|].
    + apply String.eqb_eq in Hp.
      rewrite decide_False by (intros [_ H]; contradiction).
      apply IH; assumption.
    + apply String.eqb_neq in Hp.
      rewrite decide_True by (split; assumption).
      rewrite set_fresh_name; [|apply Hfresh; apply elem_of_cons; left; reflexivity|exact Hik].
      rewrite IH; [|exact Hnd|exact Hidx|].
      * rewrite <- app_assoc. reflexivity.
      * intros k' Hk'. unfold keys. rewrite fmap_app. simpl.
        rewrite elem_of_app, list_elem_of_singleton. intros [H|H].
        -- apply (Hrest k'); assumption.
        -- subst k'. contradiction.
    + rewrite decide_False by (intros [H _]; rewrite Hd in H; discriminate).
      apply IH; assumption.
Qed.

Lemma sortedPayload_names (payload : object) :
  NoDup (keys payload) -> Forall (fun k => arrayIndex k = None) (keys payload) ->
  Osm1.sortedPayload payload
  = (fun k => (k, get payload k)) <$> filter (Osm1.kept payload) (Osm1.sortedKeys payload).
Proof.
  intros Hnd Hidx. unfold Osm1.sortedPayload.
  rewrite fill_names; [reflexivity| | |].
  - unfold Osm1.sortedKeys. rewrite merge_sort_Permutation. exact Hnd.
  - unfold Osm1.sortedKeys. rewrite merge_sort_Permutation. exact Hidx.
  - intros k _ H. apply elem_of_nil in H. contradiction.
Qed.

Lemma StronglySorted_filtered (P : string -> Prop) `{forall k, Decision (P k)}
  (l : list string) :
  StronglySorted String.le l -> StronglySorted String.le (filter P l).
Proof.
  induction 1 as [|k l Hs IH Hk]; [constructor|].
  rewrite filter_cons. destruct (decide (P k)); [|exact IH].
  constructor; [exact IH|].
  apply Forall_forall. intros k' Hk'. apply list_elem_of_filter in Hk'.
  rewrite Forall_forall in Hk. apply Hk, Hk'.
Qed.

Lemma keys_sortedPayload (payload : object) :
  NoDup (keys payload) -> Forall (fun k => arrayIndex k = None) (keys payload) ->
  keys (Osm1.sortedPayload payload) = filter (Osm1.kept payload) (Osm1.sortedKeys payload).
Proof.
  intros Hnd Hidx. rewrite (sortedPayload_names payload Hnd Hidx).
  unfold keys. rewrite <- list_fmap_compose.
  rewrite <- (list_fmap_id (filter _ _)) at 2. apply list_fmap_ext. intros; reflexivity.
Qed.

(** ... and these keys are in lexicographic order. *)
Lemma sortedPayload_sorted (payload : object) :
  NoDup (keys payload) -> Forall (fun k => arrayIndex k = None) (keys payload) ->
  Sorted String.le (keys (Osm1.sortedPayload payload))
  /\ (forall k, k ∈ keys (Osm1.sortedPayload payload)
                <-> k ∈ keys payload /\ get payload k <> VUndefined /\ k <> "__proto__").
Proof.
  intros Hnd Hidx. rewrite (keys_sortedPayload payload Hnd Hidx). split.
  - apply StronglySorted_Sorted. apply StronglySorted_filtered.
    apply Sorted_StronglySorted; [apply _|].
    apply Sorted_merge_sort; apply _.
  - intros k. rewrite list_elem_of_filter. unfold Osm1.sortedKeys, Osm1.kept.
    rewrite merge_sort_Permutation. split.
    + intros [[Hd Hp] Hk]. split; [exact Hk|]. split; [|exact Hp].
      intros E. rewrite E in Hd. discriminate.
    + intros (Hk & Hd & Hp). split; [|exact Hk]. split; [|exact Hp].
      destruct (get payload k); try reflexivity. contradiction.
Qed.

(** The signing message: the prefix, the length of the serialization in
    decimal, a line feed, the serialization. *)
Lemma createSigningMessage_layout (payload : object) :
  exists len,
    Osm1.createSigningMessage payload
    = Osm1.MESSAGE_PREFIX +:+ len +:+ Osm1.newline +:+ Osm1.serializePayload payload
    /\ Str.allDigits len = true
    /\ Str.valueOf len = Z.of_nat (String.length (Osm1.serializePayload payload))
    /\ Osm1.MESSAGE_PREFIX
       = String (ascii_of_nat 25) ("Octra Signed Message:" +:+ String (ascii_of_nat 10) EmptyString).
Proof.
  exists (Str.ofZ (Z.of_nat (String.length (Osm1.serializePayload payload)))).
  split; [reflexivity|].
  unfold Str.ofZ. destruct (Z.ltb_spec (Z.of_nat (String.length (Osm1.serializePayload payload))) 0)
    as [Hneg|Hpos]; [lia|].
  destruct (DecimalFacts.ofNat10_value _ Hpos) as [H1 H2].
  split; [exact H1|]. split; [exact H2|reflexivity].
Qed.

End CanonicalFacts.

Example createSigningMessage_ex :
  Osm1.createSigningMessage [("version", Js.VString "OSM-1"); ("message", Js.VString "hi")]
  = String (ascii_of_nat 25)
      ("Octra Signed Message:" +:+ String (ascii_of_nat 10)
         ("34" +:+ String (ascii_of_nat 10)
            (Str.text "{'message':'hi','version':'OSM-1'}"))).
Proof. vm_compute. reflexivity. Qed.

(** C5, on the code. A payload whose keys are the array indices 10 and 9
    is serialized with 9 before 10, although ["10"] comes before ["9"] in
    the lexicographic order and [sort] puts it first: an object enumerates
    its index keys in numeric order, whatever the order of their creation.
    Without index keys, the serialization is in lexicographic order. *)
Theorem serializePayload_index_keys :
  let payload := [("10", Js.VNumber (Num.ofZ 1)); ("9", Js.VNumber (Num.ofZ 2))] in
  Osm1.sortedKeys payload = ["10"; "9"]
  /\ Js.keys (Osm1.sortedPayload payload) = ["9"; "10"]
  /\ Osm1.serializePayload payload = Str.text "{'9':2,'10':1}"
  /\ Osm1.serializePayload [("b", Js.VNumber (Num.ofZ 1)); ("a", Js.VNumber (Num.ofZ 2));
                            ("c", Js.VUndefined)]
     = Str.text "{'a':2,'b':1}".
Proof. repeat split; vm_compute; reflexivity. Qed.

(** ** Signing a message and verifying it *)

Module VerifyFacts.

Lemma binaryString_bytes (b : Bytes.bytes) :
  Bytes.ofBinaryString (Bytes.toBinaryString b) = b.
Proof.
  unfold Bytes.ofBinaryString, Bytes.toBinaryString, Str.chars, Str.ofChars.
  rewrite String.list_ascii_of_string_of_list_ascii.
  rewrite <- list_fmap_compose. rewrite <- (list_fmap_id b) at 2.
  apply list_fmap_ext. intros i x _. apply byte_of_ascii_of_byte.
Qed.

(** The message that [signMessageWithKey] signs is the one that
    [verifyOSM1Signature] rebuilds. *)
Lemma signed_message (payload : Js.object) :
  Osm1.MESSAGE_PREFIX
  +:+ Str.ofZ (Z.of_nat (String.length (Js.stringifyObject (Osm1.sortedPayload payload))))
  +:+ Osm1.newline +:+ Js.stringifyObject (Osm1.sortedPayload payload)
  = Osm1.createSigningMessage payload.
Proof. reflexivity. Qed.

(** The small platform signs and verifies as a platform should. *)
Lemma sample_atob_btoa (s : string) : Sample.atob (Sample.btoa s) = Normal s.
Proof. reflexivity. Qed.

Lemma sample_fromSeed (seed pk sk : Bytes.bytes) :
  Sample.naclFromSeed seed = Normal (pk, sk) ->
  length seed = 32%nat /\ pk = seed /\ sk = seed ++ seed.
Proof.
  unfold Sample.naclFromSeed. destruct (length seed =? 32)%nat eqn:E; [|discriminate].
  intros H. injection H as <- <-. apply Nat.eqb_eq in E. auto.
Qed.

Lemma sample_sign (seed pk sk msg : Bytes.bytes) :
  Sample.naclFromSeed seed = Normal (pk, sk) ->
  Sample.naclSign msg sk = Normal (pk ++ msg).
Proof.
  intros H. apply sample_fromSeed in H. destruct H as (Hl & -> & ->).
  unfold Sample.naclSign. rewrite length_app, Hl. simpl.
  rewrite drop_app_length' by (symmetry; exact Hl). reflexivity.
Qed.

Lemma sample_verify_sign (seed pk sk msg sig : Bytes.bytes) :
  Sample.naclFromSeed seed = Normal (pk, sk) ->
  Sample.naclSign msg sk = Normal sig ->
  Sample.naclVerify msg sig pk = Normal true.
Proof.
  intros Hk Hs. rewrite (sample_sign seed pk sk msg Hk) in Hs. injection Hs as <-.
  apply sample_fromSeed in Hk. destruct Hk as (Hl & -> & _).
  unfold Sample.naclVerify. rewrite Hl. simpl.
  rewrite bool_decide_eq_true_2 by reflexivity. reflexivity.
Qed.

End VerifyFacts.

(** C4, as the code has it. For a payload whose [version] is ['OSM-1'] and
    which has no [expiresAt], signed by [signMessageWithKey] with the seed of
    a wallet whose public key and address (['oct'] followed by the base58
    text of the SHA-256 hash of the public key) go into the envelope,
    [verifyOSM1Signature] without options reports [valid] and the five checks
    true. Whenever the verification completes, [valid] is the conjunction of
    the five checks, and [addressMatch] says whether the address is ['oct']
    followed by the base58 text of the hash of the public key; when it is cut
    short by an error, [valid] is false. *)
Theorem verify_signed_message
  (atob : string -> Completion string) (btoa : string -> string)
  (naclFromSeed : Bytes.bytes -> Completion (Bytes.bytes * Bytes.bytes))
  (naclSign : Bytes.bytes -> Bytes.bytes -> Completion Bytes.bytes)
  (naclVerify : Bytes.bytes -> Bytes.bytes -> Bytes.bytes -> Completion bool)
  (sha256 : Bytes.bytes -> Bytes.bytes)
  (payload : Js.object) (seed pk sk : Bytes.bytes) (now : Z) :
  (forall s, atob (btoa s) = Normal s) ->
  (forall msg sig, naclSign msg sk = Normal sig -> naclVerify msg sig pk = Normal true) ->
  (forall msg, exists sig, naclSign msg sk = Normal sig) ->
  length seed = 32%nat ->
  naclFromSeed seed = Normal (pk, sk) ->
  Js.get payload "version" = Js.VString "OSM-1" ->
  Js.truthy (Js.get payload "expiresAt") = false ->
  (exists signature,
     (Background.signMessageWithKey atob btoa naclFromSeed naclSign (Js.VObject payload)
        (Js.VString (btoa (Bytes.toBinaryString seed)))).2 = Normal signature
     /\ Osm1.verifyOSM1Signature atob naclVerify sha256
          {| Osm1.payload := payload;
             Osm1.signature := signature;
             Osm1.publicKey := btoa (Bytes.toBinaryString pk);
             Osm1.address := Js.VString ("oct" +:+ Osm1.base58Encode (sha256 pk)) |}
          Osm1.noOptions now
        = Osm1.Checked true
            {| Osm1.signatureValid := true; Osm1.versionValid := true;
               Osm1.domainMatch := true; Osm1.notExpired := true;
               Osm1.addressMatch := true |})
  /\ (forall response options,
        match Osm1.verifyOSM1Signature atob naclVerify sha256 response options now with
        | Osm1.Checked valid checks =>
            valid = Osm1.signatureValid checks && Osm1.versionValid checks
                    && Osm1.domainMatch checks && Osm1.notExpired checks
                    && Osm1.addressMatch checks
            /\ exists key,
                 Osm1.base64ToUint8Array atob (Osm1.publicKey response) = Normal key
                 /\ Osm1.addressMatch checks
                    = Js.isStr (Osm1.address response)
                        ("oct" +:+ Osm1.base58Encode (sha256 key))
        | Osm1.Caught _ =>
            Osm1.valid
              (Osm1.verifyOSM1Signature atob naclVerify sha256 response options now)
            = false
        end).
Proof.
  intros Hb64 Hverify Hsign Hlen Hseed Hversion Hexp. split.
  - destruct (Hsign (Bytes.utf8 (Osm1.createSigningMessage payload))) as [sig Hsig].
    exists (btoa (Bytes.toBinaryString sig)). split.
    + unfold Background.signMessageWithKey. cbn [Js.toString].
      rewrite Hb64, VerifyFacts.binaryString_bytes, Hlen, Hseed.
      cbn [Nat.eqb fmap Completion_fmap snd Background.ownProperties].
      rewrite VerifyFacts.signed_message, Hsig. reflexivity.
    + unfold Osm1.verifyOSM1Signature, Osm1.base64ToUint8Array.
      cbn [Osm1.signature Osm1.publicKey Osm1.payload Osm1.address Osm1.noOptions
           Osm1.checkExpiry Osm1.expectedDomain].
      rewrite !Hb64. cbn [fmap Completion_fmap].
      rewrite !VerifyFacts.binaryString_bytes.
      rewrite (Hverify _ _ Hsig), Hversion, Hexp.
      unfold Osm1.expectedAddress. cbn [Js.isStr Js.truthy negb orb andb].
      rewrite !JsFacts.eqb_refl. reflexivity.
  - intros response options. unfold Osm1.verifyOSM1Signature.
    destruct (Osm1.base64ToUint8Array atob (Osm1.signature response)) as [sig|e];
      [|reflexivity].
    destruct (Osm1.base64ToUint8Array atob (Osm1.publicKey response)) as [key|e];
      [|reflexivity].
    destruct (naclVerify _ sig key) as [signatureValid|e]; [|reflexivity].
    split; [reflexivity|]. exists key. split; reflexivity.
Qed.

(** A message signed and verified on the sample platform. *)
Lemma verify_signed_message_witness :
  let payload := [("version", Js.VString "OSM-1"); ("message", Js.VString "hi");
                  ("domain", Js.VString "https://d.app")] in
  let seed := Bytes.ofBinaryString Sample.seed in
  exists signature,
    (Background.signMessageWithKey Sample.atob Sample.btoa Sample.naclFromSeed Sample.naclSign
       (Js.VObject payload) (Js.VString (Sample.btoa (Bytes.toBinaryString seed)))).2
    = Normal signature
    /\ Osm1.verifyOSM1Signature Sample.atob Sample.naclVerify Sample.sha256
         {| Osm1.payload := payload;
            Osm1.signature := signature;
            Osm1.publicKey := Sample.btoa (Bytes.toBinaryString seed);
            Osm1.address := Js.VString ("oct" +:+ Osm1.base58Encode (Sample.sha256 seed)) |}
         Osm1.noOptions 1700000000000
       = Osm1.Checked true
           {| Osm1.signatureValid := true; Osm1.versionValid := true;
              Osm1.domainMatch := true; Osm1.notExpired := true;
              Osm1.addressMatch := true |}.
Proof.
  intros payload seed.
  assert (Hseed : Sample.naclFromSeed seed = Normal (seed, seed ++ seed)) by reflexivity.
  apply (verify_signed_message Sample.atob Sample.btoa Sample.naclFromSeed Sample.naclSign
           Sample.naclVerify Sample.sha256 payload seed seed (seed ++ seed) 1700000000000).
  - exact VerifyFacts.sample_atob_btoa.
  - intros msg sig. exact (VerifyFacts.sample_verify_sign seed seed (seed ++ seed) msg sig Hseed).
  - intros msg. exists (seed ++ msg).
    exact (VerifyFacts.sample_sign seed seed (seed ++ seed) msg Hseed).
  - reflexivity.
  - exact Hseed.
  - reflexivity.
  - reflexivity.
Defined.

(** C4 as the specification states it fails: a payload without
    [expiresAt] whose [version] is not ['OSM-1'] is signed, and the envelope
    is reported as not valid: the signature and the address are right, the
    version is not. *)
Lemma verify_other_version :
  let payload := [("version", Js.VString "OSM-2"); ("message", Js.VString "hi")] in
  let seed := Bytes.ofBinaryString Sample.seed in
  Js.get payload "expiresAt" = Js.VUndefined
  /\ exists signature,
       (Background.signMessageWithKey Sample.atob Sample.btoa Sample.naclFromSeed Sample.naclSign
          (Js.VObject payload) (Js.VString (Sample.btoa (Bytes.toBinaryString seed)))).2
       = Normal signature
       /\ Osm1.verifyOSM1Signature Sample.atob Sample.naclVerify Sample.sha256
            {| Osm1.payload := payload;
               Osm1.signature := signature;
               Osm1.publicKey := Sample.btoa (Bytes.toBinaryString seed);
               Osm1.address := Js.VString ("oct" +:+ Osm1.base58Encode (Sample.sha256 seed)) |}
            Osm1.noOptions 1700000000000
          = Osm1.Checked false
              {| Osm1.signatureValid := true; Osm1.versionValid := false;
                 Osm1.domainMatch := true; Osm1.notExpired := true;
                 Osm1.addressMatch := true |}.
Proof.
  split; [reflexivity|].
  eexists. split; vm_compute; reflexivity.
Qed.

(** * Further properties of the code *)

#[local] Set Warnings "-clear-no-such-hyp".

(** ** Integers as numbers, continued *)

Module IntegerFacts.

(** A positive integer below [2^53] is kept exactly, with a mantissa of 53
    bits. *)
Lemma ofZ_shape (z : Z) :
  0 < z < 2 ^ 53 ->
  exists m e, Num.ofZ z = S754_finite false m e
              /\ e <= 0 /\ -52 <= e /\ Zpos m = z * 2 ^ (- e)
              /\ Zpos (digits2_pos m) = 53.
Proof.
  intros [Hpos Hlt]. destruct z as [|p|p]; try lia.
  pose proof (NumFacts.digits2_bound p 53 ltac:(lia) Hlt) as Hd.
  assert (Hd1 : 1 <= Zpos (digits2_pos p)) by lia.
  unfold Num.ofZ, binary_normalize, binary_round, shl_align.
  unfold fexp, emin, Num.prec, Num.emax.
  rewrite Z.add_0_r.
  replace (Z.max (Zpos (digits2_pos p) - 53) (3 - 1024 - 53))
    with (Zpos (digits2_pos p) - 53) by lia.
  rewrite Z.sub_0_r.
  destruct (Zpos (digits2_pos p) - 53) as [|k|k] eqn:Hk; try lia.
  - exists p, 0. split; [apply NumFacts.round_aux_exact; lia|].
    repeat split; try lia.
  - exists (Pos.iter xO p k), (Zneg k).
    split; [apply NumFacts.round_aux_exact; [rewrite NumFacts.digits2_iter_xO|]; lia|].
    split; [lia|]. split; [lia|]. split.
    + change (- Zneg k) with (Zpos k).
      rewrite <- (Z.shiftl_mul_pow2 (Zpos p) (Zpos k)) by lia.
      clear. induction k as [|k IH] using Pos.peano_ind.
      * reflexivity.
      * rewrite Pos.iter_succ. rewrite Pos2Z.inj_succ, <- Z.add_1_r.
        rewrite <- Z.shiftl_shiftl by lia. rewrite <- IH. reflexivity.
    + rewrite NumFacts.digits2_iter_xO. lia.
Qed.

(** Read back, it is the integer it was made from. *)
Lemma toZ_ofZ (z : Z) : 0 < z < 2 ^ 53 -> Num.toZ (Num.ofZ z) = Some z.
Proof.
  intros H. destruct (ofZ_shape z H) as (m & e & -> & He & _ & Hm & _).
  unfold Num.toZ. destruct (Z.leb_spec 0 e) as [H0|H0].
  - assert (e = 0) as -> by lia. f_equal. simpl in Hm. lia.
  - rewrite Hm. rewrite Z.shiftr_div_pow2 by lia.
    rewrite Z.div_mul by (apply Z.pow_nonzero; lia).
    rewrite Z.shiftl_mul_pow2 by lia. rewrite Z.eqb_refl. f_equal. lia.
Qed.

(** The order of two such integers is the order of the numbers. *)
Lemma ltb_ofZ (a b : Z) :
  0 < a < 2 ^ 53 -> 0 < b < 2 ^ 53 -> Num.ltb (Num.ofZ a) (Num.ofZ b) = (a <? b).
Proof.
  intros Ha Hb.
  destruct (ofZ_shape a Ha) as (ma & ea & -> & Hea & Hea' & Hma & Hda).
  destruct (ofZ_shape b Hb) as (mb & eb & -> & Heb & Heb' & Hmb & Hdb).
  assert (Hbits : forall m, Zpos (digits2_pos m) = 53 -> 2 ^ 52 <= Zpos m < 2 ^ 53).
  { intros m Hm. rewrite NumFacts.digits2_size in Hm.
    pose proof (Pos.size_gt m) as Hgt. pose proof (Pos.size_le m) as Hle.
    assert (Hs : Pos.size m = 53%positive) by lia. rewrite Hs in Hgt, Hle.
    split.
    - apply Pos2Z.pos_le_pos in Hle. change (Zpos (2 ^ 53)) with (2 * 2 ^ 52) in Hle.
      change (Zpos m~0) with (2 * Zpos m) in Hle. lia.
    - apply Pos2Z.pos_lt_pos in Hgt. exact Hgt. }
  pose proof (Hbits ma Hda) as Hra. pose proof (Hbits mb Hdb) as Hrb.
  assert (Hpa : 0 < 2 ^ (- ea)) by (apply Z.pow_pos_nonneg; lia).
  assert (Hpb : 0 < 2 ^ (- eb)) by (apply Z.pow_pos_nonneg; lia).
  unfold Num.ltb, SFltb, SFcompare.
  destruct (Z.compare_spec ea eb) as [Heq|Hlt|Hgt].
  - subst eb. rewrite Pos.compare_cont_spec. unfold Pos.switch_Eq.
    change (Pos.compare ma mb) with (Z.compare (Zpos ma) (Zpos mb)).
    destruct (Z.compare_spec (Zpos ma) (Zpos mb)) as [H|H|H];
      symmetry; [apply Z.ltb_ge|apply Z.ltb_lt|apply Z.ltb_ge]; nia.
  - symmetry. apply Z.ltb_lt.
    assert (Hpow : 2 ^ (- ea) = 2 ^ (- eb) * 2 ^ (eb - ea)).
    { rewrite <- Z.pow_add_r by lia. f_equal. lia. }
    assert (H2 : 2 <= 2 ^ (eb - ea)).
    { change 2 with (2 ^ 1) at 1. apply Z.pow_le_mono_r; lia. }
    nia.
  - symmetry. apply Z.ltb_ge.
    assert (Hpow : 2 ^ (- eb) = 2 ^ (- ea) * 2 ^ (ea - eb)).
    { rewrite <- Z.pow_add_r by lia. f_equal. lia. }
    assert (H2 : 2 <= 2 ^ (ea - eb)).
    { change 2 with (2 ^ 1) at 1. apply Z.pow_le_mono_r; lia. }
    nia.
Qed.

End IntegerFacts.

(** ** Hexadecimal and base58 text *)

Module TextFacts.

Lemma app_nil_l (s : string) : EmptyString +:+ s = s.
Proof. reflexivity. Qed.

Lemma app_cons (c : ascii) (r s : string) : String c r +:+ s = String c (r +:+ s).
Proof. reflexivity. Qed.

Lemma app_assoc (a b c : string) : (a +:+ b) +:+ c = a +:+ (b +:+ c).
Proof. induction a as [|x a IH]; [reflexivity|]. rewrite !app_cons, IH. reflexivity. Qed.

Lemma app_inv_head (a b c : string) : a +:+ b = a +:+ c -> b = c.
Proof.
  induction a as [|x a IH]; [exact id|]. rewrite !app_cons. intros [= H]. exact (IH H).
Qed.

Lemma join_cons (x : string) (l : list string) :
  Js.join EmptyString (x :: l) = x +:+ Js.join EmptyString l.
Proof.
  destruct l as [|y l]; [|reflexivity]. simpl. symmetry. apply AmountFacts.app_empty.
Qed.

Lemma padStart2_pair (b : Byte.byte) :
  Osm1.padStart2 (Osm1.toString16 b)
  = String (Reading.hexPair b).1 (String (Reading.hexPair b).2 EmptyString).
Proof. destruct b; reflexivity. Qed.

Lemma hexPair_value (b : Byte.byte) :
  Byte.of_N (16 * Reading.hexValue (Reading.hexPair b).1 + Reading.hexValue (Reading.hexPair b).2) = Some b.
Proof. destruct b; reflexivity. Qed.

Lemma hexPair_digits (b : Byte.byte) :
  let lower c := (Str.isDigit c || ((97 <=? Str.code c) && (Str.code c <=? 102)))%bool in
  lower (Reading.hexPair b).1 = true /\ lower (Reading.hexPair b).2 = true.
Proof. destruct b; split; reflexivity. Qed.

Lemma bufferToHex_cons (b : Byte.byte) (r : Bytes.bytes) :
  Osm1.bufferToHex (b :: r)
  = String (Reading.hexPair b).1 (String (Reading.hexPair b).2 (Osm1.bufferToHex r)).
Proof.
  unfold Osm1.bufferToHex. rewrite fmap_cons, join_cons, padStart2_pair. reflexivity.
Qed.

End TextFacts.

(** X1. [bufferToHex] writes every byte as two lowercase hexadecimal
    digits, so the text is twice as long as the buffer, and two buffers
    with the same text are the same buffer. *)
Theorem bufferToHex_two_digits (buffer : Bytes.bytes) :
  String.length (Osm1.bufferToHex buffer) = (2 * length buffer)%nat
  /\ Forall (fun c => (Str.isDigit c || ((97 <=? Str.code c) && (Str.code c <=? 102)))%bool = true)
            (Str.chars (Osm1.bufferToHex buffer))
  /\ (forall other, Osm1.bufferToHex other = Osm1.bufferToHex buffer -> other = buffer).
Proof.
  split; [|split].
  - induction buffer as [|b r IH]; [reflexivity|].
    rewrite TextFacts.bufferToHex_cons. simpl. rewrite IH. lia.
  - induction buffer as [|b r IH]; [constructor|].
    rewrite TextFacts.bufferToHex_cons.
    destruct (TextFacts.hexPair_digits b) as [H1 H2].
    change (Str.chars (String ?a (String ?b ?s))) with (a :: b :: Str.chars s).
    repeat (apply Forall_cons; split); assumption.
  - induction buffer as [|b r IH]; intros [|b' r'].
    + reflexivity.
    + rewrite TextFacts.bufferToHex_cons. discriminate.
    + rewrite TextFacts.bufferToHex_cons. discriminate.
    + rewrite !TextFacts.bufferToHex_cons. intros [= H1 H2 H3].
      pose proof (TextFacts.hexPair_value b) as Hb.
      pose proof (TextFacts.hexPair_value b') as Hb'.
      unfold Reading.hexPair in Hb, Hb'. cbn [fst snd] in Hb, Hb'.
      rewrite H1, H2 in Hb'. rewrite Hb in Hb'. injection Hb' as ->.
      f_equal. apply IH. exact H3.
Qed.

Module Base58Facts.

Import Reading.

#[local] Open Scope N_scope.

Lemma alphabetAt_index (i : N) : (i < 58)%N -> index58 (Osm1.alphabetAt i) = i.
Proof.
  intros H. assert (Hn : (N.to_nat i < 58)%nat) by lia.
  rewrite <- (N2Nat.id i). revert Hn. generalize (N.to_nat i). clear. intros n Hn.
  do 58 (destruct n as [|n]; [vm_compute; reflexivity|]). lia.
Qed.

Lemma alphabetAt_member (i : N) :
  (i < 58)%N -> Osm1.alphabetAt i ∈ Str.chars Osm1.BASE58_ALPHABET.
Proof.
  intros H. assert (Hn : (N.to_nat i < 58)%nat) by lia.
  rewrite <- (N2Nat.id i). revert Hn. generalize (N.to_nat i). clear. intros n Hn.
  do 58 (destruct n as [|n];
         [vm_compute; repeat (first [apply list_elem_of_here | apply list_elem_of_further])|]).
  lia.
Qed.

Lemma loop_app (fuel : nat) (num : N) (encoded : string) :
  Osm1.base58Loop fuel num encoded = Osm1.base58Loop fuel num EmptyString +:+ encoded.
Proof.
  revert num encoded. induction fuel as [|f IH]; intros num encoded; [reflexivity|].
  simpl. destruct (0 <? num)%N; [|reflexivity].
  rewrite (IH _ (String _ encoded)), (IH _ (String _ EmptyString)).
  rewrite TextFacts.app_assoc. reflexivity.
Qed.

Lemma digits58_zero : digits58 0%N = EmptyString.
Proof. reflexivity. Qed.

Lemma digits58_pos (num : N) :
  (0 < num)%N ->
  digits58 num
  = digits58 (num / 58) +:+ String (Osm1.alphabetAt (num mod 58)) EmptyString.
Proof.
  intros H. unfold digits58.
  destruct (N.size_nat num) as [|f] eqn:Hs.
  { destruct num; [lia|]. simpl in Hs. destruct p; discriminate. }
  simpl. apply N.ltb_lt in H as Hb. rewrite Hb.
  rewrite loop_app. f_equal.
  apply FuelFacts.base58Loop_fuel; [|lia].
  pose proof (FuelFacts.size_nat_div num 58%N H ltac:(lia)). lia.
Qed.

Lemma value58_app (acc : N) (a b : string) :
  value58 acc (a +:+ b) = value58 (value58 acc a) b.
Proof.
  revert acc. induction a as [|c a IH]; intros acc; [reflexivity|].
  rewrite TextFacts.app_cons. simpl. apply IH.
Qed.

Lemma value58_digits (num : N) : value58 0%N (digits58 num) = num.
Proof.
  induction num as [num IH] using (well_founded_induction N.lt_wf_0).
  destruct (N.eq_dec num 0%N) as [->|Hne]; [reflexivity|].
  rewrite digits58_pos by lia. rewrite value58_app. simpl.
  rewrite IH by (apply N.div_lt; lia).
  rewrite alphabetAt_index by (apply N.mod_lt; lia).
  rewrite (N.div_mod num 58%N) at 3 by lia. lia.
Qed.

Lemma startsWithOne_app (a b : string) :
  a <> EmptyString -> startsWithOne (a +:+ b) = startsWithOne a.
Proof. destruct a as [|c a]; [congruence|]. intros _. reflexivity. Qed.

Lemma digits58_nonempty (num : N) : (0 < num)%N -> digits58 num <> EmptyString.
Proof.
  intros H. rewrite digits58_pos by exact H.
  destruct (digits58 (num / 58)); discriminate.
Qed.

(** The first digit of a number is not the digit zero. *)
Lemma digits58_head (num : N) : startsWithOne (digits58 num) = false.
Proof.
  induction num as [num IH] using (well_founded_induction N.lt_wf_0).
  destruct (N.eq_dec num 0%N) as [->|Hne]; [reflexivity|].
  rewrite digits58_pos by lia.
  destruct (N.eq_dec (num / 58) 0%N) as [Hq|Hq].
  - rewrite Hq, digits58_zero. rewrite TextFacts.app_nil_l.
    assert (Hsmall : (num < 58)%N).
    { destruct (N.lt_ge_cases num 58%N) as [Hlt|Hge]; [exact Hlt|].
      pose proof (N.Div0.div_le_mono 58%N num 58%N Hge) as Hd.
      rewrite N.div_same in Hd by lia. lia. }
    rewrite N.mod_small by exact Hsmall.
    pose proof (alphabetAt_index num Hsmall) as Hi.
    unfold startsWithOne.
    destruct (Osm1.alphabetAt num) as [b0 b1 b2 b3 b4 b5 b6 b7] eqn:Ha.
    destruct (Ascii.eqb (Ascii b0 b1 b2 b3 b4 b5 b6 b7) "1") eqn:He.
    + apply Ascii.eqb_eq in He. rewrite He in Hi. vm_compute in Hi. exfalso. apply Hne. symmetry. exact Hi.
    + destruct b0, b1, b2, b3, b4, b5, b6, b7; try reflexivity. discriminate He.
  - rewrite startsWithOne_app by (apply digits58_nonempty, N.neq_0_lt_0; exact Hq).
    apply IH. apply N.div_lt; lia.
Qed.

Lemma bigOfBytes_acc (b : Bytes.bytes) (acc : N) :
  foldl (fun num x => (num * 256 + Byte.to_N x)%N) acc b
  = (acc * 256 ^ N.of_nat (length b) + Osm1.bigOfBytes b)%N.
Proof.
  unfold Osm1.bigOfBytes. revert acc. induction b as [|x r IH]; intros acc.
  - simpl. lia.
  - simpl foldl. rewrite IH, (IH (0 * 256 + Byte.to_N x)%N).
    cbn [length]. rewrite Nat2N.inj_succ, N.pow_succ_r'. lia.
Qed.

Lemma bigOfBytes_cons (x : Byte.byte) (r : Bytes.bytes) :
  Osm1.bigOfBytes (x :: r)
  = (Byte.to_N x * 256 ^ N.of_nat (length r) + Osm1.bigOfBytes r)%N.
Proof.
  unfold Osm1.bigOfBytes at 1. simpl foldl. rewrite bigOfBytes_acc. lia.
Qed.

Lemma bigOfBytes_snoc (l : Bytes.bytes) (x : Byte.byte) :
  Osm1.bigOfBytes (l ++ [x]) = (Osm1.bigOfBytes l * 256 + Byte.to_N x)%N.
Proof. unfold Osm1.bigOfBytes. rewrite foldl_app. reflexivity. Qed.

Lemma bigOfBytes_strip (b : Bytes.bytes) :
  Osm1.bigOfBytes (stripZeroBytes b) = Osm1.bigOfBytes b.
Proof.
  induction b as [|x r IH]; [reflexivity|].
  destruct x; try reflexivity. simpl stripZeroBytes. rewrite IH, bigOfBytes_cons. simpl. lia.
Qed.

Lemma strip_split (b : Bytes.bytes) :
  b = replicate (Osm1.leadingZeros b) Byte.x00 ++ stripZeroBytes b.
Proof.
  induction b as [|x r IH]; [reflexivity|].
  destruct x; try reflexivity. simpl. f_equal. exact IH.
Qed.

(** No leading zero byte. *)
Lemma strip_head (b : Bytes.bytes) : head (stripZeroBytes b) <> Some Byte.x00.
Proof.
  induction b as [|x r IH]; [discriminate|].
  destruct x; try discriminate. exact IH.
Qed.

Lemma bigOfBytes_pos (b : Bytes.bytes) :
  b <> [] -> head b <> Some Byte.x00 -> (0 < Osm1.bigOfBytes b)%N.
Proof.
  destruct b as [|x r]; [congruence|]. intros _ Hx. rewrite bigOfBytes_cons.
  assert (0 < Byte.to_N x)%N by (destruct x; simpl; try lia; exfalso; apply Hx; reflexivity).
  assert (0 < 256 ^ N.of_nat (length r))%N by (apply N.neq_0_lt_0, N.pow_nonzero; lia).
  nia.
Qed.

Lemma head_snoc (l : Bytes.bytes) (x : Byte.byte) :
  l <> [] -> head (l ++ [x]) = head l.
Proof. destruct l; [congruence|reflexivity]. Qed.

Lemma to_N_bound (x : Byte.byte) : (Byte.to_N x < 256)%N.
Proof. pose proof (Byte.to_N_bounded x). lia. Qed.

(** Two byte arrays without leading zero bytes that write the same number
    are the same. *)
Lemma bigOfBytes_injective (l l' : Bytes.bytes) :
  head l <> Some Byte.x00 -> head l' <> Some Byte.x00 ->
  Osm1.bigOfBytes l = Osm1.bigOfBytes l' -> l = l'.
Proof.
  revert l'. induction l as [|x l IH] using rev_ind; intros l' Hl Hl' Heq.
  - destruct l' as [|y r]; [reflexivity|].
    pose proof (bigOfBytes_pos (y :: r) ltac:(discriminate) Hl'). 
    change (Osm1.bigOfBytes []) with 0%N in Heq. lia.
  - destruct l' as [|y l' _] using rev_ind.
    + assert (Hne : l ++ [x] <> []) by (destruct l; discriminate).
      pose proof (bigOfBytes_pos (l ++ [x]) Hne Hl).
      change (Osm1.bigOfBytes []) with 0%N in Heq. lia.
    + rewrite !bigOfBytes_snoc in Heq.
      pose proof (to_N_bound x). pose proof (to_N_bound y).
      assert (Hxy : Byte.to_N x = Byte.to_N y) by lia.
      assert (Hn : Osm1.bigOfBytes l = Osm1.bigOfBytes l') by lia.
      assert (y = x) as ->.
      { pose proof (Byte.of_to_N x) as Hx. pose proof (Byte.of_to_N y) as Hy.
        rewrite Hxy in Hx. congruence. }
      f_equal.
      apply IH; [| |exact Hn].
      * destruct l as [|a l]; [discriminate|]. exact Hl.
      * destruct l' as [|a l']; [discriminate|]. exact Hl'.
Qed.

Lemma ones_succ (n : nat) : ones (S n) = String "1" (ones n).
Proof. reflexivity. Qed.

Lemma ones_inv (n n' : nat) (s s' : string) :
  startsWithOne s = false -> startsWithOne s' = false ->
  ones n +:+ s = ones n' +:+ s' -> n = n' /\ s = s'.
Proof.
  revert n'. induction n as [|n IH]; intros [|n'] Hs Hs'.
  - intros H. split; [reflexivity|exact H].
  - rewrite ones_succ, TextFacts.app_cons. change (ones 0 +:+ s) with s.
    intros ->. discriminate Hs.
  - rewrite ones_succ, TextFacts.app_cons. change (ones 0 +:+ s') with s'.
    intros <-. discriminate Hs'.
  - rewrite !ones_succ, !TextFacts.app_cons. intros [= H].
    destruct (IH n' Hs Hs' H) as [-> ->]. split; reflexivity.
Qed.

(** The text of [base58Encode]: a ['1'] for every leading zero byte, then
    the digits of the number. *)
Lemma base58Encode_text (b : Bytes.bytes) :
  Osm1.base58Encode b = ones (Osm1.leadingZeros b) +:+ digits58 (Osm1.bigOfBytes b).
Proof. destruct b; reflexivity. Qed.

End Base58Facts.

Module Base58Text.

Import Reading.

Lemma chars_app (a b : string) : Str.chars (a +:+ b) = Str.chars a ++ Str.chars b.
Proof.
  induction a as [|c a IH]; [reflexivity|].
  rewrite TextFacts.app_cons. unfold Str.chars in *. simpl. rewrite IH. reflexivity.
Qed.

Lemma digits58_alphabet (num : N) :
  Forall (fun c => c ∈ Str.chars Osm1.BASE58_ALPHABET) (Str.chars (digits58 num)).
Proof.
  induction num as [num IH] using (well_founded_induction N.lt_wf_0).
  destruct (N.eq_dec num 0%N) as [->|Hne]; [constructor|].
  rewrite Base58Facts.digits58_pos by lia. rewrite chars_app. apply Forall_app. split.
  - apply IH. apply N.div_lt; lia.
  - apply Forall_cons. split; [|constructor].
    apply Base58Facts.alphabetAt_member. apply N.mod_lt. lia.
Qed.

Lemma ones_alphabet (n : nat) :
  Forall (fun c => c ∈ Str.chars Osm1.BASE58_ALPHABET) (Str.chars (ones n)).
Proof.
  induction n as [|n IH]; [constructor|].
  rewrite Base58Facts.ones_succ. apply Forall_cons. split; [|exact IH].
  vm_compute. apply list_elem_of_here.
Qed.

Lemma leadingZeros_zeros (n : nat) (b : Bytes.bytes) :
  Osm1.leadingZeros (replicate n Byte.x00 ++ b) = (n + Osm1.leadingZeros b)%nat.
Proof. induction n as [|n IH]; [reflexivity|]. simpl. rewrite IH. reflexivity. Qed.

Lemma bigOfBytes_zeros (n : nat) (b : Bytes.bytes) :
  Osm1.bigOfBytes (replicate n Byte.x00 ++ b) = Osm1.bigOfBytes b.
Proof.
  induction n as [|n IH]; [reflexivity|].
  simpl replicate. rewrite <- app_comm_cons, Base58Facts.bigOfBytes_cons, IH. simpl. lia.
Qed.

Lemma ones_add (n m : nat) : ones (n + m) = ones n +:+ ones m.
Proof.
  induction n as [|n IH]; [reflexivity|].
  simpl Nat.add. rewrite !Base58Facts.ones_succ, TextFacts.app_cons, IH. reflexivity.
Qed.

End Base58Text.

(** X2. [base58Encode] writes one ['1'] for every leading zero byte: zero
    bytes put in front of a byte array put as many ['1'] in front of its
    text. Every character of the text is one of the 58 of the alphabet. *)
Theorem base58Encode_leading_zeros (n : nat) (b : Bytes.bytes) :
  Osm1.base58Encode (replicate n Byte.x00 ++ b)
  = Str.ofChars (replicate n "1"%char) +:+ Osm1.base58Encode b
  /\ Forall (fun c => c ∈ Str.chars Osm1.BASE58_ALPHABET) (Str.chars (Osm1.base58Encode b)).
Proof.
  split.
  - rewrite !Base58Facts.base58Encode_text.
    rewrite Base58Text.leadingZeros_zeros, Base58Text.bigOfBytes_zeros.
    rewrite Base58Text.ones_add, TextFacts.app_assoc. reflexivity.
  - rewrite Base58Facts.base58Encode_text, Base58Text.chars_app. apply Forall_app. split.
    + apply Base58Text.ones_alphabet.
    + apply Base58Text.digits58_alphabet.
Qed.

(** X3. [base58Encode] loses nothing: the number that the text writes in
    base 58 is the number that the bytes write in base 256, and two byte
    arrays with the same text are the same array. *)
Theorem base58Encode_injective (b : Bytes.bytes) :
  Reading.value58 0 (Osm1.base58Encode b) = Osm1.bigOfBytes b
  /\ (forall other, Osm1.base58Encode other = Osm1.base58Encode b -> other = b).
Proof.
  split.
  - rewrite Base58Facts.base58Encode_text, Base58Facts.value58_app.
    assert (Hones : forall n, Reading.value58 0 (Reading.ones n) = 0%N).
    { intros n. induction n as [|n IH]; [reflexivity|].
      rewrite Base58Facts.ones_succ. simpl. exact IH. }
    rewrite Hones. apply Base58Facts.value58_digits.
  - intros other. rewrite !Base58Facts.base58Encode_text. intros H.
    apply Base58Facts.ones_inv in H; try apply Base58Facts.digits58_head.
    destruct H as [Hz Hd].
    apply (f_equal (Reading.value58 0)) in Hd.
    rewrite !Base58Facts.value58_digits in Hd.
    rewrite (Base58Facts.strip_split other), (Base58Facts.strip_split b), Hz.
    f_equal. apply Base58Facts.bigOfBytes_injective; try apply Base58Facts.strip_head.
    rewrite !Base58Facts.bigOfBytes_strip. exact Hd.
Qed.

(** ** The canonical text of a payload *)

Module FramingFacts.

Lemma stringify_defined (v : Js.value) :
  Js.isDefined v = true -> exists s, Js.stringify v = Some s.
Proof. destruct v; try discriminate; intros _; eexists; reflexivity. Qed.

(** The JSON text of an object without [undefined] values. *)
Lemma stringifyObject_members (o : Js.object) (l : list string) :
  Forall (fun k => Js.isDefined (Js.get o k) = true) l ->
  Js.stringifyObject ((fun k => (k, Js.get o k)) <$> l)
  = "{" +:+ Js.join "," (Reading.member o <$> l) +:+ "}".
Proof.
  intros Hl. unfold Js.stringifyObject. cbn [Js.stringify default from_option id]. do 3 f_equal.
  induction Hl as [|k l Hk Hl IH]; [reflexivity|].
  rewrite !fmap_cons. destruct (stringify_defined _ Hk) as [s Hs].
  unfold Reading.member at 1. rewrite Hs, IH. reflexivity.
Qed.

Lemma spanDigits_stop (d : string) (c : ascii) (r : string) :
  Str.allDigits d = true -> Str.isDigit c = false ->
  Str.spanDigits (d +:+ String c r) = (d, String c r).
Proof.
  intros Hd Hc. induction d as [|x d IH].
  - rewrite TextFacts.app_nil_l. simpl. rewrite Hc. reflexivity.
  - simpl in Hd. apply andb_prop in Hd. destruct Hd as [Hx Hd].
    rewrite TextFacts.app_cons. simpl. rewrite Hx, (IH Hd). reflexivity.
Qed.

End FramingFacts.

(** X4. The text that [serializePayload] gives does not depend on the
    order in which the properties of the payload were created. *)
Theorem serializePayload_insertion_order (payload payload' : Js.object) :
  NoDup (Js.keys payload) -> payload ≡ₚ payload' ->
  Osm1.serializePayload payload' = Osm1.serializePayload payload.
Proof. apply CanonicalFacts.serializePayload_permutation. Qed.

(** The same payload with its properties created in two orders. *)
Lemma serializePayload_insertion_order_witness :
  Osm1.serializePayload [("version", Js.VString "OSM-1"); ("message", Js.VString "hi");
                         ("nonce", Js.VString "n-1")]
  = Osm1.serializePayload [("message", Js.VString "hi"); ("nonce", Js.VString "n-1");
                           ("version", Js.VString "OSM-1")].
Proof.
  apply (serializePayload_insertion_order
           [("message", Js.VString "hi"); ("nonce", Js.VString "n-1");
            ("version", Js.VString "OSM-1")]
           [("version", Js.VString "OSM-1"); ("message", Js.VString "hi");
            ("nonce", Js.VString "n-1")]).
  - apply (bool_decide_unpack (NoDup _)). vm_compute. exact I.
  - symmetry. exact (Permutation_cons_append _ _).
Defined.

(** X5. For a payload none of whose names is an array index,
    [serializePayload] gives the JSON object whose members are the
    properties with a value other than [undefined] (and a name other than
    [__proto__]), each once, in the order of their names compared code unit
    by code unit. *)
Theorem serializePayload_sorted_members (payload : Js.object) :
  NoDup (Js.keys payload) ->
  Forall (fun k => Js.arrayIndex k = None) (Js.keys payload) ->
  exists names,
    Osm1.serializePayload payload
    = "{" +:+ Js.join "," (Reading.member payload <$> names) +:+ "}"
    /\ Sorted String.le names
    /\ NoDup names
    /\ (forall k, k ∈ names
                  <-> k ∈ Js.keys payload /\ Js.get payload k <> Js.VUndefined
                      /\ k <> "__proto__").
Proof.
  intros Hnd Hidx.
  exists (filter (Osm1.kept payload) (Osm1.sortedKeys payload)).
  pose proof (CanonicalFacts.sortedPayload_sorted payload Hnd Hidx) as [Hsorted Hmem].
  rewrite (CanonicalFacts.keys_sortedPayload payload Hnd Hidx) in Hsorted, Hmem.
  split; [|split; [exact Hsorted|split; [|exact Hmem]]].
  - unfold Osm1.serializePayload.
    rewrite (CanonicalFacts.sortedPayload_names payload Hnd Hidx).
    apply FramingFacts.stringifyObject_members.
    apply Forall_forall. intros k Hk. apply list_elem_of_filter in Hk.
    destruct Hk as [[Hd _] _]. exact Hd.
  - apply NoDup_filter. unfold Osm1.sortedKeys.
    rewrite merge_sort_Permutation. exact Hnd.
Qed.

(** A payload with an [undefined] value, created out of order. *)
Lemma serializePayload_sorted_members_witness :
  let payload := [("version", Js.VString "OSM-1"); ("chainId", Js.VUndefined);
                  ("message", Js.VString "hi")] in
  exists names,
    Osm1.serializePayload payload
    = "{" +:+ Js.join "," (Reading.member payload <$> names) +:+ "}"
    /\ Sorted String.le names
    /\ NoDup names
    /\ (forall k, k ∈ names
                  <-> k ∈ Js.keys payload /\ Js.get payload k <> Js.VUndefined
                      /\ k <> "__proto__").
Proof.
  intros payload. apply (serializePayload_sorted_members payload).
  - apply (bool_decide_unpack (NoDup _)). vm_compute. exact I.
  - repeat (apply Forall_cons; split; [reflexivity|]). constructor.
Defined.

(** X6. The signing message is the prefix, the length of the canonical
    text in decimal, a newline and the canonical text; the canonical text
    can be read back from it, so that two payloads have the same signing
    message only when they have the same canonical text. *)
Theorem createSigningMessage_unambiguous (payload : Js.object) :
  (exists len,
     Osm1.createSigningMessage payload
     = Osm1.MESSAGE_PREFIX +:+ len +:+ Osm1.newline +:+ Osm1.serializePayload payload
     /\ Str.allDigits len = true
     /\ Str.valueOf len = Z.of_nat (String.length (Osm1.serializePayload payload)))
  /\ (forall other,
        Osm1.createSigningMessage other = Osm1.createSigningMessage payload ->
        Osm1.serializePayload other = Osm1.serializePayload payload).
Proof.
  split.
  - destruct (CanonicalFacts.createSigningMessage_layout payload) as (len & H1 & H2 & H3 & _).
    exists len. auto.
  - intros other.
    destruct (CanonicalFacts.createSigningMessage_layout payload) as (len & -> & Hd & _).
    destruct (CanonicalFacts.createSigningMessage_layout other) as (len' & -> & Hd' & _).
    intros H. apply TextFacts.app_inv_head in H.
    apply (f_equal Str.spanDigits) in H.
    change (Osm1.newline +:+ ?s) with (String (ascii_of_nat 10) s) in H.
    rewrite !FramingFacts.spanDigits_stop in H by (assumption || reflexivity).
    congruence.
Qed.

(** ** Amounts *)

Module MicroFacts.

Lemma stripLeadingZeros_head (s : string) (r : string) :
  Str.stripLeadingZeros s <> String "0" r.
Proof.
  induction s as [|c s IH]; [discriminate|].
  rewrite AmountFacts.stripLeadingZeros_cons.
  destruct (Ascii.eqb c "0") eqn:Hc; [exact IH|].
  intros [= -> _]. discriminate Hc.
Qed.

End MicroFacts.

(** X7. Whatever string it is given, [octToMicro] gives a text that is not
    empty and that has no leading zero, except for the text ['0'] itself. *)
Theorem octToMicro_canonical (str : string) :
  Osm1.octToMicroString str <> EmptyString
  /\ (forall rest, Osm1.octToMicroString str = String "0" rest -> rest = EmptyString).
Proof.
  unfold Osm1.octToMicroString.
  destruct (Str.stripLeadingZeros _) as [|c s] eqn:Hs.
  - split; [discriminate|]. intros rest [= <-]. reflexivity.
  - split; [discriminate|]. intros rest H. rewrite H in Hs.
    exfalso. exact (MicroFacts.stripLeadingZeros_head _ _ Hs).
Qed.

(** X8. On a decimal numeral, digits, a point and digits, [octToMicro]
    is exact: it gives digits only, and the integer they write is the
    integer part times a million plus the first six decimals, the missing
    ones being zero and the further ones dropped. With at most six
    decimals nothing is dropped. *)
Theorem octToMicro_exact (ip fp : string) :
  Str.allDigits ip = true -> Str.allDigits fp = true ->
  exists micro,
    Osm1.octToMicro (Js.VString (ip +:+ "." +:+ fp)) = Some micro
    /\ Str.allDigits micro = true
    /\ Str.valueOf micro
       = Str.valueOf ip * 10 ^ 6
         + Str.valueOf fp * 10 ^ 6 / 10 ^ Z.of_nat (String.length fp)
    /\ ((String.length fp <= 6)%nat ->
        Str.valueOf micro * 10 ^ Z.of_nat (String.length fp)
        = (Str.valueOf ip * 10 ^ Z.of_nat (String.length fp) + Str.valueOf fp) * 10 ^ 6).
Proof.
  intros Hi Hf. exists (Osm1.octToMicroString (ip +:+ "." +:+ fp)).
  destruct (AmountFacts.octToMicroString_exact ip fp Hi Hf) as [Hd Hv].
  split; [reflexivity|]. split; [exact Hd|]. split; [exact Hv|].
  intros Hlen. rewrite Hv.
  set (n := Z.of_nat (String.length fp)). assert (Hn : 0 <= n <= 6) by lia.
  assert (Hpow : 10 ^ 6 = 10 ^ (6 - n) * 10 ^ n).
  { rewrite <- Z.pow_add_r by lia. f_equal. lia. }
  assert (Hpos : 0 < 10 ^ n) by (apply Z.pow_pos_nonneg; lia).
  rewrite Hpow at 2. rewrite Z.mul_assoc, Z.div_mul by lia.
  rewrite Hpow. generalize (10 ^ (6 - n)) (10 ^ n) (Str.valueOf ip) (Str.valueOf fp).
  intros a b x y. ring.
Qed.

(** [octToMicro('12.3456789')] *)
Lemma octToMicro_exact_witness :
  exists micro,
    Osm1.octToMicro (Js.VString ("12" +:+ "." +:+ "3456789")) = Some micro
    /\ Str.allDigits micro = true
    /\ Str.valueOf micro = 12345678.
Proof.
  destruct (octToMicro_exact "12" "3456789" eq_refl eq_refl) as (micro & H1 & H2 & H3 & _).
  exists micro. split; [exact H1|]. split; [exact H2|]. rewrite H3. reflexivity.
Defined.

(** ** Signing a message and verifying it *)

Module EnvelopeFacts.

Section Platform.

Variable atob : string -> Completion string.
Variable btoa : string -> string.
Variable naclFromSeed : Bytes.bytes -> Completion (Bytes.bytes * Bytes.bytes).
Variable naclSign : Bytes.bytes -> Bytes.bytes -> Completion Bytes.bytes.
Variable naclVerify : Bytes.bytes -> Bytes.bytes -> Bytes.bytes -> Completion bool.
Variable sha256 : Bytes.bytes -> Bytes.bytes.
Variables seed pk sk : Bytes.bytes.

Hypothesis atob_btoa : forall s, atob (btoa s) = Normal s.
Hypothesis verify_sign :
  forall msg sig, naclSign msg sk = Normal sig -> naclVerify msg sig pk = Normal true.
Hypothesis sign_total : forall msg, exists sig, naclSign msg sk = Normal sig.
Hypothesis seed_length : length seed = 32%nat.
Hypothesis fromSeed : naclFromSeed seed = Normal (pk, sk).

Lemma signs (payload : Js.object) :
  exists sig,
    naclSign (Bytes.utf8 (Osm1.createSigningMessage payload)) sk = Normal sig
    /\ Background.signMessageWithKey atob btoa naclFromSeed naclSign (Js.VObject payload)
         (Js.VString (btoa (Bytes.toBinaryString seed)))
       = ([{| Background.message := Bytes.utf8 (Osm1.createSigningMessage payload);
              Background.secretKey := sk |}],
          Normal (btoa (Bytes.toBinaryString sig))).
Proof.
  destruct (sign_total (Bytes.utf8 (Osm1.createSigningMessage payload))) as [sig Hsig].
  exists sig. split; [exact Hsig|].
  unfold Background.signMessageWithKey. cbn [Js.toString].
  rewrite atob_btoa, VerifyFacts.binaryString_bytes, seed_length, fromSeed.
  cbn [Nat.eqb fmap Completion_fmap snd Background.ownProperties].
  rewrite VerifyFacts.signed_message, Hsig. reflexivity.
Qed.

Lemma verifies (payload : Js.object) (sig : Bytes.bytes) (address : Js.value)
  (options : Osm1.Options) (now : Z) :
  naclSign (Bytes.utf8 (Osm1.createSigningMessage payload)) sk = Normal sig ->
  Js.get payload "version" = Js.VString "OSM-1" ->
  Js.truthy (Js.get payload "expiresAt") = false ->
  (Js.truthy (Osm1.expectedDomain options) = false
   \/ Js.strictEq (Js.get payload "domain") (Osm1.expectedDomain options) = true) ->
  address = Js.VString ("oct" +:+ Osm1.base58Encode (sha256 pk)) ->
  Osm1.verifyOSM1Signature atob naclVerify sha256
    {| Osm1.payload := payload;
       Osm1.signature := btoa (Bytes.toBinaryString sig);
       Osm1.publicKey := btoa (Bytes.toBinaryString pk);
       Osm1.address := address |}
    options now
  = Osm1.Checked true
      {| Osm1.signatureValid := true; Osm1.versionValid := true;
         Osm1.domainMatch := true; Osm1.notExpired := true;
         Osm1.addressMatch := true |}.
Proof.
  intros Hsig Hversion Hexp Hdomain ->.
  assert (Hd : negb (Js.truthy (Osm1.expectedDomain options))
               || Js.strictEq (Js.get payload "domain") (Osm1.expectedDomain options) = true).
  { destruct Hdomain as [H | H]; rewrite H; [reflexivity|apply orb_true_r]. }
  unfold Osm1.verifyOSM1Signature, Osm1.base64ToUint8Array.
  cbn [Osm1.signature Osm1.publicKey Osm1.payload Osm1.address].
  rewrite !atob_btoa. cbn [fmap Completion_fmap].
  rewrite !VerifyFacts.binaryString_bytes.
  rewrite (verify_sign _ _ Hsig), Hversion, Hexp.
  unfold Osm1.expectedAddress. cbn [Js.isStr].
  rewrite !JsFacts.eqb_refl, Hd. cbn [negb orb andb].
  rewrite !orb_true_r. reflexivity.
Qed.

End Platform.

End EnvelopeFacts.

Module PayloadFacts.

(** The payload of [createOSM1Payload], property by property. *)
Lemma createOSM1Payload_properties (options : Js.object) (uuid : string) (now nowExpiry : Z) :
  Osm1.createOSM1Payload options uuid now nowExpiry
  = [("version", Js.VString "OSM-1");
     ("message", Js.get options "message");
     ("address", Js.get options "address");
     ("domain", Js.or (Js.get options "domain") (Js.VString "unknown"));
     ("nonce", Js.VString uuid);
     ("timestamp", Js.VNumber (Num.ofZ now))]
    ++ (if Js.isDefined (Js.get options "chainId")
        then [("chainId", Js.get options "chainId")] else [])
    ++ (if Js.truthy (Js.get options "expiresIn")
        then [("expiresAt", Osm1.plus (Num.ofZ nowExpiry) (Js.get options "expiresIn"))]
        else []).
Proof.
  unfold Osm1.createOSM1Payload.
  destruct (Js.isDefined (Js.get options "chainId"));
    destruct (Js.truthy (Js.get options "expiresIn")); reflexivity.
Qed.

Lemma createOSM1Payload_unexpiring (options : Js.object) (uuid : string)
  (now nowExpiry : Z) :
  Js.truthy (Js.get options "expiresIn") = false ->
  let payload := Osm1.createOSM1Payload options uuid now nowExpiry in
  Js.get payload "version" = Js.VString "OSM-1"
  /\ Js.get payload "domain"
     = (if Js.truthy (Js.get options "domain") then Js.get options "domain"
        else Js.VString "unknown")
  /\ Js.get payload "expiresAt" = Js.VUndefined.
Proof.
  intros He payload. subst payload. rewrite createOSM1Payload_properties, He.
  unfold Js.or.
  destruct (Js.isDefined (Js.get options "chainId")); repeat split; reflexivity.
Qed.

End PayloadFacts.

(** X9. A payload made by [createOSM1Payload] always has the version
    ['OSM-1'], a domain (['unknown'] when none is given), the nonce and the
    time it was made at; it has a [chainId] exactly when one is given and an
    [expiresAt] exactly when [expiresIn] is truthy. *)
Theorem createOSM1Payload_shape (options : Js.object) (uuid : string) (now nowExpiry : Z) :
  let payload := Osm1.createOSM1Payload options uuid now nowExpiry in
  Js.get payload "version" = Js.VString "OSM-1"
  /\ Js.get payload "message" = Js.get options "message"
  /\ Js.get payload "address" = Js.get options "address"
  /\ Js.get payload "domain"
     = (if Js.truthy (Js.get options "domain") then Js.get options "domain"
        else Js.VString "unknown")
  /\ Js.truthy (Js.get payload "domain") = true
  /\ Js.get payload "nonce" = Js.VString uuid
  /\ Js.get payload "timestamp" = Js.VNumber (Num.ofZ now)
  /\ ("chainId" ∈ Js.keys payload <-> Js.get options "chainId" <> Js.VUndefined)
  /\ Js.get payload "chainId" = Js.get options "chainId"
  /\ ("expiresAt" ∈ Js.keys payload <-> Js.truthy (Js.get options "expiresIn") = true)
  /\ (Js.truthy (Js.get options "expiresIn") = false ->
      Js.get payload "expiresAt" = Js.VUndefined).
Proof.
  intros payload. subst payload. rewrite PayloadFacts.createOSM1Payload_properties.
  unfold Js.or.
  destruct (Js.get options "chainId") eqn:Hc;
    destruct (Js.truthy (Js.get options "expiresIn")) eqn:He;
    destruct (Js.truthy (Js.get options "domain")) eqn:Hd;
    cbn [Js.isDefined app Js.get String.eqb Ascii.eqb Bool.eqb Js.keys fmap list_fmap fst Js.truthy negb];
    repeat split; try reflexivity; try exact Hd; try discriminate; try congruence;
    try (intros _; set_solver); try (intros H; exfalso; set_solver).
Qed.

(** X10. A payload made by [createOSM1Payload] without [expiresIn], for a
    domain given as a string, signed by [signMessageWithKey] with the seed
    of a key pair, verifies: [verifyOSM1Signature], asked for the domain of
    the payload and at any later time, reports it valid with the five
    checks true, when the envelope carries the public key of the pair and
    the address made from it. *)
Theorem createOSM1Payload_verifies
  (atob : string -> Completion string) (btoa : string -> string)
  (naclFromSeed : Bytes.bytes -> Completion (Bytes.bytes * Bytes.bytes))
  (naclSign : Bytes.bytes -> Bytes.bytes -> Completion Bytes.bytes)
  (naclVerify : Bytes.bytes -> Bytes.bytes -> Bytes.bytes -> Completion bool)
  (sha256 : Bytes.bytes -> Bytes.bytes)
  (seed pk sk : Bytes.bytes)
  (options : Js.object) (domain uuid : string) (now nowExpiry later : Z) :
  (forall s, atob (btoa s) = Normal s) ->
  (forall msg sig, naclSign msg sk = Normal sig -> naclVerify msg sig pk = Normal true) ->
  (forall msg, exists sig, naclSign msg sk = Normal sig) ->
  length seed = 32%nat ->
  naclFromSeed seed = Normal (pk, sk) ->
  Js.get options "domain" = Js.VString domain ->
  Js.truthy (Js.get options "expiresIn") = false ->
  let payload := Osm1.createOSM1Payload options uuid now nowExpiry in
  exists signature,
    (Background.signMessageWithKey atob btoa naclFromSeed naclSign (Js.VObject payload)
       (Js.VString (btoa (Bytes.toBinaryString seed)))).2 = Normal signature
    /\ Osm1.verifyOSM1Signature atob naclVerify sha256
         {| Osm1.payload := payload;
            Osm1.signature := signature;
            Osm1.publicKey := btoa (Bytes.toBinaryString pk);
            Osm1.address := Js.VString ("oct" +:+ Osm1.base58Encode (sha256 pk)) |}
         {| Osm1.expectedDomain := Js.get payload "domain";
            Osm1.checkExpiry := Js.VUndefined |}
         later
       = Osm1.Checked true
           {| Osm1.signatureValid := true; Osm1.versionValid := true;
              Osm1.domainMatch := true; Osm1.notExpired := true;
              Osm1.addressMatch := true |}.
Proof.
  intros Hb64 Hverify Hsign Hlen Hseed Hdomain Hexp payload.
  destruct (PayloadFacts.createOSM1Payload_unexpiring options uuid now nowExpiry Hexp)
    as (Hversion & Hd & Hnone).
  fold payload in Hversion, Hd, Hnone.
  destruct (EnvelopeFacts.signs atob btoa naclFromSeed naclSign seed pk sk
              Hb64 Hsign Hlen Hseed payload) as (sig & Hsig & Hrun).
  exists (btoa (Bytes.toBinaryString sig)). split; [rewrite Hrun; reflexivity|].
  apply (EnvelopeFacts.verifies atob btoa naclSign naclVerify sha256 pk sk Hb64 Hverify);
    try assumption; try reflexivity.
  - rewrite Hnone. reflexivity.
  - right. cbn [Osm1.expectedDomain]. rewrite Hd, Hdomain.
    destruct (Js.truthy (Js.VString domain)); cbn [Js.strictEq]; apply JsFacts.eqb_refl.
Qed.

(** The payload of a request on the sample platform. *)
Lemma createOSM1Payload_verifies_witness :
  let options := [("message", Js.VString "hi"); ("address", Js.VString "oct1");
                  ("domain", Js.VString "https://d.app"); ("chainId", Js.VNumber (Num.ofZ 2))] in
  let seed := Bytes.ofBinaryString Sample.seed in
  let payload := Osm1.createOSM1Payload options "uuid-1" 1700000000000 1700000000001 in
  exists signature,
    (Background.signMessageWithKey Sample.atob Sample.btoa Sample.naclFromSeed Sample.naclSign
       (Js.VObject payload) (Js.VString (Sample.btoa (Bytes.toBinaryString seed)))).2
    = Normal signature
    /\ Osm1.verifyOSM1Signature Sample.atob Sample.naclVerify Sample.sha256
         {| Osm1.payload := payload;
            Osm1.signature := signature;
            Osm1.publicKey := Sample.btoa (Bytes.toBinaryString seed);
            Osm1.address := Js.VString ("oct" +:+ Osm1.base58Encode (Sample.sha256 seed)) |}
         {| Osm1.expectedDomain := Js.get payload "domain";
            Osm1.checkExpiry := Js.VUndefined |}
         1700000005000
       = Osm1.Checked true
           {| Osm1.signatureValid := true; Osm1.versionValid := true;
              Osm1.domainMatch := true; Osm1.notExpired := true;
              Osm1.addressMatch := true |}.
Proof.
  intros options seed.
  assert (Hseed : Sample.naclFromSeed seed = Normal (seed, seed ++ seed)) by reflexivity.
  apply (createOSM1Payload_verifies Sample.atob Sample.btoa Sample.naclFromSeed
           Sample.naclSign Sample.naclVerify Sample.sha256 seed seed (seed ++ seed)
           options "https://d.app" "uuid-1" 1700000000000 1700000000001 1700000005000).
  - exact VerifyFacts.sample_atob_btoa.
  - intros msg sig. exact (VerifyFacts.sample_verify_sign seed seed (seed ++ seed) msg sig Hseed).
  - intros msg. exists (seed ++ msg).
    exact (VerifyFacts.sample_sign seed seed (seed ++ seed) msg Hseed).
  - reflexivity.
  - exact Hseed.
  - reflexivity.
  - reflexivity.
Defined.



(** ** The provider of the page *)

(** X12. While the provider is not connected, [getPublicKey],
    [signMessage], [signTransaction] and [sendTransaction] are refused with
    the error 4100 ['Not connected'] and [getAccounts] answers the empty
    array, directly or through [request]; none of them posts a request,
    registers a timer or changes the table of pending requests. *)
Theorem provider_not_connected (p : Inpage.Provider) (page : Inpage.Page)
  (st : Inpage.State) (v : Js.value) :
  Inpage.isConnected p = false ->
  let refused := (Inpage.Refused
                    (Js.VObject [("code", Js.VNumber (Num.ofZ 4100));
                                 ("message", Js.VString "Not connected")]), st) in
  Inpage.getPublicKey p page st = refused
  /\ Inpage.signMessage p v page st = refused
  /\ Inpage.signTransaction p v page st = refused
  /\ Inpage.sendTransaction p v page st = refused
  /\ Inpage.getAccounts p page st = (Inpage.Answered (Js.VArray []), st)
  /\ Inpage.request p (Js.VObject [("method", Js.VString "octra_signMessage"); ("params", v)])
       page st = refused
  /\ Inpage.request p (Js.VObject [("method", Js.VString "octra_sendTransaction"); ("params", v)])
       page st = refused
  /\ Inpage.request p (Js.VObject [("method", Js.VString "octra_accounts"); ("params", v)])
       page st = (Inpage.Answered (Js.VArray []), st).
Proof.
  intros Hp refused. subst refused.
  unfold Inpage.getPublicKey, Inpage.signMessage, Inpage.signTransaction,
    Inpage.sendTransaction, Inpage.transact, Inpage.getAccounts, Inpage.request.
  cbn [Inpage.readable Js.asObject Js.get String.eqb Ascii.eqb Bool.eqb Js.isStr negb].
  unfold Inpage.getAccounts, Inpage.signMessage, Inpage.sendTransaction, Inpage.transact.
  rewrite Hp. cbn [negb]. repeat split; reflexivity.
Qed.

(** The provider as it is when the page loads. *)
Lemma provider_not_connected_witness :
  let page := {| Inpage.location := "https://d.app"; Inpage.title := "d";
                 Inpage.uuid := "uuid-1"; Inpage.now := 1000; Inpage.sent := 1001 |} in
  Inpage.signMessage Inpage.provider (Js.VString "hi") page Inpage.initial
  = (Inpage.Refused (Js.VObject [("code", Js.VNumber (Num.ofZ 4100));
                                 ("message", Js.VString "Not connected")]),
     Inpage.initial).
Proof.
  intros page.
  exact (proj1 (proj2 (provider_not_connected Inpage.provider page Inpage.initial
                         (Js.VString "hi") eq_refl))).
Defined.


Module RequestFacts.

Import Inpage.

Lemma settle_keeps (id j : Z) (s0 s : Settlement) (ps : gmap Z Settlement) :
  ps !! id = Some s0 -> s0 <> Pending -> settle j s ps !! id = Some s0.
Proof.
  intros Hs Hne. destruct (decide (id = j)) as [<-|Hj].
  - rewrite PromiseFacts.settle_settled; [exact Hs|]. rewrite Hs. congruence.
  - rewrite PromiseFacts.settle_other by exact Hj. exact Hs.
Qed.

Lemma settle_domain (id j : Z) (s : Settlement) (ps : gmap Z Settlement) :
  is_Some (settle j s ps !! id) -> is_Some (ps !! id).
Proof.
  destruct (decide (id = j)) as [<-|Hj].
  - unfold settle. destruct (ps !! id) as [[]|] eqn:Hp; rewrite ?Hp; auto.
  - rewrite PromiseFacts.settle_other by exact Hj. auto.
Qed.

Lemma onTimeout_keeps (id j : Z) (s0 : Settlement) (st : State) :
  promises st !! id = Some s0 -> s0 <> Pending ->
  promises (onTimeout j st) !! id = Some s0.
Proof.
  intros Hs Hne. unfold onTimeout. destruct (bool_decide _); [|exact Hs].
  cbn [promises]. apply settle_keeps; assumption.
Qed.

Lemma onTimeout_allocated (j : Z) (st : State) : Allocated st -> Allocated (onTimeout j st).
Proof.
  intros Ha id. unfold onTimeout. destruct (bool_decide _); [|apply Ha].
  cbn [pendingRequests promises requestId]. intros [Hin|Hsome]; apply Ha.
  - left. set_solver.
  - right. exact (settle_domain _ _ _ _ Hsome).
Qed.

Lemma fire_keeps (id : Z) (s0 : Settlement) (due : list (Z * Z)) (st : State) :
  promises st !! id = Some s0 -> s0 <> Pending ->
  promises (foldl (fun s t => onTimeout t.2 s) st due) !! id = Some s0.
Proof.
  revert st. induction due as [|t due IH]; intros st Hs Hne; [exact Hs|].
  simpl. apply IH; [|exact Hne]. apply onTimeout_keeps; assumption.
Qed.

Lemma fire_allocated (due : list (Z * Z)) (st : State) :
  Allocated st -> Allocated (foldl (fun s t => onTimeout t.2 s) st due).
Proof.
  revert st. induction due as [|t due IH]; intros st Ha; [exact Ha|].
  simpl. apply IH, onTimeout_allocated, Ha.
Qed.

Lemma step_keeps (id : Z) (s0 : Settlement) (ev : Event) (st : State) :
  Allocated st -> promises st !! id = Some s0 -> s0 <> Pending ->
  promises (step st ev) !! id = Some s0.
Proof.
  intros Ha Hs Hne. destruct ev as [method params now|fromWindow data|now].
  - cbn [step sendRequest snd promises].
    rewrite lookup_insert_ne; [exact Hs|].
    pose proof (Ha id (or_intror (ex_intro _ s0 Hs))). lia.
  - cbn [step]. unfold onMessage.
    destruct (negb fromWindow); [exact Hs|].
    destruct (negb (Js.isStr _ _)); [exact Hs|].
    destruct (Js.get data "id"); try exact Hs.
    destruct (Num.toZ x) as [j|]; [|exact Hs].
    destruct (bool_decide _); [|exact Hs].
    cbn [promises]. apply settle_keeps; assumption.
  - cbn [step runTimers promises]. apply fire_keeps; assumption.
Qed.

Lemma step_allocated (ev : Event) (st : State) : Allocated st -> Allocated (step st ev).
Proof.
  intros Ha. destruct ev as [method params now|fromWindow data|now].
  - intros id. cbn [step sendRequest snd pendingRequests promises requestId].
    intros [Hin|Hsome].
    + apply elem_of_union in Hin. destruct Hin as [Hin|Hin].
      * apply elem_of_singleton in Hin. lia.
      * pose proof (Ha id (or_introl Hin)). lia.
    + destruct (decide (id = requestId st + 1)) as [->|Hne]; [lia|].
      rewrite lookup_insert_ne in Hsome by congruence.
      pose proof (Ha id (or_intror Hsome)). lia.
  - cbn [step]. unfold onMessage.
    destruct (negb fromWindow); [exact Ha|].
    destruct (negb (Js.isStr _ _)); [exact Ha|].
    destruct (Js.get data "id"); try exact Ha.
    destruct (Num.toZ x) as [j|]; [|exact Ha].
    destruct (bool_decide _); [|exact Ha].
    intros id. cbn [pendingRequests promises requestId]. intros [Hin|Hsome]; apply Ha.
    + left. set_solver.
    + right. exact (settle_domain _ _ _ _ Hsome).
  - intros id. cbn [step runTimers pendingRequests promises requestId].
    apply (fire_allocated _ st Ha).
Qed.

Lemma steps_allocated (evs : list Event) (st : State) :
  Allocated st -> Allocated (foldl step st evs).
Proof.
  revert st. induction evs as [|ev evs IH]; intros st Ha; [exact Ha|].
  simpl. apply IH, step_allocated, Ha.
Qed.

Lemma steps_keep (id : Z) (s0 : Settlement) (evs : list Event) (st : State) :
  Allocated st -> promises st !! id = Some s0 -> s0 <> Pending ->
  promises (foldl step st evs) !! id = Some s0.
Proof.
  revert st. induction evs as [|ev evs IH]; intros st Ha Hs Hne; [exact Hs|].
  simpl. apply IH; [apply step_allocated, Ha| |exact Hne].
  apply step_keeps; assumption.
Qed.

Lemma initial_allocated : Allocated initial.
Proof.
  intros id [Hin|Hsome].
  - cbn [initial pendingRequests] in Hin. set_solver.
  - cbn [initial promises] in Hsome. rewrite lookup_empty in Hsome.
    destruct Hsome as [? Hx]. discriminate Hx.
Qed.

End RequestFacts.

(** X13. A promise of the provider is settled once. Whatever the page,
    the content script and the timers do from the load of the page on, the
    ids given out stay at most [requestId], so that a later request never
    takes the id of an earlier one, and a promise that has been resolved or
    rejected keeps its settlement: a second response with the same id, a
    late timeout or a later request changes nothing. *)
Theorem promise_settled_once (before after : list Inpage.Event) (id : Z) (s : Settlement) :
  let st := foldl Inpage.step Inpage.initial before in
  Inpage.promises st !! id = Some s -> s <> Pending ->
  Inpage.promises (foldl Inpage.step st after) !! id = Some s
  /\ id <= Inpage.requestId st
  /\ (forall method params now, (Inpage.sendRequest method params now st).1 <> id).
Proof.
  intros st Hs Hne.
  assert (Ha : Inpage.Allocated st)
    by (apply RequestFacts.steps_allocated, RequestFacts.initial_allocated).
  pose proof (Ha id (or_intror (ex_intro _ s Hs))) as Hid.
  split; [|split].
  - apply RequestFacts.steps_keep; assumption.
  - exact Hid.
  - intros method params now. cbn [Inpage.sendRequest fst]. lia.
Qed.

(** A request answered, then answered again, timed out and followed by
    another request. *)
Lemma promise_settled_once_witness :
  let answer v := Inpage.Receive true [("type", Js.VString "OCTRA_RESPONSE");
                                       ("id", Js.VNumber (Num.ofZ 1)); ("result", v)] in
  let before := [Inpage.Send "connect" Js.VUndefined 1000; answer (Js.VString "first")] in
  let after := [answer (Js.VString "second"); Inpage.Tick 400000;
                Inpage.Send "getAccounts" Js.VUndefined 400001] in
  Inpage.promises (foldl Inpage.step (foldl Inpage.step Inpage.initial before) after) !! 1
  = Some (Resolved (Js.VString "first")).
Proof.
  intros answer before after.
  refine (proj1 (promise_settled_once before after 1 (Resolved (Js.VString "first")) _ _)).
  - vm_compute. reflexivity.
  - discriminate.
Defined.

(** X14. A request and its answer, through the content script. The
    message that the content script posts back for a request settles the
    promise of that request and takes it out of the table: the promise is
    rejected with the [error] of the response of the worker when that is
    truthy, resolved with its [result] otherwise, and rejected with the
    error 4900 when [sendMessage] fails or gives no response. No timer
    changes the promise afterwards. *)
Theorem response_settles_request (typeError method : string) (params : Js.value) (sent : Z)
  (st : Inpage.State) (response : Completion Js.value) :
  0 <= Inpage.requestId st < 2 ^ 53 - 1 ->
  let r := Inpage.sendRequest method params sent st in
  let st' := Inpage.onMessage true
               (Content.reply typeError (Js.VNumber (Num.ofZ r.1)) response) r.2 in
  let settlement :=
    match response with
    | Normal v =>
        if Inpage.readable v then
          if Js.truthy (Js.get (Js.asObject v) "error")
          then Rejected (Js.get (Js.asObject v) "error")
          else Resolved (Js.get (Js.asObject v) "result")
        else Rejected (Content.relayError typeError)
    | Throw e => Rejected (Content.relayError e)
    end in
  Inpage.promises st' !! r.1 = Some settlement
  /\ (r.1 ∉ Inpage.pendingRequests st')
  /\ (forall e, Js.get (Js.asObject (Content.relayError e)) "code" = Js.VNumber (Num.ofZ 4900))
  /\ (forall now, Inpage.promises (Inpage.runTimers now st') !! r.1 = Some settlement).
Proof.
  intros Hid r st' settlement.
  assert (Hz : Num.toZ (Num.ofZ r.1) = Some r.1)
    by (apply IntegerFacts.toZ_ofZ; cbn [r Inpage.sendRequest fst]; lia).
  assert (Hin : r.1 ∈ Inpage.pendingRequests r.2)
    by (cbn [r Inpage.sendRequest fst snd Inpage.pendingRequests]; set_solver).
  assert (Hp : Inpage.promises r.2 !! r.1 = Some Pending)
    by (cbn [r Inpage.sendRequest fst snd Inpage.promises]; apply lookup_insert_eq).
  assert (Hshape : forall data,
            Js.get data "type" = Js.VString "OCTRA_RESPONSE" ->
            Js.get data "id" = Js.VNumber (Num.ofZ r.1) ->
            let s := if Js.truthy (Js.get data "error")
                     then Rejected (Js.get data "error")
                     else Resolved (Js.get data "result") in
            Inpage.promises (Inpage.onMessage true data r.2) !! r.1 = Some s
            /\ (r.1 ∉ Inpage.pendingRequests (Inpage.onMessage true data r.2))).
  { intros data Ht Hi s. unfold Inpage.onMessage. rewrite Ht, Hi, Hz.
    cbn [negb Js.isStr String.eqb Ascii.eqb Bool.eqb].
    rewrite bool_decide_eq_true_2 by exact Hin.
    cbn [Inpage.promises Inpage.pendingRequests]. split.
    - apply PromiseFacts.settle_pending, Hp.
    - set_solver. }
  assert (Hst : Inpage.promises st' !! r.1 = Some settlement
                /\ (r.1 ∉ Inpage.pendingRequests st')).
  { subst st' settlement. destruct response as [v|e].
    - destruct v;
        match goal with
        | |- context [Content.reply ?t ?i (Normal ?v0)] =>
            exact (Hshape (Content.reply t i (Normal v0)) eq_refl eq_refl)
        end.
    - exact (Hshape (Content.reply typeError (Js.VNumber (Num.ofZ r.1)) (Throw e))
               eq_refl eq_refl). }
  destruct Hst as [Hs Hout]. split; [exact Hs|]. split; [exact Hout|]. split; [reflexivity|].
  intros now. cbn [Inpage.runTimers Inpage.promises].
  apply RequestFacts.fire_keeps; [exact Hs|].
  subst settlement. destruct response as [v|e]; [|discriminate].
  destruct (Inpage.readable v); [|discriminate].
  destruct (Js.truthy _); discriminate.
Qed.

(** The first request of a page, answered with an error by the worker. *)
Lemma response_settles_request_witness :
  let r := Inpage.sendRequest "signMessage" (Js.VObject []) 1000 Inpage.initial in
  let response := Normal (Js.VObject [("error", Js.VString "Wallet not found")]) in
  let st' := Inpage.onMessage true
               (Content.reply "Cannot read properties of undefined"
                  (Js.VNumber (Num.ofZ r.1)) response) r.2 in
  Inpage.promises st' !! r.1 = Some (Rejected (Js.VString "Wallet not found"))
  /\ forall now, Inpage.promises (Inpage.runTimers now st') !! r.1
                 = Some (Rejected (Js.VString "Wallet not found")).
Proof.
  intros r response st'.
  destruct (response_settles_request "Cannot read properties of undefined"
              "signMessage" (Js.VObject []) 1000 Inpage.initial response) as (H1 & _ & _ & H2).
  - cbn [Inpage.initial Inpage.requestId]. lia.
  - split; [exact H1|exact H2].
Defined.

(** ** Connections of the worker *)

Module WalletFacts.

Section Wallet.

Variable decryptSession : Js.value -> Js.value -> Completion Js.value.

(** A wallet that [getWalletFromStorage] gives has a key. *)
Lemma wallet_has_key (stored : Background.StorageRead) (st : Background.State)
  (w : Js.object) :
  (Background.getWalletFromStorage decryptSession stored st).1 = Some w ->
  Js.truthy (Background.keyOf w) = true.
Proof.
  unfold Background.getWalletFromStorage.
  destruct (Background.currentSession st stored) as [s|]; [|discriminate].
  destruct (Background.decrypted decryptSession s (Background.memorySessionKey st))
    as [k|] eqn:Hd.
  - intros Heq. apply SessionFacts.decrypted_Some in Hd.
    destruct Hd as (_ & _ & _ & Hk).
    assert (w = Js.assignAll s [("privateKey", k); ("privateKeyB64", k)]) as ->
      by (cbn [fst] in Heq; congruence).
    destruct (SessionFacts.keyOf_unlocked s k Hk) as (_ & _ & G).
    exact (eq_trans (f_equal Js.truthy G) Hk).
  - destruct (Js.truthy (Background.keyOf s)) eqn:Hk; [|discriminate].
    intros [= <-]. exact Hk.
Qed.

Lemma connected_insert (origin : string) (connection : Js.object) (st : Background.State) :
  Background.connected origin
    (Background.withConnections st (<[origin := connection]> (Background.dappConnections st)))
  = Js.truthy (Js.get connection "connected").
Proof.
  unfold Background.connected. cbn [Background.withConnections Background.dappConnections].
  rewrite lookup_insert_eq. reflexivity.
Qed.

End Wallet.

End WalletFacts.

(** X15. An approved connection is known on both sides. When the approval
    of a [connect] request is resolved and the wallet is unlocked,
    [handleConnect] stores a connection for the origin and answers with the
    address of the wallet; from then on the origin is connected, a further
    [connect] and [getAccounts] answer at once with that address, and the
    provider that receives the answer becomes connected with that address
    selected, the network ['mainnet'] and the chain 2, and emits
    ['connect']. *)
Theorem connect_round_trip
  (decryptSession : Js.value -> Js.value -> Completion Js.value)
  (origin : string) (title favicon : Js.value) (approved : Js.value) (now : Z)
  (stored : Background.StorageRead) (st : Background.State) (w : Js.object)
  (p : Inpage.Provider) :
  (Background.getWalletFromStorage decryptSession stored st).1 = Some w ->
  exists response st',
    Background.handleConnectResume decryptSession origin title favicon
      (Resolved approved) now stored st = Some (response, st')
    /\ Background.connected origin st' = true
    /\ Background.handleGetAccounts origin st'
       = [("result", Js.VArray [Js.get w "address"])]
    /\ (forall title' favicon' approvalId now' stored',
          exists again,
            Background.handleConnect decryptSession origin title' favicon' approvalId
              now' stored' st' = (Background.Returned again, st')
            /\ Js.get (Js.asObject (Js.get again "result")) "accounts"
               = Js.VArray [Js.get w "address"])
    /\ Inpage.connectResume (Js.get response "result") p
       = ({| Inpage.isConnected := true;
             Inpage.selectedAddress := Js.get w "address";
             Inpage.networkId := Js.VString "mainnet";
             Inpage.chainId := Js.VNumber (Num.ofZ 2) |},
          true, Inpage.Answered (Js.get response "result")).
Proof.
  intros Hw. pose proof (WalletFacts.wallet_has_key decryptSession stored st w Hw) as Hk.
  unfold Background.handleConnectResume.
  destruct (Background.getWalletFromStorage decryptSession stored st) as [wallet st1].
  cbn [fst] in Hw. subst wallet. rewrite Hk.
  eexists. eexists. split; [reflexivity|].
  split; [rewrite WalletFacts.connected_insert; reflexivity|].
  split.
  { unfold Background.handleGetAccounts. rewrite WalletFacts.connected_insert.
    cbn [Js.get String.eqb Ascii.eqb Bool.eqb Js.truthy negb
         Background.withConnections Background.dappConnections].
    rewrite lookup_insert_eq. reflexivity. }
  split.
  { intros title' favicon' approvalId now' stored'. unfold Background.handleConnect.
    cbn [Background.withConnections Background.dappConnections].
    rewrite lookup_insert_eq.
    cbn [default from_option id Js.get String.eqb Ascii.eqb Bool.eqb Js.truthy].
    eexists. split; reflexivity. }
  unfold Inpage.connectResume.
  cbn [Js.get String.eqb Ascii.eqb Bool.eqb Inpage.readable negb Js.asObject Js.truthy
       Inpage.nonEmpty Inpage.first andb head default from_option id].
  rewrite bool_decide_eq_false_2 by discriminate. cbn [negb].
  unfold Js.or. destruct (Js.truthy (Js.get w "address")); reflexivity.
Qed.

(** The sample wallet, unlocked in the session cache. *)
Lemma connect_round_trip_witness :
  let st := Background.withSession Background.initial (Some Sample.wallet) in
  exists response st',
    Background.handleConnectResume Sample.decryptSession "https://d.app"
      (Js.VString "d") Js.VUndefined (Resolved Js.VUndefined) 7 Background.ReadNothing st
    = Some (response, st')
    /\ Background.connected "https://d.app" st' = true
    /\ Inpage.isConnected (Inpage.connectResume (Js.get response "result") Inpage.provider).1.1
       = true.
Proof.
  intros st.
  destruct (connect_round_trip Sample.decryptSession "https://d.app" (Js.VString "d")
              Js.VUndefined Js.VUndefined 7 Background.ReadNothing st Sample.wallet
              Inpage.provider eq_refl)
    as (response & st' & H1 & H2 & _ & _ & H3).
  exists response, st'. split; [exact H1|]. split; [exact H2|]. rewrite H3. reflexivity.
Defined.

(** ** Who may ask the worker to sign *)

(** X16. An origin without an active connection is refused. For such an
    origin [getPublicKey], [getEncryptedBalance], [signMessage],
    [signTransaction] and [sendTransaction] answer with the error 4100
    ['Not connected'] and [getAccounts] with the empty array; the state of
    the worker is left as it is: no approval is stored, no window is opened
    and the session is not read. *)
Theorem not_connected_refused
  (decryptSession : Js.value -> Js.value -> Completion Js.value)
  (origin : string) (params : Js.object) (approvalId : string)
  (lookup : Background.NonceLookup) (nowFill now : Z) (stored : Background.StorageRead)
  (getEncryptedBalance : Js.value -> Js.value -> Completion Js.value)
  (st : Background.State) :
  Background.connected origin st = false ->
  let refused := [("error", Js.VObject [("code", Js.VNumber (Num.ofZ 4100));
                                        ("message", Js.VString "Not connected")])] in
  Background.handleGetPublicKey decryptSession origin stored st = (refused, st)
  /\ Background.handleGetEncryptedBalance decryptSession origin stored getEncryptedBalance st
     = (refused, st)
  /\ Background.handleSignMessage decryptSession origin params approvalId now stored st
     = (Background.Returned refused, st)
  /\ Background.handleSignTransaction decryptSession origin params approvalId lookup
       nowFill now stored st
     = (Background.Returned refused, st)
  /\ Background.handleSendTransaction decryptSession origin params approvalId lookup
       nowFill now stored st
     = (Background.Returned refused, st)
  /\ Background.handleGetAccounts origin st = [("result", Js.VArray [])].
Proof.
  intros Hc refused.
  unfold Background.handleGetPublicKey, Background.handleGetEncryptedBalance,
    Background.handleSignMessage, Background.handleSignTransaction,
    Background.handleSendTransaction, Background.handleTransaction,
    Background.handleGetAccounts.
  rewrite Hc. repeat split; reflexivity.
Qed.

(** A worker that has just started knows no origin. *)
Lemma not_connected_refused_witness :
  Background.handleSignMessage Sample.decryptSession "https://d.app"
    [("payload", Js.VObject [("message", Js.VString "hi")])] "id-1" 5
    (Background.ReadSession Sample.wallet) Background.initial
  = (Background.Returned
       [("error", Js.VObject [("code", Js.VNumber (Num.ofZ 4100));
                              ("message", Js.VString "Not connected")])],
     Background.initial).
Proof.
  exact (proj1 (proj2 (proj2
    (not_connected_refused Sample.decryptSession "https://d.app"
       [("payload", Js.VObject [("message", Js.VString "hi")])] "id-1"
       Background.LookupNotOk 5 5 (Background.ReadSession Sample.wallet)
       (fun _ _ => Throw "offline") Background.initial eq_refl)))).
Defined.

(** X17. [handleDisconnect] forgets the origin and only that one: the
    origin is no longer connected, so that its requests to sign are refused
    as above, the other origins keep their connections, the approvals and
    the session stay as they are, and the table that is saved is the new
    one. *)
Theorem disconnect_forgets_origin
  (decryptSession : Js.value -> Js.value -> Completion Js.value)
  (origin : string) (st : Background.State) :
  let r := Background.handleDisconnect origin st in
  r.1 = [("result", Js.VBool true)]
  /\ Background.connected origin r.2 = false
  /\ (forall other, other <> origin ->
        Background.dappConnections r.2 !! other = Background.dappConnections st !! other)
  /\ Background.storedConnections r.2 = Some (Background.dappConnections r.2)
  /\ Background.dappApprovals r.2 = Background.dappApprovals st
  /\ Background.promises r.2 = Background.promises st
  /\ Background.activeSessionCache r.2 = Background.activeSessionCache st
  /\ (forall params approvalId now stored,
        Background.handleSignMessage decryptSession origin params approvalId now stored r.2
        = (Background.Returned (Background.errorResponse 4100 "Not connected"), r.2)).
Proof.
  intros r. subst r. cbn [Background.handleDisconnect fst snd].
  assert (Hc : Background.connected origin
                 (Background.withConnections st (delete origin (Background.dappConnections st)))
               = false).
  { unfold Background.connected. cbn [Background.withConnections Background.dappConnections].
    rewrite lookup_delete_eq. reflexivity. }
  split; [reflexivity|]. split; [exact Hc|]. split.
  { intros other Hne. cbn [Background.withConnections Background.dappConnections].
    apply lookup_delete_ne. congruence. }
  repeat (split; [reflexivity|]).
  intros params approvalId now stored. unfold Background.handleSignMessage.
  rewrite Hc. reflexivity.
Qed.



(** ** Decisions *)

Module DecisionFacts.

Section Decision.

Variable decryptSession : Js.value -> Js.value -> Completion Js.value.
Variable atob : string -> Completion string.
Variable btoa : string -> string.
Variable naclFromSeed : Bytes.bytes -> Completion (Bytes.bytes * Bytes.bytes).
Variable naclSign : Bytes.bytes -> Bytes.bytes -> Completion Bytes.bytes.

Lemma signMessageWithKey_calls (payload key : Js.value) (call : Background.SignCall) :
  call ∈ (Background.signMessageWithKey atob btoa naclFromSeed naclSign payload key).1 ->
  exists props,
    Background.ownProperties payload = Normal props
    /\ Background.message call = Bytes.utf8 (Osm1.createSigningMessage props).
Proof.
  unfold Background.signMessageWithKey.
  destruct (atob _) as [binaryKey|e]; [|intros H; inversion H].
  destruct (if (length _ =? 32)%nat then _ else _) as [secretKey|e]; [|intros H; inversion H].
  destruct (Background.ownProperties payload) as [props|e]; [|intros H; inversion H].
  rewrite VerifyFacts.signed_message.
  intros Hin. exists props. split; [reflexivity|].
  destruct (naclSign _ _); cbn [fst] in Hin;
    apply list_elem_of_singleton in Hin; subst call; reflexivity.
Qed.

(** The state in which [handleResolveApproval] looks the approval up. *)
Lemma key_handoff (data : Js.object) (st : Background.State) :
  let st1 := if Js.truthy (Js.get data "sessionKey")
             then Background.withSessionKey st (Js.get data "sessionKey") else st in
  Background.dappApprovals st1 = Background.dappApprovals st
  /\ Background.promises st1 = Background.promises st
  /\ Background.dappConnections st1 = Background.dappConnections st
  /\ Background.windows st1 = Background.windows st.
Proof. intros st1. subst st1. destruct (Js.truthy _); repeat split; reflexivity. Qed.

(** A decision on an approval that is not in the table. *)
Lemma resolve_unknown (data : Js.object) (stored : Background.StorageRead)
  (nowNonce nowStamp : Z) (rpc : Background.Broadcast) (st : Background.State) :
  (forall id, Js.get data "id" = Js.VString id -> Background.dappApprovals st !! id = None) ->
  let r := Background.handleResolveApproval decryptSession atob btoa naclFromSeed naclSign
             data stored nowNonce nowStamp rpc st in
  r.1 = [("success", Js.VBool false); ("error", Js.VString "Request not found")]
  /\ Background.dappApprovals r.2 = Background.dappApprovals st
  /\ Background.promises r.2 = Background.promises st
  /\ Background.dappConnections r.2 = Background.dappConnections st
  /\ Background.resolveCalls decryptSession atob btoa naclFromSeed naclSign
       data stored nowNonce nowStamp rpc st = [].
Proof.
  intros Hnone r. subst r.
  unfold Background.handleResolveApproval, Background.resolveCalls.
  destruct (key_handoff data st) as (Ha & Hp & Hc & _).
  rewrite Ha.
  destruct (Js.get data "id") as [| | | |id| |]; cbn [fst snd];
    try (repeat split; assumption || reflexivity).
  rewrite (Hnone id eq_refl). cbn [fmap option_fmap option_map fst snd].
  repeat split; assumption || reflexivity.
Qed.

(** A decision on an approval that is in the table. *)
Lemma resolve_known (id : string) (a : Background.Approval) (data : Js.object)
  (stored : Background.StorageRead) (nowNonce nowStamp : Z) (rpc : Background.Broadcast)
  (st : Background.State) :
  Background.dappApprovals st !! id = Some a ->
  Background.promises st !! id = Some Pending ->
  Js.get data "id" = Js.VString id ->
  let r := Background.handleResolveApproval decryptSession atob btoa naclFromSeed naclSign
             data stored nowNonce nowStamp rpc st in
  r.1 = [("success", Js.VBool true)]
  /\ Background.dappApprovals r.2 !! id = None
  /\ exists s, Background.promises r.2 !! id = Some s
               /\ s <> Pending
               /\ (Js.isStr (Js.get data "decision") "approved" = false ->
                   s = Rejected (Js.VObject [("code", Js.VNumber (Num.ofZ 4001));
                                             ("message", Js.VString "User rejected request")])).
Proof.
  intros Ha Hp Hid r. subst r. unfold Background.handleResolveApproval.
  destruct (key_handoff data st) as (Hda & Hpr & _).
  set (st1 := if Js.truthy (Js.get data "sessionKey") then _ else st) in *.
  rewrite Hid, Hda, Ha. cbn [fmap option_fmap option_map].
  set (st2 := Background.withApprovals st1 (delete id (Background.dappApprovals st)) _).
  assert (H2a : Background.dappApprovals st2 !! id = None) by apply lookup_delete_eq.
  assert (H2p : Background.promises st2 !! id = Some Pending)
    by (cbn [st2 Background.withApprovals Background.promises]; rewrite Hpr; exact Hp).
  destruct (Js.isStr (Js.get data "decision") "approved").
  - pose proof (BrokerFacts.signingWalletOf_same decryptSession id a stored st2) as [H3a H3p].
    destruct (Background.signingWalletOf decryptSession a stored st2) as [w st3].
    cbn [fst snd] in *. split; [reflexivity|].
    cbn [Background.withApprovals Background.dappApprovals Background.promises].
    split; [rewrite H3a; exact H2a|].
    eexists. split; [apply PromiseFacts.settle_pending; rewrite H3p; exact H2p|].
    split; [|discriminate].
    destruct (_ ≫= _); discriminate.
  - cbn [fst snd Background.withApprovals Background.dappApprovals Background.promises].
    split; [reflexivity|]. split; [exact H2a|].
    eexists. split; [apply PromiseFacts.settle_pending; exact H2p|].
    split; [discriminate|]. intros _. reflexivity.
Qed.

End Decision.

End DecisionFacts.

(** X19. An approval is decided once. The first [RESOLVE_APPROVAL] for a
    stored approval takes it out of the table and settles its promise,
    with the rejection 4001 ['User rejected request'] unless the decision
    is ['approved']; any further one for the same id, whatever it decides,
    is answered ['Request not found'], calls no signature and leaves the
    promise as the first one settled it. *)
Theorem approval_decided_once
  (decryptSession : Js.value -> Js.value -> Completion Js.value)
  (atob : string -> Completion string) (btoa : string -> string)
  (naclFromSeed : Bytes.bytes -> Completion (Bytes.bytes * Bytes.bytes))
  (naclSign : Bytes.bytes -> Bytes.bytes -> Completion Bytes.bytes)
  (id : string) (a : Background.Approval) (data : Js.object)
  (stored : Background.StorageRead) (nowNonce nowStamp : Z) (rpc : Background.Broadcast)
  (st : Background.State) :
  Background.dappApprovals st !! id = Some a ->
  Background.promises st !! id = Some Pending ->
  Js.get data "id" = Js.VString id ->
  let first := Background.handleResolveApproval decryptSession atob btoa naclFromSeed
                 naclSign data stored nowNonce nowStamp rpc st in
  first.1 = [("success", Js.VBool true)]
  /\ Background.dappApprovals first.2 !! id = None
  /\ exists s,
       Background.promises first.2 !! id = Some s
       /\ s <> Pending
       /\ (Js.isStr (Js.get data "decision") "approved" = false ->
           s = Rejected (Js.VObject [("code", Js.VNumber (Num.ofZ 4001));
                                     ("message", Js.VString "User rejected request")]))
       /\ forall data' stored' nowNonce' nowStamp' rpc',
            Js.get data' "id" = Js.VString id ->
            let second := Background.handleResolveApproval decryptSession atob btoa
                            naclFromSeed naclSign data' stored' nowNonce' nowStamp' rpc'
                            first.2 in
            second.1 = [("success", Js.VBool false); ("error", Js.VString "Request not found")]
            /\ Background.promises second.2 !! id = Some s
            /\ Background.resolveCalls decryptSession atob btoa naclFromSeed naclSign
                 data' stored' nowNonce' nowStamp' rpc' first.2 = [].
Proof.
  intros Ha Hp Hid first.
  destruct (DecisionFacts.resolve_known decryptSession atob btoa naclFromSeed naclSign
              id a data stored nowNonce nowStamp rpc st Ha Hp Hid)
    as (H1 & H2 & s & Hs & Hne & Hrej).
  fold first in H1, H2, Hs.
  split; [exact H1|]. split; [exact H2|]. exists s.
  split; [exact Hs|]. split; [exact Hne|]. split; [exact Hrej|].
  intros data' stored' nowNonce' nowStamp' rpc' Hid' second.
  destruct (DecisionFacts.resolve_unknown decryptSession atob btoa naclFromSeed naclSign
              data' stored' nowNonce' nowStamp' rpc' first.2)
    as (G1 & _ & G2 & _ & G3).
  { intros i Hi. rewrite Hid' in Hi. injection Hi as <-. exact H2. }
  fold second in G1, G2.
  split; [exact G1|]. split; [rewrite G2; exact Hs|exact G3].
Qed.

(** A connection request rejected in the popup, then approved too late. *)
Lemma approval_decided_once_witness :
  let st := Background.requestApproval "https://d.app" "connect"
              [("title", Js.VString "d")] None "id-1" 5 Background.initial in
  let reject := [("id", Js.VString "id-1"); ("decision", Js.VString "rejected")] in
  let approve := [("id", Js.VString "id-1"); ("decision", Js.VString "approved")] in
  let resolve data s :=
    Background.handleResolveApproval Sample.decryptSession Sample.atob Sample.btoa
      Sample.naclFromSeed Sample.naclSign data Background.ReadNothing 6 6
      (Background.FetchFails "offline") s in
  exists s,
    Background.promises (resolve reject st).2 !! "id-1" = Some s
    /\ (resolve approve (resolve reject st).2).1
       = [("success", Js.VBool false); ("error", Js.VString "Request not found")]
    /\ Background.promises (resolve approve (resolve reject st).2).2 !! "id-1" = Some s.
Proof.
  intros st reject approve resolve.
  destruct (approval_decided_once Sample.decryptSession Sample.atob Sample.btoa
              Sample.naclFromSeed Sample.naclSign "id-1"
              {| Background.type := "connect"; Background.origin := "https://d.app";
                 Background.params := [("title", Js.VString "d")];
                 Background.wallet := None; Background.timestamp := 5 |}
              reject Background.ReadNothing 6 6 (Background.FetchFails "offline") st)
    as (_ & _ & s & Hs & _ & _ & Hsecond).
  - apply lookup_insert_eq.
  - apply lookup_insert_eq.
  - reflexivity.
  - exists s. split; [exact Hs|].
    destruct (Hsecond approve Background.ReadNothing 6 6 (Background.FetchFails "offline")
                eq_refl) as (G1 & G2 & _).
    split; [exact G1|exact G2].
Defined.


(** X20. The worker signs only what was approved. Every call of
    [nacl.sign.detached] made by [handleResolveApproval] is for an approval
    that is in the table and that the message decides as ['approved'], of
    type [signMessage], [signTransaction] or [sendTransaction]; the bytes
    signed are those of the parameters stored with the approval when it was
    requested (the signing message of the stored payload, or the JSON of
    the six fields of the stored transaction), signed with a wallet that has
    a key. Nothing else in the message of the popup bears on them. *)
Theorem signs_only_approved
  (decryptSession : Js.value -> Js.value -> Completion Js.value)
  (atob : string -> Completion string) (btoa : string -> string)
  (naclFromSeed : Bytes.bytes -> Completion (Bytes.bytes * Bytes.bytes))
  (naclSign : Bytes.bytes -> Bytes.bytes -> Completion Bytes.bytes)
  (data : Js.object) (stored : Background.StorageRead) (nowNonce nowStamp : Z)
  (rpc : Background.Broadcast) (st : Background.State) (call : Background.SignCall) :
  call ∈ Background.resolveCalls decryptSession atob btoa naclFromSeed naclSign
           data stored nowNonce nowStamp rpc st ->
  exists id a,
    Js.get data "id" = Js.VString id
    /\ Background.dappApprovals st !! id = Some a
    /\ Js.get data "decision" = Js.VString "approved"
    /\ ((Background.type a = "signMessage"
         /\ exists props,
              Background.ownProperties (Js.get (Background.params a) "payload") = Normal props
              /\ Background.message call = Bytes.utf8 (Osm1.createSigningMessage props))
        \/ ((Background.type a = "signTransaction" \/ Background.type a = "sendTransaction")
            /\ exists w,
                 Js.truthy (Background.keyOf w) = true
                 /\ Background.message call
                    = Bytes.utf8 (Js.stringifyObject
                                    (Background.six
                                       (Background.transactionOf (Background.params a) w
                                          nowNonce nowStamp))))).
Proof.
  unfold Background.resolveCalls.
  destruct (DecisionFacts.key_handoff data st) as (Hda & _).
  set (st1 := if Js.truthy (Js.get data "sessionKey") then _ else st) in *.
  rewrite Hda.
  destruct (Js.get data "id") as [| | | |id| |] eqn:Hid; try (intros H; inversion H; fail).
  destruct (Background.dappApprovals st !! id) as [a|] eqn:Ha; [|intros H; inversion H].
  cbn [fmap option_fmap option_map].
  destruct (Js.get data "decision") as [| | | |decision| |] eqn:Hd;
    cbn [Js.isStr]; try (intros H; inversion H; fail).
  destruct (String.eqb decision "approved") eqn:He; [|intros H; inversion H].
  apply String.eqb_eq in He. subst decision.
  set (st2 := Background.withApprovals st1 _ _).
  assert (Hw : forall w, (Background.signingWalletOf decryptSession a stored st2).1 = Normal w ->
                         Js.truthy (Background.keyOf w) = true).
  { intros w. unfold Background.signingWalletOf.
    destruct (Js.truthy (Background.keyOf (default [] (Background.wallet a)))) eqn:Hk.
    - intros [= <-]. exact Hk.
    - destruct (Background.getWalletFromStorage decryptSession stored st2) as [[fresh|] st3].
      + destruct (Js.truthy (Background.keyOf fresh)) eqn:Hf; [|discriminate].
        intros [= <-]. exact Hf.
      + discriminate. }
  destruct (Background.signingWalletOf decryptSession a stored st2).1 as [w|e];
    [|intros H; inversion H].
  specialize (Hw w eq_refl).
  unfold Background.approvedCalls. intros Hin.
  exists id, a. do 3 (split; [first [reflexivity|assumption]|]).
  destruct (String.eqb (Background.type a) "sendTransaction") eqn:H1.
  { apply String.eqb_eq in H1. right. split; [right; exact H1|]. exists w. split; [exact Hw|].
    rewrite TransactionFacts.signAndBroadcastTransaction_calls in Hin.
    exact (proj1 (TransactionFacts.signTransactionOnly_calls atob btoa naclFromSeed naclSign
                    _ _ _ _ call Hin)). }
  destruct (String.eqb (Background.type a) "signTransaction") eqn:H2.
  { apply String.eqb_eq in H2. right. split; [left; exact H2|]. exists w. split; [exact Hw|].
    exact (proj1 (TransactionFacts.signTransactionOnly_calls atob btoa naclFromSeed naclSign
                    _ _ _ _ call Hin)). }
  destruct (String.eqb (Background.type a) "signMessage") eqn:H3; [|inversion Hin].
  apply String.eqb_eq in H3. left. split; [exact H3|].
  rewrite Hw in Hin. cbn [negb] in Hin.
  exact (DecisionFacts.signMessageWithKey_calls atob btoa naclFromSeed naclSign _ _ call Hin).
Qed.

(** The message of the sample wallet, approved. *)
Lemma signs_only_approved_witness :
  let payload := [("version", Js.VString "OSM-1"); ("message", Js.VString "hi")] in
  let st := Background.requestApproval "https://d.app" "signMessage"
              [("payload", Js.VObject payload)] (Some Sample.wallet) "id-1" 5
              Background.initial in
  let data := [("id", Js.VString "id-1"); ("decision", Js.VString "approved")] in
  let call := {| Background.message := Bytes.utf8 (Osm1.createSigningMessage payload);
                 Background.secretKey := Bytes.ofBinaryString (Sample.seed +:+ Sample.seed) |} in
  exists id a,
    Js.get data "id" = Js.VString id
    /\ Background.dappApprovals st !! id = Some a
    /\ Js.get data "decision" = Js.VString "approved"
    /\ ((Background.type a = "signMessage"
         /\ exists props,
              Background.ownProperties (Js.get (Background.params a) "payload") = Normal props
              /\ Background.message call = Bytes.utf8 (Osm1.createSigningMessage props))
        \/ ((Background.type a = "signTransaction" \/ Background.type a = "sendTransaction")
            /\ exists w,
                 Js.truthy (Background.keyOf w) = true
                 /\ Background.message call
                    = Bytes.utf8 (Js.stringifyObject
                                    (Background.six
                                       (Background.transactionOf (Background.params a) w
                                          6 7))))).
Proof.
  intros payload st data call.
  apply (signs_only_approved Sample.decryptSession Sample.atob Sample.btoa
           Sample.naclFromSeed Sample.naclSign data Background.ReadNothing 6 7
           (Background.FetchFails "offline") st call).
  assert (Hcalls : Background.resolveCalls Sample.decryptSession Sample.atob Sample.btoa
                     Sample.naclFromSeed Sample.naclSign data Background.ReadNothing 6 7
                     (Background.FetchFails "offline") st = [call])
    by (vm_compute; reflexivity).
  rewrite Hcalls. apply list_elem_of_here.
Defined.

(** ** Nonces *)

Module FillFacts.

Lemma ensureNonce_fills (txParams : Js.object) (lookup : Background.NonceLookup) (now : Z) :
  (Js.get txParams "nonce" = Js.VUndefined \/ Js.get txParams "nonce" = Js.VNull
   \/ exists x, Js.get txParams "nonce" = Js.VNumber x) ->
  (exists x, Js.get (Background.ensureNonce txParams lookup now) "nonce" = Js.VNumber x)
  /\ (forall k, k <> "nonce" ->
        Js.get (Background.ensureNonce txParams lookup now) k = Js.get txParams k).
Proof.
  intros H. unfold Background.ensureNonce.
  destruct H as [H|[H|[x H]]]; rewrite H.
  - destruct lookup; (split; [eexists; apply JsFacts.get_set_eq|]);
      intros k Hk; apply JsFacts.get_set_ne; congruence.
  - destruct lookup; (split; [eexists; apply JsFacts.get_set_eq|]);
      intros k Hk; apply JsFacts.get_set_ne; congruence.
  - split; [exists x; exact H|reflexivity].
Qed.

Lemma number_or (x : Num.number) (z : Z) :
  0 < z < 2 ^ 53 ->
  Num.isNaN (Js.toNumber (Js.or (Js.VNumber x) (Js.VNumber (Num.ofZ z)))) = false.
Proof.
  intros Hz. unfold Js.or. cbn [Js.truthy].
  destruct (Num.truthy x) eqn:Hx.
  - cbn [Js.toNumber]. destruct x; try reflexivity; discriminate Hx.
  - cbn [Js.toNumber]. apply NumFacts.ofZ_not_NaN, Hz.
Qed.

End FillFacts.

(** X21. Filling the nonce gives a nonce that signing accepts. When the
    parameters of a transaction (the object under [transaction], or the
    parameters themselves) have no nonce, [null] or a number for a nonce,
    the auto-fill leaves a number in them, whatever the network says, and
    the nonce of the transaction built by [signTransactionOnly] is a number
    that is not [NaN]: the check ['Invalid nonce'] passes. *)
Theorem filled_nonce_is_valid
  (params wallet : Js.object) (lookup : Background.NonceLookup)
  (nowFill nowNonce nowStamp : Z) :
  (Js.truthy (Js.get params "transaction") = false
   \/ exists tx, Js.get params "transaction" = Js.VObject tx) ->
  (let nonce := Js.get (Background.txParamsOf params) "nonce" in
   nonce = Js.VUndefined \/ nonce = Js.VNull \/ exists x, nonce = Js.VNumber x) ->
  0 < nowNonce < 2 ^ 53 ->
  exists params',
    Background.fillNonce params lookup nowFill = Normal params'
    /\ (exists x, Js.get (Background.txParamsOf params') "nonce" = Js.VNumber x)
    /\ exists y,
         Js.get (Background.withMessage params'
                   (Background.transactionOf params' wallet nowNonce nowStamp)) "nonce"
         = Js.VNumber y
         /\ Num.isNaN y = false.
Proof.
  intros Hwrap Hnonce Hnow.
  assert (Hfinal : forall params',
            (exists x, Js.get (Background.txParamsOf params') "nonce" = Js.VNumber x) ->
            exists y,
              Js.get (Background.withMessage params'
                        (Background.transactionOf params' wallet nowNonce nowStamp)) "nonce"
              = Js.VNumber y
              /\ Num.isNaN y = false).
  { intros params' [x Hx].
    destruct (TransactionFacts.transactionOf_fields params' wallet nowNonce nowStamp)
      as (_ & _ & _ & Hn & _).
    exists (Js.toNumber (Js.or (Js.VNumber x) (Js.VNumber (Num.ofZ nowNonce)))). split.
    - unfold Background.withMessage.
      destruct (Js.truthy (Js.get (Background.txParamsOf params') "message")).
      + rewrite JsFacts.get_set_ne by discriminate. rewrite Hn, Hx. reflexivity.
      + rewrite Hn, Hx. reflexivity.
    - apply FillFacts.number_or, Hnow. }
  unfold Background.fillNonce. unfold Background.txParamsOf, Js.or in Hnonce.
  destruct Hwrap as [Hfalse|[tx Htx]].
  - rewrite Hfalse in Hnonce |- *. cbn [Js.asObject] in Hnonce.
    destruct (FillFacts.ensureNonce_fills params lookup nowFill Hnonce) as [Hx Hframe].
    eexists. split; [reflexivity|].
    assert (Hsame : Background.txParamsOf (Background.ensureNonce params lookup nowFill)
                    = Background.ensureNonce params lookup nowFill).
    { unfold Background.txParamsOf, Js.or. rewrite Hframe by discriminate.
      rewrite Hfalse. reflexivity. }
    split; [rewrite Hsame; exact Hx|]. apply Hfinal. rewrite Hsame. exact Hx.
  - rewrite Htx in Hnonce |- *. cbn [Js.truthy Js.asObject] in Hnonce |- *.
    destruct (FillFacts.ensureNonce_fills tx lookup nowFill Hnonce) as [Hx _].
    eexists. split; [reflexivity|].
    assert (Hsame : Background.txParamsOf
                      (Js.set params "transaction"
                         (Js.VObject (Background.ensureNonce tx lookup nowFill)))
                    = Background.ensureNonce tx lookup nowFill).
    { unfold Background.txParamsOf, Js.or. rewrite JsFacts.get_set_eq. reflexivity. }
    split; [rewrite Hsame; exact Hx|]. apply Hfinal. rewrite Hsame. exact Hx.
Qed.

(** A transaction without a nonce, when the node does not answer. *)
Lemma filled_nonce_is_valid_witness :
  let params := [("to", Js.VString "octB"); ("amount", Js.VString "1.5")] in
  exists params',
    Background.fillNonce params Background.LookupThrows 1700000000000 = Normal params'
    /\ (exists x, Js.get (Background.txParamsOf params') "nonce" = Js.VNumber x)
    /\ exists y,
         Js.get (Background.withMessage params'
                   (Background.transactionOf params' Sample.wallet
                      1700000000500 1700000000600)) "nonce"
         = Js.VNumber y
         /\ Num.isNaN y = false.
Proof.
  intros params.
  apply (filled_nonce_is_valid params Sample.wallet Background.LookupThrows
           1700000000000 1700000000500 1700000000600).
  - left. reflexivity.
  - left. reflexivity.
  - lia.
Defined.

(** ** What the dApp is told *)

(** X22. A rejected approval reaches the dApp with the code 4001, whatever
    made it fail. [handleSignMessage] answers every rejection with ['User
    rejected message signing'], the transaction handlers with the message
    of the rejection (their own when it has none); only [handleConnect]
    passes the code of the rejection on. So when the user approves and
    signing then fails, because [atob] throws on the key, the promise is
    rejected with the code 5000 and the dApp is told 4001. *)
Theorem failed_signing_reported_as_rejection
  (decryptSession : Js.value -> Js.value -> Completion Js.value)
  (atob : string -> Completion string) (btoa : string -> string)
  (naclFromSeed : Bytes.bytes -> Completion (Bytes.bytes * Bytes.bytes))
  (naclSign : Bytes.bytes -> Bytes.bytes -> Completion Bytes.bytes)
  (id : string) (a : Background.Approval) (w data : Js.object) (e : string)
  (stored : Background.StorageRead) (nowNonce nowStamp : Z) (rpc : Background.Broadcast)
  (st : Background.State) :
  Background.dappApprovals st !! id = Some a ->
  Background.promises st !! id = Some Pending ->
  Background.type a = "signMessage" ->
  Background.wallet a = Some w ->
  Js.truthy (Background.keyOf w) = true ->
  atob (Js.toString (Background.keyOf w)) = Throw e ->
  Js.get data "id" = Js.VString id ->
  Js.get data "decision" = Js.VString "approved" ->
  let r := Background.handleResolveApproval decryptSession atob btoa naclFromSeed naclSign
             data stored nowNonce nowStamp rpc st in
  let failure := Js.VObject [("code", Js.VNumber (Num.ofZ 5000));
                             ("message", Js.or (Js.VString e)
                                               (Js.VString "Internal signing error"))] in
  Background.promises r.2 !! id = Some (Rejected failure)
  /\ Background.resolveCalls decryptSession atob btoa naclFromSeed naclSign
       data stored nowNonce nowStamp rpc st = []
  /\ (forall err,
        Background.handleSignMessageResume (Rejected err)
        = Some [("error", Js.VObject [("code", Js.VNumber (Num.ofZ 4001));
                                      ("message", Js.VString "User rejected message signing")])])
  /\ (forall err own,
        exists message,
          Background.handleTransactionResume own (Rejected err)
          = Some [("error", Js.VObject [("code", Js.VNumber (Num.ofZ 4001));
                                        ("message", message)])]
          /\ message = (if Js.truthy (Js.get (Js.asObject err) "message")
                        then Js.get (Js.asObject err) "message" else Js.VString own))
  /\ (forall origin title favicon err now stored' st',
        Background.handleConnectResume decryptSession origin title favicon (Rejected err)
          now stored' st'
        = Some ([("error", Js.VObject
                    [("code", Js.or (Js.get (Js.asObject err) "code")
                                    (Js.VNumber (Num.ofZ 4001)));
                     ("message", Js.or (Js.get (Js.asObject err) "message")
                                       (Js.VString "User rejected connection request"))])],
                st')).
Proof.
  intros Ha Hp Htype Hwallet Hkey Hatob Hid Hdecision r failure.
  split; [|split; [|split; [|split]]].
  - subst r failure. unfold Background.handleResolveApproval. rewrite Hid, Hdecision.
    destruct (Js.truthy (Js.get data "sessionKey"));
      cbn [Background.withSessionKey Background.dappApprovals Background.promises];
      rewrite Ha; cbn [fmap option_fmap option_map Js.isStr String.eqb Ascii.eqb Bool.eqb];
      unfold Background.signingWalletOf; rewrite Hwallet; cbn [default from_option Datatypes.id];
      rewrite Hkey; cbn [mbind Completion_bind];
      unfold Background.approvedEffect; rewrite Htype;
      cbn [String.eqb Ascii.eqb Bool.eqb]; rewrite Hkey; cbn [negb];
      unfold Background.signMessageWithKey; rewrite Hatob; cbn [snd mbind Completion_bind];
      unfold Background.withApprovals;
      cbn [Background.promises Background.dappApprovals Background.withSessionKey snd];
      apply PromiseFacts.settle_pending; exact Hp.
  - unfold Background.resolveCalls. rewrite Hid, Hdecision.
    destruct (Js.truthy (Js.get data "sessionKey"));
      cbn [Background.withSessionKey Background.dappApprovals Background.promises];
      rewrite Ha; cbn [fmap option_fmap option_map Js.isStr String.eqb Ascii.eqb Bool.eqb];
      unfold Background.signingWalletOf; rewrite Hwallet; cbn [default from_option Datatypes.id];
      rewrite Hkey; cbn [fst]; unfold Background.approvedCalls; rewrite Htype;
      cbn [String.eqb Ascii.eqb Bool.eqb]; rewrite Hkey; cbn [negb];
      unfold Background.signMessageWithKey; rewrite Hatob; reflexivity.
  - intros err. reflexivity.
  - intros err own. eexists. split; [reflexivity|]. reflexivity.
  - reflexivity.
Qed.

(** A wallet whose key is not base64, on a platform that checks it. *)
Lemma failed_signing_reported_as_rejection_witness :
  let atob (s : string) : Completion string :=
    if String.eqb s "not base64" then Throw "invalid character" else Normal s in
  let w := [("address", Js.VString "oct1"); ("privateKey", Js.VString "not base64")] in
  let st := Background.requestApproval "https://d.app" "signMessage"
              [("payload", Js.VObject [("message", Js.VString "hi")])] (Some w) "id-1" 5
              Background.initial in
  let data := [("id", Js.VString "id-1"); ("decision", Js.VString "approved")] in
  let r := Background.handleResolveApproval Sample.decryptSession atob Sample.btoa
             Sample.naclFromSeed Sample.naclSign data Background.ReadNothing 6 7
             (Background.FetchFails "offline") st in
  Background.promises r.2 !! "id-1"
  = Some (Rejected (Js.VObject [("code", Js.VNumber (Num.ofZ 5000));
                                ("message", Js.VString "invalid character")]))
  /\ Background.handleSignMessageResume
       (Rejected (Js.VObject [("code", Js.VNumber (Num.ofZ 5000));
                              ("message", Js.VString "invalid character")]))
     = Some [("error", Js.VObject [("code", Js.VNumber (Num.ofZ 4001));
                                   ("message", Js.VString "User rejected message signing")])].
Proof.
  intros atob w st data r.
  destruct (failed_signing_reported_as_rejection Sample.decryptSession atob Sample.btoa
              Sample.naclFromSeed Sample.naclSign "id-1"
              {| Background.type := "signMessage"; Background.origin := "https://d.app";
                 Background.params := [("payload", Js.VObject [("message", Js.VString "hi")])];
                 Background.wallet := Some w; Background.timestamp := 5 |}
              w data "invalid character" Background.ReadNothing 6 7
              (Background.FetchFails "offline") st)
    as (H1 & _ & H2 & _ & _).
  - apply lookup_insert_eq.
  - apply lookup_insert_eq.
  - reflexivity.
  - reflexivity.
  - reflexivity.
  - reflexivity.
  - reflexivity.
  - reflexivity.
  - split; [exact H1|apply H2].
Defined.

(** ** The session *)

(** X23. Unlocking with the session key. After a [SYNC_SESSION] message
    that brings the session key, with the encrypted session in the session
    storage, [getWalletFromStorage] gives the session with the decrypted key
    as [privateKey] and [privateKeyB64] and every other property as stored,
    whatever the storage holds by then; the decrypted key is not kept: the
    cache still holds the encrypted session. After [RESET_EVERYTHING], with
    the storage cleared, there is no wallet. *)
Theorem unlock_with_session_key
  (decryptSession : Js.value -> Js.value -> Completion Js.value)
  (session data : Js.object) (key plain : Js.value)
  (st : Background.State) :
  Js.get data "sessionKey" = key ->
  Js.truthy key = true ->
  Js.truthy (Js.get session "encryptedPrivateKey") = true ->
  decryptSession (Js.get session "encryptedPrivateKey") key = Normal plain ->
  Js.truthy plain = true ->
  let st1 := Background.handleSyncSession data (Background.ReadSession session) st in
  Background.memorySessionKey st1 = key
  /\ Background.activeSessionCache st1 = Some session
  /\ (forall stored,
        exists w,
          Background.getWalletFromStorage decryptSession stored st1 = (Some w, st1)
          /\ Js.get w "privateKey" = plain
          /\ Js.get w "privateKeyB64" = plain
          /\ (forall k, k <> "privateKey" -> k <> "privateKeyB64" ->
                Js.get w k = Js.get session k))
  /\ Background.getWalletFromStorage decryptSession Background.ReadNothing
       (Background.resetEverything st1)
     = (None, Background.resetEverything st1).
Proof.
  intros Hdata Hkey Henc Hdec Hplain st1.
  assert (Hst1 : st1 = Background.withSession (Background.withSessionKey st key) (Some session)).
  { subst st1. unfold Background.handleSyncSession. rewrite Hdata, Hkey. reflexivity. }
  rewrite Hst1. split; [reflexivity|]. split; [reflexivity|]. split; [|reflexivity].
  intros stored.
  exists (Js.assignAll session [("privateKey", plain); ("privateKeyB64", plain)]).
  split.
  - unfold Background.getWalletFromStorage.
    cbn [Background.currentSession Background.withSession Background.withSessionKey
         Background.activeSessionCache Background.memorySessionKey].
    unfold Background.decrypted. rewrite Henc, Hkey, Hdec, Hplain. reflexivity.
  - destruct (SessionFacts.keyOf_unlocked session plain Hplain) as (H1 & H2 & _).
    split; [exact H1|]. split; [exact H2|].
    intros k Hk1 Hk2. unfold Js.assignAll. cbn [foldl fst snd].
    rewrite !JsFacts.get_set_ne by congruence. reflexivity.
Qed.

(** The sample cipher: the ciphertext is the key followed by the seed. *)
Lemma unlock_with_session_key_witness :
  let session := [("address", Js.VString "oct1");
                  ("encryptedPrivateKey", Js.VString ("k1" +:+ Sample.seed))] in
  let st1 := Background.handleSyncSession [("sessionKey", Js.VString "k1")]
               (Background.ReadSession session) Background.initial in
  exists w,
    Background.getWalletFromStorage Sample.decryptSession Background.ReadNothing st1
    = (Some w, st1)
    /\ Js.get w "privateKey" = Js.VString Sample.seed
    /\ Js.get w "address" = Js.VString "oct1".
Proof.
  intros session st1.
  destruct (unlock_with_session_key Sample.decryptSession session
              [("sessionKey", Js.VString "k1")] (Js.VString "k1") (Js.VString Sample.seed)
              Background.initial eq_refl eq_refl eq_refl eq_refl eq_refl)
    as (_ & _ & Hw & _).
  destruct (Hw Background.ReadNothing) as (w & H1 & H2 & _ & H3).
  exists w. split; [exact H1|]. split; [exact H2|].
  rewrite H3 by discriminate. reflexivity.
Defined.

(** ** Approvals that wait *)

Module WaitFacts.

Section Wait.

Variable decryptSession : Js.value -> Js.value -> Completion Js.value.
Variable atob : string -> Completion string.
Variable btoa : string -> string.
Variable naclFromSeed : Bytes.bytes -> Completion (Bytes.bytes * Bytes.bytes).
Variable naclSign : Bytes.bytes -> Bytes.bytes -> Completion Bytes.bytes.

(** An approval that is gone with its promise still pending stays so,
    unless its id is used again. *)
Lemma step_orphan (id : string) (ev : Background.Event) (st : Background.State) :
  Requests.creates id ev = false ->
  Background.dappApprovals st !! id = None ->
  Background.promises st !! id = Some Pending ->
  let st' := Background.step decryptSession atob btoa naclFromSeed naclSign st ev in
  Background.dappApprovals st' !! id = None
  /\ Background.promises st' !! id = Some Pending.
Proof.
  intros Hc Ha Hp st'. subst st'.
  destruct (Background.touches id ev) eqn:Ht.
  - destruct ev; try discriminate Ht; try (cbn in Hc, Ht; congruence).
    + cbn [Background.touches] in Ht. cbn [Background.step].
      destruct (Js.get data "id") as [| | | |i| |] eqn:Hi; try discriminate Ht.
      cbn [Js.isStr] in Ht. apply String.eqb_eq in Ht. subst i.
      destruct (DecisionFacts.resolve_unknown decryptSession atob btoa naclFromSeed naclSign
                  data stored nowNonce nowStamp rpc st) as (_ & G1 & G2 & _).
      { intros i Hi'. rewrite Hi in Hi'. injection Hi' as <-. exact Ha. }
      rewrite G1, G2. split; assumption.
    + cbn [Background.step Background.resetEverything Background.dappApprovals
           Background.promises]. split; [apply lookup_empty|exact Hp].
  - destruct (BrokerFacts.step_same decryptSession atob btoa naclFromSeed naclSign
                id ev st Ht) as [G1 G2].
    rewrite G1, G2. split; assumption.
Qed.

Lemma steps_orphan (id : string) (evs : list Background.Event) (st : Background.State) :
  forallb (fun ev => negb (Requests.creates id ev)) evs = true ->
  Background.dappApprovals st !! id = None ->
  Background.promises st !! id = Some Pending ->
  let st' := foldl (Background.step decryptSession atob btoa naclFromSeed naclSign) st evs in
  Background.dappApprovals st' !! id = None
  /\ Background.promises st' !! id = Some Pending.
Proof.
  revert st. induction evs as [|ev evs IH]; intros st Hev Ha Hp; [split; assumption|].
  simpl in Hev. apply andb_prop in Hev. destruct Hev as [H1 H2].
  apply negb_true_iff in H1.
  destruct (step_orphan id ev st H1 Ha Hp) as [Ha' Hp'].
  simpl. apply IH; assumption.
Qed.

End Wait.

End WaitFacts.

(** X24. An approval waits for its decision and for nothing else. While
    no event decides it, stores another approval under its id or resets the
    worker, the approval stays in the table and its promise stays pending:
    alarms, session syncs, disconnections, other requests and the decisions
    of other approvals leave it there, however late it gets. The worker has
    no timeout of its own. *)
Theorem approval_never_expires
  (decryptSession : Js.value -> Js.value -> Completion Js.value)
  (atob : string -> Completion string) (btoa : string -> string)
  (naclFromSeed : Bytes.bytes -> Completion (Bytes.bytes * Bytes.bytes))
  (naclSign : Bytes.bytes -> Bytes.bytes -> Completion Bytes.bytes)
  (id : string) (a : Background.Approval) (evs : list Background.Event)
  (st : Background.State) :
  forallb (fun ev => negb (Background.touches id ev)) evs = true ->
  Background.dappApprovals st !! id = Some a ->
  Background.promises st !! id = Some Pending ->
  let st' := foldl (Background.step decryptSession atob btoa naclFromSeed naclSign) st evs in
  Background.dappApprovals st' !! id = Some a
  /\ Background.promises st' !! id = Some Pending.
Proof. apply BrokerFacts.approval_waits. Qed.

(** A connection request that nobody decides, hours of alarms later. *)
Lemma approval_never_expires_witness :
  let st := (Background.handleConnect Sample.decryptSession "https://d.app"
               (Js.VString "d") Js.VUndefined "id-1" 5 Background.ReadNothing
               Background.initial).2 in
  let evs := [Background.Alarm Background.ReadNothing;
              Background.SyncSession [("sessionKey", Js.VString "k1")] Background.ReadNothing;
              Background.Disconnect "https://other.app";
              Background.ResolveApproval [("id", Js.VString "id-2");
                                          ("decision", Js.VString "approved")]
                Background.ReadNothing 86400000 86400000 (Background.FetchFails "offline");
              Background.Alarm Background.ReadNothing] in
  let st' := foldl (Background.step Sample.decryptSession Sample.atob Sample.btoa
                      Sample.naclFromSeed Sample.naclSign) st evs in
  Background.promises st' !! "id-1" = Some Pending.
Proof.
  intros st evs st'.
  refine (proj2 (approval_never_expires Sample.decryptSession Sample.atob Sample.btoa
                   Sample.naclFromSeed Sample.naclSign "id-1"
                   {| Background.type := "connect"; Background.origin := "https://d.app";
                      Background.params := [("title", Js.VString "d");
                                            ("favicon", Js.VUndefined)];
                      Background.wallet := None; Background.timestamp := 5 |}
                   evs st _ _ _)).
  - reflexivity.
  - apply lookup_insert_eq.
  - apply lookup_insert_eq.
Defined.

(** X25. [RESET_EVERYTHING] empties the table of approvals and settles no
    promise: a request that was waiting for a decision is never answered by
    the worker afterwards. Its promise stays pending through every later
    event, a decision for its id included, which is answered ['Request not
    found'], until an approval is stored under the same id. *)
Theorem reset_orphans_approvals
  (decryptSession : Js.value -> Js.value -> Completion Js.value)
  (atob : string -> Completion string) (btoa : string -> string)
  (naclFromSeed : Bytes.bytes -> Completion (Bytes.bytes * Bytes.bytes))
  (naclSign : Bytes.bytes -> Bytes.bytes -> Completion Bytes.bytes)
  (id : string) (evs : list Background.Event) (st : Background.State) :
  Background.promises st !! id = Some Pending ->
  forallb (fun ev => negb (Requests.creates id ev)) evs = true ->
  let reset := Background.resetEverything st in
  let st' := foldl (Background.step decryptSession atob btoa naclFromSeed naclSign)
               reset evs in
  Background.dappApprovals reset = ∅
  /\ Background.dappConnections reset = ∅
  /\ Background.dappApprovals st' !! id = None
  /\ Background.promises st' !! id = Some Pending
  /\ (forall data stored nowNonce nowStamp rpc,
        Js.get data "id" = Js.VString id ->
        (Background.handleResolveApproval decryptSession atob btoa naclFromSeed naclSign
           data stored nowNonce nowStamp rpc st').1
        = [("success", Js.VBool false); ("error", Js.VString "Request not found")]).
Proof.
  intros Hp Hevs reset st'.
  destruct (WaitFacts.steps_orphan decryptSession atob btoa naclFromSeed naclSign
              id evs reset Hevs) as [Ha' Hp'].
  { apply lookup_empty. }
  { exact Hp. }
  fold st' in Ha', Hp'.
  split; [reflexivity|]. split; [reflexivity|]. split; [exact Ha'|]. split; [exact Hp'|].
  intros data stored nowNonce nowStamp rpc Hid.
  apply (DecisionFacts.resolve_unknown decryptSession atob btoa naclFromSeed naclSign).
  intros i Hi. rewrite Hid in Hi. injection Hi as <-. exact Ha'.
Qed.

(** A connection request, a reset, then the decision of the user. *)
Lemma reset_orphans_approvals_witness :
  let st := (Background.handleConnect Sample.decryptSession "https://d.app"
               (Js.VString "d") Js.VUndefined "id-1" 5 Background.ReadNothing
               Background.initial).2 in
  let evs := [Background.ResolveApproval [("id", Js.VString "id-1");
                                          ("decision", Js.VString "approved")]
                Background.ReadNothing 6 6 (Background.FetchFails "offline");
              Background.Alarm Background.ReadNothing] in
  let st' := foldl (Background.step Sample.decryptSession Sample.atob Sample.btoa
                      Sample.naclFromSeed Sample.naclSign)
               (Background.resetEverything st) evs in
  Background.promises st' !! "id-1" = Some Pending.
Proof.
  intros st evs st'.
  refine (proj1 (proj2 (proj2 (proj2
    (reset_orphans_approvals Sample.decryptSession Sample.atob Sample.btoa
       Sample.naclFromSeed Sample.naclSign "id-1" evs st _ _))))).
  - apply lookup_insert_eq.
  - reflexivity.
Defined.

(** ** The connections and requests of [DappService] *)

(** X26. A connection that is added is connected, whatever its [info]
    says: [addConnection] writes [connected: true] and the time over the
    properties of [info] and keeps the others; [isConnected] then gives
    [true] for that origin and what it gave before for every other one, and
    after [removeConnection] it gives [undefined] again. Pending requests
    are not touched. *)
Theorem addConnection_connects (origin : string) (info : Js.object) (now : Z)
  (st : DappService.State) :
  let st' := DappService.addConnection origin info now st in
  DappService.isConnected origin st' = Js.VBool true
  /\ (exists connection,
        DappService.getConnection origin st' = Some connection
        /\ Js.get connection "connectedAt" = Js.VNumber (Num.ofZ now)
        /\ (forall k, k <> "connected" -> k <> "connectedAt" ->
              Js.get connection k = Js.get info k))
  /\ (forall other, other <> origin ->
        DappService.isConnected other st' = DappService.isConnected other st)
  /\ DappService.pendingRequests st' = DappService.pendingRequests st
  /\ DappService.isConnected origin (DappService.removeConnection origin st') = Js.VUndefined
  /\ Js.truthy (DappService.isConnected origin (DappService.removeConnection origin st'))
     = false.
Proof.
  intros st'. subst st'.
  unfold DappService.isConnected, DappService.getConnection, DappService.addConnection,
    DappService.removeConnection.
  cbn [DappService.withConnections DappService.connections DappService.pendingRequests].
  rewrite lookup_insert_eq, lookup_delete_eq.
  unfold Js.assignAll. cbn [foldl fst snd].
  split.
  { rewrite JsFacts.get_set_ne by discriminate. apply JsFacts.get_set_eq. }
  split.
  { eexists. split; [reflexivity|]. split; [apply JsFacts.get_set_eq|].
    intros k H1 H2. rewrite !JsFacts.get_set_ne by congruence. reflexivity. }
  split.
  { intros other Hne. rewrite lookup_insert_ne by congruence. reflexivity. }
  repeat split; reflexivity.
Qed.

Module SweepFacts.

Lemma state_eq (a b : DappService.State) :
  DappService.connections a = DappService.connections b ->
  DappService.pendingRequests a = DappService.pendingRequests b ->
  DappService.continuations a = DappService.continuations b ->
  a = b.
Proof. destruct a, b. cbn. intros -> -> ->. reflexivity. Qed.

End SweepFacts.

(** X27. Sweeps add up. Sweeping the pending requests at one time and
    again at a later time leaves what a single sweep at the later time
    leaves; sweeping twice at the same time is sweeping once; and a request
    that was just added survives every sweep made within five minutes. *)
Theorem clearExpiredRequests_twice (earlier later : Z) (st : DappService.State) :
  earlier <= later ->
  DappService.clearExpiredRequests later (DappService.clearExpiredRequests earlier st)
  = DappService.clearExpiredRequests later st
  /\ DappService.clearExpiredRequests later (DappService.clearExpiredRequests later st)
     = DappService.clearExpiredRequests later st
  /\ (forall id request added,
        added <= earlier -> later - added <= 5 * 60 * 1000 ->
        DappService.getPendingRequest id
          (DappService.clearExpiredRequests later
             (DappService.clearExpiredRequests earlier
                (DappService.addPendingRequest id request added st)))
        = Some {| DappService.request := request; DappService.createdAt := added |}).
Proof.
  intros Hle.
  assert (Htwice : forall t1 t2 s, t1 <= t2 ->
            DappService.clearExpiredRequests t2 (DappService.clearExpiredRequests t1 s)
            = DappService.clearExpiredRequests t2 s).
  { intros t1 t2 s H12. apply SweepFacts.state_eq; try reflexivity.
    unfold DappService.clearExpiredRequests.
    cbn [DappService.withPending DappService.pendingRequests].
    rewrite map_filter_filter. apply map_filter_ext.
    intros i r _. cbn [snd]. unfold DappService.expiry. split; [tauto|].
    intros H. split; [exact H|]. lia. }
  split; [apply Htwice; exact Hle|]. split; [apply Htwice; lia|].
  intros id request added Ha Hl. rewrite (Htwice earlier later _ Hle).
  unfold DappService.getPendingRequest.
  apply (DappServiceFacts.lookup_swept_recent later _ id).
  - apply DappServiceFacts.lookup_added.
  - cbn [DappService.createdAt]. unfold DappService.expiry. lia.
Qed.

(** A request added at 1000, swept after two and after four minutes. *)
Lemma clearExpiredRequests_twice_witness :
  let st := {| DappService.connections := ∅; DappService.pendingRequests := ∅;
               DappService.continuations := ∅ |} in
  DappService.getPendingRequest "req-1"
    (DappService.clearExpiredRequests 241000
       (DappService.clearExpiredRequests 121000
          (DappService.addPendingRequest "req-1" [("type", Js.VString "connect")] 1000 st)))
  = Some {| DappService.request := [("type", Js.VString "connect")];
            DappService.createdAt := 1000 |}.
Proof.
  intros st.
  refine (proj2 (proj2 (clearExpiredRequests_twice 121000 241000 st _)) "req-1"
            [("type", Js.VString "connect")] 1000 _ _); lia.
Defined.

(** ** The listeners of the provider *)

Module EmitterFacts.

Import Inpage.

Lemma drop_lookup {A : Type} (l : list A) (k : nat) (x : A) :
  l !! k = Some x -> drop k l = x :: drop (S k) l.
Proof.
  revert k. induction l as [|y l IH]; intros [|k] H; try discriminate.
  - injection H as ->. reflexivity.
  - simpl. apply IH. exact H.
Qed.

(** Over plain listeners [forEach] calls every callback and leaves the
    array as it is. *)
Lemma forEach_plain (n k : nat) (listeners : list Listener) (called : list nat) :
  Forall (fun l => isPlain l = true) (drop k listeners) ->
  forEach n k listeners called
  = (called ++ (callbackOf <$> take n (drop k listeners)), listeners).
Proof.
  revert k called. induction n as [|n IH]; intros k called Hplain.
  - cbn [forEach take fmap list_fmap]. rewrite app_nil_r. reflexivity.
  - cbn [forEach]. destruct (listeners !! k) as [l|] eqn:Hk.
    + rewrite (drop_lookup _ _ _ Hk) in Hplain |- *.
      apply Forall_cons in Hplain. destruct Hplain as [Hl Hrest].
      destruct l as [callback|serial callback]; [|discriminate Hl].
      rewrite (IH (S k) _ Hrest). simpl. rewrite <- app_assoc. reflexivity.
    + apply lookup_ge_None in Hk. rewrite (drop_ge listeners k) by lia.
      rewrite (IH (S k)) by (rewrite drop_ge by lia; constructor).
      rewrite drop_ge by lia. rewrite take_nil. reflexivity.
Qed.

(** The plain listeners in front of the array are called in turn. *)
Lemma forEach_prefix (j m : nat) (before rest : list Listener) (called : list nat) :
  Forall (fun l => isPlain l = true) before -> (j <= length before)%nat ->
  forEach (j + m) (length before - j) (before ++ rest) called
  = forEach m (length before) (before ++ rest)
      (called ++ (callbackOf <$> drop (length before - j) before)).
Proof.
  intros Hplain. revert called. induction j as [|j IH]; intros called Hj.
  - rewrite Nat.sub_0_r, drop_all, app_nil_r. reflexivity.
  - assert (Hk : exists l, before !! (length before - S j)%nat = Some l)
      by (apply lookup_lt_is_Some; lia).
    destruct Hk as [l Hk].
    assert (Hl : isPlain l = true).
    { rewrite Forall_forall in Hplain. apply Hplain. eapply list_elem_of_lookup_2, Hk. }
    destruct l as [callback|serial callback]; [|discriminate Hl].
    simpl forEach. rewrite lookup_app_l by lia. rewrite Hk.
    replace (S (length before - S j)) with (length before - j)%nat by lia.
    rewrite IH by lia. rewrite (drop_lookup _ _ _ Hk).
    replace (S (length before - S j)) with (length before - j)%nat by lia.
    simpl. rewrite <- app_assoc. reflexivity.
Qed.

Lemma removeFirst_wrapper (serial callback : nat) (before rest : list Listener) :
  Forall (fun l => isPlain l = true) before ->
  removeFirst (Wrapper serial callback) (before ++ Wrapper serial callback :: rest)
  = before ++ rest.
Proof.
  induction 1 as [|l before Hl _ IH]; simpl.
  - rewrite decide_True by reflexivity. reflexivity.
  - destruct l; [|discriminate Hl]. rewrite decide_False by discriminate.
    rewrite IH. reflexivity.
Qed.

End EmitterFacts.

(** X28. A listener registered with [once] is called once, and the
    listener registered right after it misses that event. With only plain
    listeners registered for an event so far, after [once(event, f)] and
    [on(event, g)] the next [emit] calls the earlier listeners and [f], and
    does not call [g]: the wrapper of [f] takes itself out of the array
    that [forEach] is walking. The [emit] after that calls the earlier
    listeners and [g], and [f] no more. *)
Theorem once_listener_skips_next (event : string) (e : Inpage.Emitter)
  (before : list Inpage.Listener) (f g : nat) :
  default [] (Inpage.eventListeners e !! event) = before ->
  Forall (fun l => Inpage.isPlain l = true) before ->
  let e' := Inpage.on event (Inpage.Plain g) (Inpage.once event f e) in
  let first := Inpage.emit event e' in
  first.1 = (Inpage.callbackOf <$> before) ++ [f]
  /\ Inpage.eventListeners first.2 !! event = Some (before ++ [Inpage.Plain g])
  /\ (Inpage.emit event first.2).1 = (Inpage.callbackOf <$> before) ++ [g].
Proof.
  intros Hbefore Hplain e' first.
  assert (He' : Inpage.eventListeners e' !! event = Some (before ++ Inpage.Wrapper (Inpage.wrappers e) f :: [Inpage.Plain g])).
  { subst e'. unfold Inpage.on, Inpage.once, Inpage.on.
    cbn [Inpage.eventListeners Inpage.wrappers].
    rewrite !lookup_insert_eq. cbn [default from_option id].
    rewrite Hbefore, <- app_assoc. reflexivity. }
  assert (Hfirst : first = ((Inpage.callbackOf <$> before) ++ [f],
                            {| Inpage.eventListeners :=
                                 <[event := before ++ [Inpage.Plain g]]>
                                   (Inpage.eventListeners e');
                               Inpage.wrappers := Inpage.wrappers e' |})).
  { subst first. unfold Inpage.emit. rewrite He'.
    assert (Hrun : Inpage.forEach (length (before ++ Inpage.Wrapper (Inpage.wrappers e) f :: [Inpage.Plain g])) 0
                     (before ++ Inpage.Wrapper (Inpage.wrappers e) f :: [Inpage.Plain g]) []
                   = ((Inpage.callbackOf <$> before) ++ [f], before ++ [Inpage.Plain g])).
    { rewrite length_app. cbn [length].
      pose proof (EmitterFacts.forEach_prefix (length before) 2 before
                    (Inpage.Wrapper (Inpage.wrappers e) f :: [Inpage.Plain g]) [] Hplain (le_n _)) as Hp.
      rewrite Nat.sub_diag in Hp. rewrite Hp. cbn [app drop].
      cbn [Inpage.forEach].
      rewrite list_lookup_middle by reflexivity.
      rewrite !EmitterFacts.removeFirst_wrapper by exact Hplain.
      rewrite lookup_ge_None_2 by (rewrite length_app; cbn [length]; lia).
      reflexivity. }
    rewrite Hrun. reflexivity. }
  rewrite Hfirst. cbn [fst snd Inpage.eventListeners].
  split; [reflexivity|]. split; [apply lookup_insert_eq|].
  unfold Inpage.emit. cbn [Inpage.eventListeners]. rewrite lookup_insert_eq.
  rewrite EmitterFacts.forEach_plain.
  - cbn [fst app]. rewrite drop_0, firstn_all, fmap_app. reflexivity.
  - rewrite drop_0. apply Forall_app. split; [exact Hplain|].
    apply Forall_cons. split; [reflexivity|constructor].
Qed.

(** One listener of ['connect'], then [once] and [on]. *)
Lemma once_listener_skips_next_witness :
  let e := Inpage.on "connect" (Inpage.Plain 1)
             {| Inpage.eventListeners := ∅; Inpage.wrappers := 0 |} in
  let e' := Inpage.on "connect" (Inpage.Plain 3) (Inpage.once "connect" 2 e) in
  (Inpage.emit "connect" e').1 = [1; 2]%nat
  /\ (Inpage.emit "connect" (Inpage.emit "connect" e').2).1 = [1; 3]%nat.
Proof.
  intros e e'.
  destruct (once_listener_skips_next "connect" e [Inpage.Plain 1] 2%nat 3%nat)
    as (H1 & _ & H2).
  - reflexivity.
  - apply Forall_cons. split; [reflexivity|constructor].
  - split; [exact H1|exact H2].
Defined.

(** ** Transactions that are not signed *)

(** X29. [signTransactionOnly] checks before it signs. When the wallet has
    no address or the transaction no recipient, it throws ['Invalid
    transaction parameters: From and To are required'], and when the nonce
    is not a number, ['Invalid nonce']; in both cases the signature
    primitive is not called, [signAndBroadcastTransaction] throws the same
    error without a call of its own or a broadcast, and so does the effect
    of an approved [signTransaction] or [sendTransaction] approval for those
    parameters. *)
Theorem invalid_transaction_not_signed
  (atob : string -> Completion string) (btoa : string -> string)
  (naclFromSeed : Bytes.bytes -> Completion (Bytes.bytes * Bytes.bytes))
  (naclSign : Bytes.bytes -> Bytes.bytes -> Completion Bytes.bytes)
  (params wallet : Js.object) (nowNonce nowStamp : Z) (rpc : Background.Broadcast) :
  let tx := Background.transactionOf params wallet nowNonce nowStamp in
  let sign := Background.signTransactionOnly atob btoa naclFromSeed naclSign
                params wallet nowNonce nowStamp in
  let send := Background.signAndBroadcastTransaction atob btoa naclFromSeed naclSign
                params wallet nowNonce nowStamp rpc in
  ((Js.truthy (Js.get wallet "address") = false
    \/ Js.truthy (Js.get (Background.txParamsOf params) "to") = false) ->
   sign = ([], Throw "Invalid transaction parameters: From and To are required")
   /\ send = sign)
  /\ (Js.truthy (Js.get wallet "address") = true ->
      Js.truthy (Js.get (Background.txParamsOf params) "to") = true ->
      Num.isNaN (Js.toNumber (Js.get tx "nonce")) = true ->
      sign = ([], Throw "Invalid nonce") /\ send = sign)
  /\ (forall e approval result,
        sign = ([], Throw e) ->
        Background.type approval = "signTransaction"
        \/ Background.type approval = "sendTransaction" ->
        Background.params approval = params ->
        Background.approvedEffect atob btoa naclFromSeed naclSign approval result wallet
          nowNonce nowStamp rpc = Throw e
        /\ Background.approvedCalls atob btoa naclFromSeed naclSign approval wallet
             nowNonce nowStamp rpc = []).
Proof.
  intros tx sign send.
  destruct (TransactionFacts.transactionOf_fields params wallet nowNonce nowStamp)
    as (_ & Hfrom & Hto & _).
  fold tx in Hfrom, Hto.
  assert (Hsix : forall k, k <> "message" ->
            Js.get (Background.withMessage params tx) k = Js.get tx k).
  { intros k Hk. unfold Background.withMessage.
    destruct (Js.truthy (Js.get (Background.txParamsOf params) "message")); [|reflexivity].
    apply JsFacts.get_set_ne. congruence. }
  assert (Hsend : forall e, sign = ([], Throw e) -> send = sign).
  { intros e He. subst send. unfold Background.signAndBroadcastTransaction.
    fold sign. rewrite He. reflexivity. }
  split; [|split].
  - intros Hmissing.
    assert (Hs : sign = ([], Throw "Invalid transaction parameters: From and To are required")).
    { subst sign. unfold Background.signTransactionOnly. fold tx.
      rewrite !Hsix by discriminate. rewrite Hfrom, Hto.
      destruct Hmissing as [H|H]; rewrite H; [reflexivity|].
      destruct (Js.truthy (Js.get wallet "address")); reflexivity. }
    split; [exact Hs|exact (Hsend _ Hs)].
  - intros Haddress Hrecipient Hnan.
    assert (Hs : sign = ([], Throw "Invalid nonce")).
    { subst sign. unfold Background.signTransactionOnly. fold tx.
      rewrite !Hsix by discriminate. rewrite Hfrom, Hto, Haddress, Hrecipient, Hnan.
      reflexivity. }
    split; [exact Hs|exact (Hsend _ Hs)].
  - intros e approval result He Htype Hparams.
    pose proof (Hsend e He) as Hse. rewrite He in Hse.
    unfold Background.approvedEffect, Background.approvedCalls. rewrite Hparams.
    fold sign send. rewrite He, Hse.
    destruct Htype as [-> | ->]; split; reflexivity.
Qed.

(** A transaction without a recipient. *)
Lemma invalid_transaction_not_signed_witness :
  Background.signTransactionOnly Sample.atob Sample.btoa Sample.naclFromSeed Sample.naclSign
    [("amount", Js.VString "1.5")] Sample.wallet 1700000000000 1700000000123
  = ([], Throw "Invalid transaction parameters: From and To are required").
Proof.
  refine (proj1 (proj1 (invalid_transaction_not_signed Sample.atob Sample.btoa
                          Sample.naclFromSeed Sample.naclSign
                          [("amount", Js.VString "1.5")] Sample.wallet
                          1700000000000 1700000000123 (Background.FetchFails "offline")) _)).
  right. reflexivity.
Defined.

(** ** From the page to the verifier *)


